(** * VisionSense.ai: the frame-sampling and feature-extraction pipeline

    A shallow embedding of [video_features/extractor.py] (the sampling loop
    of [VideoFeatureExtractor.extract_features], its helpers and the final
    aggregation), of [cli._merge], of [video_features/settings.py] and of
    the upload checks and the [/extract] endpoint of [app.py], followed by
    the properties of the written specification.

    Python integers are [Z]; Python floats are an abstract type with the
    handful of operations the extractor uses (class [PyFloat]); the text
    the OCR returns is a sequence of Unicode code points; OpenCV, Tesseract
    and the YOLO model are external capabilities (class [Backend]);
    exceptions are values of [exn] carried by [result]. *)

From Stdlib Require Import ZArith Lia Ascii String Floats DecimalString DecimalZ.
From stdpp Require Import base option list gmap strings sorting.

Open Scope Z_scope.

(** ** Exceptions and fallible computations *)

(** Exceptions raised by the capabilities the extractor calls into:
    [cv2.error], [pytesseract.TesseractError], errors of the detection
    model.  They are library classes of their own, kept apart from the
    built-in exceptions the extractor raises itself. *)
Inductive fault : Type :=
| Cv2Error (msg : string)
| TesseractError (msg : string)
| DetectorError (msg : string).

Inductive exn : Type :=
| FileNotFoundError (msg : string)
| ValueError (msg : string)
| ZeroDivisionError
| FrozenInstanceError (msg : string)
| BackendError (f : fault).

Inductive result (A : Type) : Type :=
| Ok (a : A)
| Raise (e : exn).

Arguments Ok {A} a.
Arguments Raise {A} e.

#[global] Instance result_ret : MRet result := fun A a => Ok a.

#[global] Instance result_bind : MBind result :=
  fun A B f m => match m with Ok a => f a | Raise e => Raise e end.

#[global] Instance result_fmap : FMap result :=
  fun A B f m => match m with Ok a => Ok (f a) | Raise e => Raise e end.

(** A call into a capability: its fault, if any, surfaces as an exception of
    the caller. *)
Definition call {A} (r : fault + A) : result A :=
  match r with
  | inr a => Ok a
  | inl f => Raise (BackendError f)
  end.

(** A call that raises exceptions of any class. *)
Definition raising {A} (r : exn + A) : result A :=
  match r with
  | inr a => Ok a
  | inl e => Raise e
  end.

Definition is_ok {A} (r : result A) : bool :=
  match r with Ok _ => true | Raise _ => false end.

(** Python's [a % b] on integers: floor modulo (the sign of the divisor),
    [ZeroDivisionError] when [b] is zero. *)
Definition py_mod (a b : Z) : result Z :=
  if b =? 0 then Raise ZeroDivisionError else Ok (a mod b).

(** ** Python floats *)

Class PyFloat : Type := {
  pyfloat : Type;
  f_zero : pyfloat;                         (* the literal 0.0 *)
  f_lit : Z -> Z -> pyfloat;                (* the literal m * 10^e, as 0.45 *)
  f_of_int : Z -> pyfloat;                  (* float(n) *)
  f_add : pyfloat -> pyfloat -> pyfloat;    (* x + y *)
  f_mul : pyfloat -> pyfloat -> pyfloat;    (* x * y *)
  f_div : pyfloat -> pyfloat -> pyfloat;    (* x / y, y nonzero *)
  int_truediv : Z -> Z -> pyfloat;          (* a / b on two ints, b nonzero *)
  f_gt : pyfloat -> pyfloat -> bool;        (* x > y *)
  f_is_zero : pyfloat -> bool;              (* not x *)
  f_trunc : pyfloat -> Z;                   (* int(x), x finite *)
}.

(** ** Configuration ([extractor.py], lines 13-41) *)

Record FarnebackParams `{PyFloat} : Type := {
  pyr_scale : pyfloat;
  levels : Z;
  winsize : Z;
  iterations : Z;
  poly_n : Z;
  poly_sigma : pyfloat;
  flags : Z;
}.

Record HistogramParams : Type := {
  bins : Z * Z * Z;
  ranges : Z * Z * Z * Z * Z * Z;
}.

Record FeatureExtractionConfig `{PyFloat} : Type := {
  frame_stride : Z;
  resize_width : Z;
  shot_threshold : pyfloat;
  text_sample_stride : Z;
  text_min_chars : Z;
  yolo_model : string;
  yolo_frame_stride : Z;
  farneback : FarnebackParams;
  hist : HistogramParams;
}.

(** The field defaults of the three dataclasses. *)
Definition default_farneback `{PyFloat} : FarnebackParams :=
  {| pyr_scale := f_lit 5 (-1); levels := 3; winsize := 15; iterations := 3;
     poly_n := 5; poly_sigma := f_lit 12 (-1); flags := 0 |}.

Definition default_hist : HistogramParams :=
  {| bins := (8, 8, 8); ranges := (0, 180, 0, 256, 0, 256) |}.

Definition default_config `{PyFloat} : FeatureExtractionConfig :=
  {| frame_stride := 5; resize_width := 640; shot_threshold := f_lit 45 (-2);
     text_sample_stride := 10; text_min_chars := 8;
     yolo_model := "yolov8n.pt"; yolo_frame_stride := 15;
     farneback := default_farneback; hist := default_hist |}.

(** [@dataclass(frozen=True)]: the generated [__setattr__] raises
    [FrozenInstanceError] for every attribute name and leaves the instance
    as it was.  The outcome is the exception or the updated instance. *)
Definition config_setattr `{PyFloat} {V : Type} (cfg : FeatureExtractionConfig)
    (name : string) (value : V) : result FeatureExtractionConfig :=
  Raise (FrozenInstanceError ("cannot assign to field '" ++ name ++ "'")).

(** ** Command line overrides ([cli.py], lines 32-57) *)

(** The [argparse.Namespace] of [_parser]: every override is [None] unless
    its option was given. *)
Record Namespace `{PyFloat} : Type := {
  arg_frame_stride : option Z;
  arg_resize_width : option Z;
  arg_shot_threshold : option pyfloat;
  arg_text_sample_stride : option Z;
  arg_text_min_chars : option Z;
  arg_yolo_frame_stride : option Z;
  arg_yolo_model : option string;
}.

Definition _merge `{PyFloat} (base : FeatureExtractionConfig) (args : Namespace)
  : FeatureExtractionConfig :=
  {| frame_stride := default (frame_stride base) (arg_frame_stride args);
     resize_width := default (resize_width base) (arg_resize_width args);
     shot_threshold := default (shot_threshold base) (arg_shot_threshold args);
     text_sample_stride :=
       default (text_sample_stride base) (arg_text_sample_stride args);
     text_min_chars := default (text_min_chars base) (arg_text_min_chars args);
     yolo_frame_stride :=
       default (yolo_frame_stride base) (arg_yolo_frame_stride args);
     yolo_model := default (yolo_model base) (arg_yolo_model args);
     farneback := farneback base;
     hist := hist base |}.

(** ** Detection results *)

(** An attribute that an object may lack ([hasattr] / [getattr] with a
    default). *)
Inductive attr (A : Type) : Type :=
| NoAttr
| Attr (a : A).

Arguments NoAttr {A}.
Arguments Attr {A} a.

Definition getattr {A} (o : attr A) (dflt : A) : A :=
  match o with Attr a => a | NoAttr => dflt end.

(** [result.boxes]: its [cls] tensor is [None] or holds one class id per
    detection; the tensor is represented by the list [cls.int().tolist()]
    yields. *)
Record Boxes : Type := {
  cls : option (list Z);
}.

(** The first element of what the detector returns for one frame.  [names]
    and [boxes] may be missing or [None]; [names] maps class ids to labels. *)
Record Results : Type := {
  names : attr (option (gmap Z string));
  boxes : attr (option Boxes);
}.

(** ** Python text *)

(** A [str] is a sequence of Unicode code points. *)
Definition pystr : Type := list N.

(** [c.isspace()], the table of CPython's [_PyUnicode_IsWhitespace]: the
    code points of bidirectional type WS, B or S or of category Zs. *)
Definition py_isspace (c : N) : bool :=
  (((0x09 <=? c) && (c <=? 0x0D)) || ((0x1C <=? c) && (c <=? 0x20)) ||
   (c =? 0x85) || (c =? 0xA0) || (c =? 0x1680) ||
   ((0x2000 <=? c) && (c <=? 0x200A)) ||
   (c =? 0x2028) || (c =? 0x2029) || (c =? 0x202F) || (c =? 0x205F) ||
   (c =? 0x3000))%N.

Fixpoint py_lstrip (s : pystr) : pystr :=
  match s with
  | [] => []
  | c :: s' => if py_isspace c then py_lstrip s' else s
  end.

(** [s.strip()] *)
Definition py_strip (s : pystr) : pystr :=
  rev (py_lstrip (rev (py_lstrip s))).

(** [len(s)] *)
Definition py_len (s : pystr) : Z := Z.of_nat (length s).

(** The join of [items] with the empty separator. *)
Definition py_join_empty (items : list pystr) : pystr := concat items.

(** Text made of whitespace only. *)
Definition only_spaces (s : pystr) : bool := forallb py_isspace s.

(** Text that does not begin with whitespace. *)
Definition no_leading_space (s : pystr) : bool :=
  match s with
  | [] => true
  | c :: _ => negb (py_isspace c)
  end.

(** ** The capabilities *)

Class Backend `{PyFloat} : Type := {
  frame : Type;          (* a BGR image, [np.ndarray] *)
  histogram : Type;      (* a normalised 3-channel histogram *)
  gray_image : Type;     (* a grayscale image *)
  detector : Type;       (* a loaded [YOLO] model *)
  (* [frame.shape[:2]], height first *)
  frame_shape : frame -> Z * Z;
  (* [cv2.resize(frame, (w, h), interpolation=cv2.INTER_AREA)] *)
  cv2_resize : frame -> Z * Z -> fault + frame;
  (* [cv2.cvtColor(frame, cv2.COLOR_BGR2HSV)], [cv2.calcHist], [cv2.normalize] *)
  cv2_hsv_hist : HistogramParams -> frame -> fault + histogram;
  (* [cv2.compareHist(h1, h2, cv2.HISTCMP_BHATTACHARYYA)] *)
  cv2_compareHist : histogram -> histogram -> fault + pyfloat;
  (* [cv2.cvtColor(frame, cv2.COLOR_BGR2GRAY)] *)
  cv2_bgr2gray : frame -> fault + gray_image;
  (* [cv2.calcOpticalFlowFarneback], [cv2.cartToPolar], [np.mean] *)
  cv2_flow_mean_magnitude :
    FarnebackParams -> gray_image -> gray_image -> fault + pyfloat;
  (* grayscale, Gaussian blur, adaptive threshold, then
     [pytesseract.image_to_data(binary, ...).get("text", [])] *)
  ocr_fragments : frame -> fault + list pystr;
  (* [YOLO(model)]: loading the weights raises what it will, built-in
     exceptions included ([FileNotFoundError] for weights that are missing) *)
  YOLO : string -> exn + detector;
  (* [detector.names] *)
  detector_names : detector -> attr (option (gmap Z string));
  (* [detector(frame, verbose=False)[0]] *)
  detector_call : detector -> frame -> fault + Results;
}.

(** ** The decode handle and the file system *)

Section Extractor.
Context `{Backend}.

(** What one [cap.read()] does when frames are left: it hands out the next
    frame, or the decoder fails.  When none is left it returns
    [(False, None)]. *)
Inductive read_result : Type :=
| Grabbed (frame_bgr : frame)
| DecodeError (f : fault).

(** A container the decoder can open. *)
Record Video : Type := {
  video_fps : pyfloat;            (* [cap.get(cv2.CAP_PROP_FPS)] *)
  video_frame_count : pyfloat;    (* [cap.get(cv2.CAP_PROP_FRAME_COUNT)] *)
  video_reads : list read_result;
}.

Inductive File : Type :=
| VideoFile (v : Video)
| OtherFile.

Record FileSystem : Type := {
  files : gmap string File;
  resolve : string -> string;     (* [str(Path(p).resolve())] *)
}.

(** [Path(p).exists()] *)
Definition path_exists (fs : FileSystem) (p : string) : bool :=
  bool_decide (is_Some (files fs !! p)).

(** A [cv2.VideoCapture] object.  [release_calls] counts the calls of
    [release()]. *)
Record VideoCapture : Type := {
  opened : bool;
  CAP_PROP_FPS : pyfloat;
  CAP_PROP_FRAME_COUNT : pyfloat;
  pending : list read_result;
  release_calls : nat;
}.

(** [cv2.VideoCapture(path)]: the constructor never raises; a path that
    is no decodable container gives a handle that is not opened. *)
Definition cv2_VideoCapture (fs : FileSystem) (p : string) : VideoCapture :=
  match files fs !! p with
  | Some (VideoFile v) =>
      {| opened := true; CAP_PROP_FPS := video_fps v;
         CAP_PROP_FRAME_COUNT := video_frame_count v;
         pending := video_reads v; release_calls := 0 |}
  | _ =>
      {| opened := false; CAP_PROP_FPS := f_zero;
         CAP_PROP_FRAME_COUNT := f_zero; pending := []; release_calls := 0 |}
  end.

(** [cap.isOpened()] *)
Definition isOpened (cap : VideoCapture) : bool := opened cap.

(** [cap.release()]: closes the handle; calling it again is harmless. *)
Definition release (cap : VideoCapture) : VideoCapture :=
  {| opened := false; CAP_PROP_FPS := CAP_PROP_FPS cap;
     CAP_PROP_FRAME_COUNT := CAP_PROP_FRAME_COUNT cap;
     pending := []; release_calls := S (release_calls cap) |}.

Definition set_pending (cap : VideoCapture) (rest : list read_result)
  : VideoCapture :=
  {| opened := opened cap; CAP_PROP_FPS := CAP_PROP_FPS cap;
     CAP_PROP_FRAME_COUNT := CAP_PROP_FRAME_COUNT cap;
     pending := rest; release_calls := release_calls cap |}.

(** Code that uses the handle: an outcome and the handle afterwards. *)
Definition Cap (A : Type) : Type := VideoCapture -> result A * VideoCapture.

(** [try: body finally: final]: [final] runs whatever [body] did, and the
    outcome of [body] stands unless [final] raises. *)
Definition try_finally {A} (body : Cap A) (final : Cap unit) : Cap A :=
  fun cap =>
    let '(r, cap1) := body cap in
    let '(u, cap2) := final cap1 in
    (match u with Ok _ => r | Raise e => Raise e end, cap2).

Definition cap_release : Cap unit := fun cap => (Ok tt, release cap).

(** ** The extractor ([extractor.py], lines 43-201) *)

Record VideoFeatureExtractor : Type := {
  config : FeatureExtractionConfig;
  self_detector : detector;
}.

(** [__init__]: [config or FeatureExtractionConfig()], then the model is
    loaded. *)
Definition VideoFeatureExtractor_init (cfg : option FeatureExtractionConfig)
  : result VideoFeatureExtractor :=
  let config := default default_config cfg in
  det ← raising (YOLO (yolo_model config));
  mret {| config := config; self_detector := det |}.

(** [a / float(w)] *)
Definition div_by_float_of (a w : Z) : result pyfloat :=
  if w =? 0 then Raise ZeroDivisionError
  else Ok (f_div (f_of_int a) (f_of_int w)).

Definition _resize_to_width (frame_bgr : frame) (target_w : Z) : result frame :=
  let '(h, w) := frame_shape frame_bgr in
  if w <=? target_w then Ok frame_bgr
  else
    scale ← div_by_float_of target_w w;
    let new_size := (target_w, f_trunc (f_mul (f_of_int h) scale)) in
    call (cv2_resize frame_bgr new_size).

Definition _hsv_histogram (self : VideoFeatureExtractor) (frame_bgr : frame)
  : result histogram :=
  call (cv2_hsv_hist (hist (config self)) frame_bgr).

Definition _bhattacharyya (h1 h2 : histogram) : result pyfloat :=
  call (cv2_compareHist h1 h2).

Definition _avg_optical_flow_magnitude (self : VideoFeatureExtractor)
    (prev_gray curr_gray : gray_image) : result pyfloat :=
  call (cv2_flow_mean_magnitude (farneback (config self)) prev_gray curr_gray).

Definition _contains_text (frame_bgr : frame) (min_chars : Z) : result bool :=
  data_text ← call (ocr_fragments frame_bgr);
  let text := py_strip (py_join_empty data_text) in
  mret (min_chars <=? py_len text).

(** One turn of the [for] loop of [_count_people_vs_objects]. *)
Definition count_label (names : gmap Z string) (acc : Z * Z) (cls_id : Z)
  : Z * Z :=
  let '(people, others) := acc in
  let label := default "" (names !! cls_id) in
  if String.eqb label "person" then (people + 1, others)
  else (people, others + 1).

(** The body of [_count_people_vs_objects] once the detector has answered. *)
Definition count_in_result (det : detector) (res : Results) : Z * Z :=
  let names : gmap Z string :=
    default ∅ (getattr (names res) (getattr (detector_names det) (Some ∅))) in
  match boxes res with
  | NoAttr | Attr None => (0, 0)
  | Attr (Some bx) =>
      match cls bx with
      | None => (0, 0)
      | Some classes => fold_left (count_label names) classes (0, 0)
      end
  end.

Definition _count_people_vs_objects (self : VideoFeatureExtractor)
    (frame_bgr : frame) : result (Z * Z) :=
  res ← call (detector_call (self_detector self) frame_bgr);
  mret (count_in_result (self_detector self) res).

(** The local variables of [extract_features] that the loop updates. *)
Record Locals : Type := {
  absolute_frame_index : Z;
  processed_frames : Z;
  hard_cuts : Z;
  text_samples : Z;
  text_positives : Z;
  motion_samples : Z;
  motion_magnitude_sum : pyfloat;
  person_total : Z;
  object_total : Z;
  prev_hist : option histogram;
  prev_gray : option gray_image;
}.

(** Lines 61-72. *)
Definition initial_locals : Locals :=
  {| absolute_frame_index := -1; processed_frames := 0; hard_cuts := 0;
     text_samples := 0; text_positives := 0; motion_samples := 0;
     motion_magnitude_sum := f_zero; person_total := 0; object_total := 0;
     prev_hist := None; prev_gray := None |}.

(** Lines 84-109: what the loop does with an accepted frame.
    [index] is the value [absolute_frame_index] already has. *)
Definition sample_frame (self : VideoFeatureExtractor) (index : Z)
    (frame_bgr : frame) (st : Locals) : result Locals :=
  let cfg := config self in
  let processed := processed_frames st + 1 in
  frame_small_bgr ← _resize_to_width frame_bgr (resize_width cfg);
  curr_hist ← _hsv_histogram self frame_small_bgr;
  cuts ←
    match prev_hist st with
    | Some ph =>
        color_distance ← _bhattacharyya ph curr_hist;
        mret (if f_gt color_distance (shot_threshold cfg)
              then hard_cuts st + 1 else hard_cuts st)
    | None => mret (hard_cuts st)
    end;
  curr_gray ← call (cv2_bgr2gray frame_small_bgr);
  motion ←
    match prev_gray st with
    | Some pg =>
        avg_mag ← _avg_optical_flow_magnitude self pg curr_gray;
        mret (f_add (motion_magnitude_sum st) avg_mag, motion_samples st + 1)
    | None => mret (motion_magnitude_sum st, motion_samples st)
    end;
  text_due ← py_mod processed (text_sample_stride cfg);
  text ←
    (if text_due =? 0 then
       found ← _contains_text frame_small_bgr (text_min_chars cfg);
       mret (text_samples st + 1,
             if found : bool then text_positives st + 1 else text_positives st)
     else mret (text_samples st, text_positives st));
  yolo_due ← py_mod processed (yolo_frame_stride cfg);
  counts ←
    (if yolo_due =? 0 then
       found ← _count_people_vs_objects self frame_small_bgr;
       mret (person_total st + fst found, object_total st + snd found)
     else mret (person_total st, object_total st));
  mret {| absolute_frame_index := index; processed_frames := processed;
          hard_cuts := cuts;
          text_samples := fst text; text_positives := snd text;
          motion_samples := snd motion; motion_magnitude_sum := fst motion;
          person_total := fst counts; object_total := snd counts;
          prev_hist := Some curr_hist; prev_gray := Some curr_gray |}.

Definition set_index (index : Z) (st : Locals) : Locals :=
  {| absolute_frame_index := index; processed_frames := processed_frames st;
     hard_cuts := hard_cuts st; text_samples := text_samples st;
     text_positives := text_positives st; motion_samples := motion_samples st;
     motion_magnitude_sum := motion_magnitude_sum st;
     person_total := person_total st; object_total := object_total st;
     prev_hist := prev_hist st; prev_gray := prev_gray st |}.

(** Lines 80-109: one turn of the loop on a frame that was read. *)
Definition loop_body (self : VideoFeatureExtractor) (frame_bgr : frame)
    (st : Locals) : result Locals :=
  let index := absolute_frame_index st + 1 in
  skip ← py_mod index (frame_stride (config self));
  if negb (skip =? 0) then mret (set_index index st)      (* continue *)
  else sample_frame self index frame_bgr st.

(** Lines 75-109: [while True] over what the handle still has to give; the
    second component is what is left unread when the loop is left. *)
Fixpoint while_true (self : VideoFeatureExtractor) (reads : list read_result)
    (st : Locals) : result Locals * list read_result :=
  match reads with
  | [] => (Ok st, [])                                     (* not ok: break *)
  | DecodeError f :: rest => (Raise (BackendError f), rest)
  | Grabbed frame_bgr :: rest =>
      match loop_body self frame_bgr st with
      | Ok st' => while_true self rest st'
      | Raise e => (Raise e, rest)
      end
  end.

Definition frame_loop (self : VideoFeatureExtractor) (st : Locals) : Cap Locals :=
  fun cap =>
    let '(r, rest) := while_true self (pending cap) st in
    (r, set_pending cap rest).

Record Report : Type := {
  video_path : string;
  duration_seconds : option pyfloat;
  frames_total : Z;
  frames_processed : Z;
  report_hard_cuts : Z;
  avg_motion_magnitude : pyfloat;
  text_present_ratio : pyfloat;
  people_detections : Z;
  object_detections : Z;
  person_to_object_ratio : option pyfloat;
}.

(** Lines 113-128: the report built from the locals after the loop. *)
Definition build_report (resolved : string) (duration : option pyfloat)
    (total_frames : Z) (st : Locals) : Report :=
  let avg_motion :=
    if motion_samples st =? 0 then f_zero
    else f_div (motion_magnitude_sum st) (f_of_int (motion_samples st)) in
  let text_ratio :=
    if text_samples st =? 0 then f_zero
    else int_truediv (text_positives st) (text_samples st) in
  let person_object_ratio :=
    if object_total st =? 0 then None
    else Some (int_truediv (person_total st) (object_total st)) in
  {| video_path := resolved;
     duration_seconds := duration;
     frames_total := total_frames;
     frames_processed := processed_frames st;
     report_hard_cuts := hard_cuts st;
     avg_motion_magnitude := avg_motion;
     text_present_ratio := text_ratio;
     people_detections := person_total st;
     object_detections := object_total st;
     person_to_object_ratio := person_object_ratio |}.

(** [extract_features]: the outcome, and the decode handle as the call
    leaves it ([None] when no handle was made). *)
Definition extract_features (fs : FileSystem) (self : VideoFeatureExtractor)
    (video_file : string) : result Report * option VideoCapture :=
  if negb (path_exists fs video_file) then
    (Raise (FileNotFoundError ("Video not found: " ++ video_file)), None)
  else
    let cap := cv2_VideoCapture fs video_file in
    if negb (isOpened cap) then
      (Raise (ValueError ("Unable to open video: " ++ video_file)), Some cap)
    else
      let fps :=
        if f_is_zero (CAP_PROP_FPS cap) then f_zero else CAP_PROP_FPS cap in
      let total_frames :=
        if f_is_zero (CAP_PROP_FRAME_COUNT cap) then 0
        else f_trunc (CAP_PROP_FRAME_COUNT cap) in
      let duration_seconds :=
        if f_gt fps f_zero then Some (f_div (f_of_int total_frames) fps)
        else None in
      let '(r, cap') :=
        try_finally (frame_loop self initial_locals) cap_release cap in
      (st ← r;
       mret (build_report (resolve fs video_file) duration_seconds
               total_frames st),
       Some cap').

(** ** The [try] block of the [/extract] endpoint ([app.py], lines 135-147) *)

Inductive Response : Type :=
| JSONResponse (content : Report) (status_code : Z)
| HTTPException (status_code : Z) (detail : string) (cause : option exn).

(** Lines 135-141 and 147, the [try] block of [extract] and its two
    handlers: what the endpoint answers once the upload is stored at
    [temp_path]; [cfg] is what [_build_feature_config()] gives.  The whole
    endpoint, with the upload checks before the [try] and the [finally]
    after it, is [extract] below. *)
Definition extract_response (fs : FileSystem) (cfg : FeatureExtractionConfig)
    (temp_path : string) : Response :=
  let outcome :=
    extractor ← VideoFeatureExtractor_init (Some cfg);
    fst (extract_features fs extractor temp_path) in
  match outcome with
  | Ok features => JSONResponse features 200
  | Raise (FileNotFoundError _) =>
      HTTPException 400 "Failed to read uploaded video file." None
  | Raise exc => HTTPException 500 "Video processing failed." (Some exc)
  end.

(** ** Vocabulary of the specification *)

(** The frames the stride policy accepts, each with its absolute index:
    those of [frames], numbered from [i] on, whose number is a multiple of
    [stride]. *)
Fixpoint accepted_from (stride i : Z) (frames : list frame) : list (Z * frame) :=
  match frames with
  | [] => []
  | f :: rest =>
      if i mod stride =? 0 then (i, f) :: accepted_from stride (i + 1) rest
      else accepted_from stride (i + 1) rest
  end.

Definition accepted_frames (stride : Z) (frames : list frame) : list (Z * frame) :=
  accepted_from stride 0 frames.

(** The analyzers run on a list of accepted frames, one after the other. *)
Fixpoint sample_all (self : VideoFeatureExtractor) (l : list (Z * frame))
    (st : Locals) : result Locals :=
  match l with
  | [] => Ok st
  | (i, f) :: rest => st' ← sample_frame self i f st; sample_all self rest st'
  end.

(** [ceil(a / b)] for a positive [b]. *)
Definition ceil_div (a b : Z) : Z := (a + b - 1) / b.

(** The grayscale image the motion estimator sees for a frame. *)
Definition gray_of (self : VideoFeatureExtractor) (f : frame) : result gray_image :=
  small ← _resize_to_width f (resize_width (config self));
  call (cv2_bgr2gray small).

Fixpoint grays_of (self : VideoFeatureExtractor) (l : list (Z * frame))
  : result (list gray_image) :=
  match l with
  | [] => Ok []
  | (_, f) :: rest =>
      g ← gray_of self f; gs ← grays_of self rest; mret (g :: gs)
  end.

(** One mean flow magnitude for each image that has a predecessor, as the
    flow capability gives it for the pair with the Farneback parameters of
    the configuration; [prev] is the image before the first of the list, if
    any. *)
Fixpoint flow_samples (self : VideoFeatureExtractor) (prev : option gray_image)
    (grays : list gray_image) : result (list pyfloat) :=
  match grays with
  | [] => Ok []
  | g :: rest =>
      match prev with
      | None => flow_samples self (Some g) rest
      | Some p =>
          m ← call (cv2_flow_mean_magnitude (farneback (config self)) p g);
          ms ← flow_samples self (Some g) rest;
          mret (m :: ms)
      end
  end.

(** [sum] over the samples, accumulated left to right as the loop does. *)
Definition running_sum (start : pyfloat) (samples : list pyfloat) : pyfloat :=
  fold_left f_add samples start.

(** Everything a report says about the video, its path apart. *)
Definition measurements (r : Report)
  : option pyfloat * Z * Z * Z * pyfloat * pyfloat * Z * Z * option pyfloat :=
  (duration_seconds r, frames_total r, frames_processed r, report_hard_cuts r,
   avg_motion_magnitude r, text_present_ratio r, people_detections r,
   object_detections r, person_to_object_ratio r).

(** The label the counter gives a class id. *)
Definition label_of (names : gmap Z string) (cls_id : Z) : string :=
  default "" (names !! cls_id).

Definition persons_among (names : gmap Z string) (classes : list Z) : Z :=
  Z.of_nat (length (filter (fun c => label_of names c = "person") classes)).

Definition others_among (names : gmap Z string) (classes : list Z) : Z :=
  Z.of_nat (length (filter (fun c => label_of names c <> "person") classes)).

(** The names map [_count_people_vs_objects] ends up with. *)
Definition names_used (det : detector) (res : Results) : gmap Z string :=
  default ∅ (getattr (names res) (getattr (detector_names det) (Some ∅))).

(** The counters never go below zero. *)
Definition counts_nonneg (st : Locals) : Prop :=
  0 <= processed_frames st /\ 0 <= person_total st /\ 0 <= object_total st /\
  0 <= text_samples st /\ 0 <= motion_samples st.

(** The cuts counted so far: none before the first accepted frame, at most
    one for each accepted frame after the first. *)
Definition cuts_bounded (st : Locals) : Prop :=
  (processed_frames st = 0 /\ hard_cuts st = 0 /\ prev_hist st = None) \/
  (1 <= processed_frames st /\ 0 <= hard_cuts st <= processed_frames st - 1 /\
   is_Some (prev_hist st)).

(** Before [stride] frames have been accepted, the sub-sampled analyzers
    have not fired. *)
Definition late_start (self : VideoFeatureExtractor) (st : Locals) : Prop :=
  0 <= processed_frames st /\
  (processed_frames st < text_sample_stride (config self) ->
   text_samples st = 0 /\ text_positives st = 0) /\
  (processed_frames st < yolo_frame_stride (config self) ->
   person_total st = 0 /\ object_total st = 0).

(** One text sample for every [stride] accepted frames. *)
Definition text_floor (self : VideoFeatureExtractor) (st : Locals) : Prop :=
  text_samples st = processed_frames st / text_sample_stride (config self).


(** A backend none of whose capabilities faults. *)
Record reliable : Prop := {
  resize_returns : forall f size, exists g, cv2_resize f size = inr g;
  hsv_hist_returns : forall p f, exists h, cv2_hsv_hist p f = inr h;
  compareHist_returns : forall h1 h2, exists d, cv2_compareHist h1 h2 = inr d;
  bgr2gray_returns : forall f, exists g, cv2_bgr2gray f = inr g;
  flow_returns :
    forall p g1 g2, exists m, cv2_flow_mean_magnitude p g1 g2 = inr m;
  ocr_returns : forall f, exists l, ocr_fragments f = inr l;
  detector_returns : forall d f, exists res, detector_call d f = inr res;
}.

(** The configuration invariant of the specification. *)
Definition valid_config (cfg : FeatureExtractionConfig) : Prop :=
  1 <= frame_stride cfg /\ 1 <= text_sample_stride cfg /\
  1 <= yolo_frame_stride cfg /\ 0 <= resize_width cfg.


End Extractor.

(** ** Two runs whose capabilities answer alike *)

Section Alike.
Context `{PyFloat} (B1 B2 : Backend).

(** What a capability answers in two runs: the same fault, or two values
    that correspond. *)
Inductive answers_alike {A1 A2 : Type} (R : A1 -> A2 -> Prop)
  : fault + A1 -> fault + A2 -> Prop :=
| both_fault (flt : fault) : answers_alike R (inl flt) (inl flt)
| both_answer (a1 : A1) (a2 : A2) : R a1 a2 -> answers_alike R (inr a1) (inr a2).

(** Two outcomes: the same exception, or two values that correspond. *)
Inductive outcomes_alike {A1 A2 : Type} (R : A1 -> A2 -> Prop)
  : result A1 -> result A2 -> Prop :=
| both_Raise (e : exn) : outcomes_alike R (Raise e) (Raise e)
| both_Ok (a1 : A1) (a2 : A2) : R a1 a2 -> outcomes_alike R (Ok a1) (Ok a2).

(** The capabilities of the two runs give the same responses.  Images,
    histograms and the loaded model are handles the extractor only passes
    on, so they correspond ([Rf], [Rh], [Rg], [Rd]) when every capability
    answers alike on them; what the extractor reads off a response, that
    is shapes, distances, magnitudes, text and detections, is equal. *)
Record same_responses
    (Rf : @frame _ B1 -> @frame _ B2 -> Prop)
    (Rh : @histogram _ B1 -> @histogram _ B2 -> Prop)
    (Rg : @gray_image _ B1 -> @gray_image _ B2 -> Prop)
    (Rd : @detector _ B1 -> @detector _ B2 -> Prop) : Prop := {
  shape_alike : forall f1 f2,
    Rf f1 f2 -> @frame_shape _ B1 f1 = @frame_shape _ B2 f2;
  resize_alike : forall f1 f2 size,
    Rf f1 f2 ->
    answers_alike Rf (@cv2_resize _ B1 f1 size) (@cv2_resize _ B2 f2 size);
  hist_alike : forall p f1 f2,
    Rf f1 f2 ->
    answers_alike Rh (@cv2_hsv_hist _ B1 p f1) (@cv2_hsv_hist _ B2 p f2);
  compare_alike : forall h1 h2 k1 k2,
    Rh h1 h2 -> Rh k1 k2 ->
    @cv2_compareHist _ B1 h1 k1 = @cv2_compareHist _ B2 h2 k2;
  gray_alike : forall f1 f2,
    Rf f1 f2 ->
    answers_alike Rg (@cv2_bgr2gray _ B1 f1) (@cv2_bgr2gray _ B2 f2);
  flow_alike : forall p g1 g2 k1 k2,
    Rg g1 g2 -> Rg k1 k2 ->
    @cv2_flow_mean_magnitude _ B1 p g1 k1
      = @cv2_flow_mean_magnitude _ B2 p g2 k2;
  ocr_alike : forall f1 f2,
    Rf f1 f2 -> @ocr_fragments _ B1 f1 = @ocr_fragments _ B2 f2;
  names_alike : forall d1 d2,
    Rd d1 d2 -> @detector_names _ B1 d1 = @detector_names _ B2 d2;
  detect_alike : forall d1 d2 f1 f2,
    Rd d1 d2 -> Rf f1 f2 ->
    @detector_call _ B1 d1 f1 = @detector_call _ B2 d2 f2;
}.

(** What the decoder gives at one read in the two runs. *)
Inductive reads_alike (Rf : @frame _ B1 -> @frame _ B2 -> Prop)
  : @read_result _ B1 -> @read_result _ B2 -> Prop :=
| both_Grabbed (f1 : @frame _ B1) (f2 : @frame _ B2) :
    Rf f1 f2 -> reads_alike Rf (Grabbed f1) (Grabbed f2)
| both_DecodeError (flt : fault) :
    reads_alike Rf (DecodeError flt) (DecodeError flt).

(** What the path holds in the two runs: nothing, something that does not
    open, or a container with the same metadata whose reads are alike. *)
Inductive files_alike (Rf : @frame _ B1 -> @frame _ B2 -> Prop)
  : option (@File _ B1) -> option (@File _ B2) -> Prop :=
| both_missing : files_alike Rf None None
| both_other : files_alike Rf (Some OtherFile) (Some OtherFile)
| both_video (v1 : @Video _ B1) (v2 : @Video _ B2) :
    video_fps v1 = video_fps v2 ->
    video_frame_count v1 = video_frame_count v2 ->
    Forall2 (reads_alike Rf) (video_reads v1) (video_reads v2) ->
    files_alike Rf (Some (VideoFile v1)) (Some (VideoFile v2)).

(** The locals of the two runs: equal counters and sums, previous images
    that correspond. *)
Record locals_alike
    (Rh : @histogram _ B1 -> @histogram _ B2 -> Prop)
    (Rg : @gray_image _ B1 -> @gray_image _ B2 -> Prop)
    (st1 : @Locals _ B1) (st2 : @Locals _ B2) : Prop := {
  index_alike : absolute_frame_index st1 = absolute_frame_index st2;
  processed_alike : processed_frames st1 = processed_frames st2;
  cuts_alike : hard_cuts st1 = hard_cuts st2;
  text_samples_alike : text_samples st1 = text_samples st2;
  text_positives_alike : text_positives st1 = text_positives st2;
  motion_samples_alike : motion_samples st1 = motion_samples st2;
  motion_sum_alike : motion_magnitude_sum st1 = motion_magnitude_sum st2;
  person_alike : person_total st1 = person_total st2;
  object_alike : object_total st1 = object_total st2;
  prev_hist_alike : option_Forall2 Rh (prev_hist st1) (prev_hist st2);
  prev_gray_alike : option_Forall2 Rg (prev_gray st1) (prev_gray st2);
}.

End Alike.

(** ** Settings from the environment ([settings.py]) *)

(** The text of the environment, of file names and of messages is kept as
    strings; what Python does with its characters is left to the builtins:
    [int(s)] ([None] for its [ValueError]), [str(n)], [s.strip()],
    [Path(s).suffix] and [s.lower()]. *)
Class Builtins : Type := {
  py_int : string -> option Z;
  py_str : Z -> string;
  str_strip : string -> string;
  path_suffix : string -> string;
  py_lower : string -> string;
}.

(** [s.split(",")] *)
Fixpoint split_commas (s : string) : list string :=
  match s with
  | EmptyString => [EmptyString]
  | String c rest =>
      if Ascii.eqb c "," then EmptyString :: split_commas rest
      else
        match split_commas rest with
        | item :: items => String c item :: items
        | [] => [String c EmptyString]
        end
  end.

(** [sep.join(items)] *)
Definition py_join (sep : string) (items : list string) : string :=
  String.concat sep items.

(** [s.startswith(p)] *)
Definition startswith (s p : string) : bool := String.prefix p s.

Section Settings.
Context `{Builtins}.

(** [os.environ] *)
Definition Environ : Type := gmap string string.

Definition _get (env : Environ) (name default : string) : string :=
  match env !! name with
  | Some v => if String.eqb v "" then default else v
  | None => default
  end.

Definition _get_int (env : Environ) (name : string) (default : Z) : Z :=
  match py_int (_get env name (py_str default)) with
  | Some n => n
  | None => default                                     (* except ValueError *)
  end.

(** The generator of [_get_tuple_ints]: the items that are not blank,
    stripped and converted in order; [None] when one conversion raises. *)
Fixpoint ints_of_items (raw : list string) : option (list Z) :=
  match raw with
  | [] => Some []
  | x :: rest =>
      if String.eqb (str_strip x) "" then ints_of_items rest
      else
        match py_int (str_strip x) with
        | None => None
        | Some n =>
            match ints_of_items rest with
            | None => None
            | Some ns => Some (n :: ns)
            end
        end
  end.

Definition _get_tuple_ints (env : Environ) (name : string) (default : list Z)
  : list Z :=
  let raw := split_commas (_get env name (py_join "," (map py_str default))) in
  match ints_of_items raw with
  | Some [] => default
  | Some vals => vals
  | None => default                                     (* except ValueError *)
  end.

(** [ExtractorSettings.load] for the two tuple fields: the value and the
    slice that follows it. *)
Definition load_histogram_bins (env : Environ) : list Z :=
  take 3 (_get_tuple_ints env "HISTOGRAM_BINS" [8; 8; 8]).

Definition load_histogram_ranges (env : Environ) : list Z :=
  take 6 (_get_tuple_ints env "HISTOGRAM_RANGES" [0; 180; 0; 256; 0; 256]).

Record AppSettings : Type := {
  app_title : string;
  static_dir : string;
  allowed_extensions : list string;
  allowed_mime_prefix : string;
  max_upload_bytes : Z;
  upload_chunk_bytes : Z;
  temp_volume_dir : string;
  volume_quota_bytes : Z;
  volume_min_free_bytes : Z;
}.

(** [ext if ext.startswith(".") else f".{ext}"] *)
Definition dotted (ext : string) : string :=
  if startswith ext "." then ext else "." +:+ ext.

Definition AppSettings_load (env : Environ) : AppSettings :=
  {| app_title := _get env "APP_TITLE" "VisionSense API";
     static_dir := _get env "STATIC_DIR" "static";
     allowed_extensions :=
       map dotted
         (split_commas
            (_get env "ALLOWED_EXTENSIONS" ".mp4,.mov,.mkv,.avi,.webm"));
     allowed_mime_prefix := _get env "ALLOWED_MIME_PREFIX" "video/";
     max_upload_bytes := _get_int env "MAX_UPLOAD_BYTES" (500 * 1024 * 1024);
     upload_chunk_bytes := _get_int env "UPLOAD_CHUNK_BYTES" (1 * 1024 * 1024);
     temp_volume_dir := _get env "TEMP_VOLUME_DIR" "/tmp/video-tmp";
     volume_quota_bytes :=
       _get_int env "VOLUME_QUOTA_BYTES" (10 * 1024 * 1024 * 1024);
     volume_min_free_bytes :=
       _get_int env "VOLUME_MIN_FREE_BYTES" (2 * 1024 * 1024 * 1024) |}.

End Settings.

(** ** The configuration built from the settings ([app.py], lines 95-116;
    [cli.py], lines 9-29) *)

Section FromSettings.
Context `{PyFloat}.

(** The fields of [ExtractorSettings], with the types the dataclass
    declares. *)
Record ExtractorSettings : Type := {
  env_frame_stride : Z;
  env_resize_width : Z;
  env_shot_threshold : pyfloat;
  env_text_sample_stride : Z;
  env_text_min_chars : Z;
  env_yolo_model : string;
  env_yolo_frame_stride : Z;
  farneback_pyr_scale : pyfloat;
  farneback_levels : Z;
  farneback_winsize : Z;
  farneback_iterations : Z;
  farneback_poly_n : Z;
  farneback_poly_sigma : pyfloat;
  farneback_flags : Z;
  histogram_bins : Z * Z * Z;
  histogram_ranges : Z * Z * Z * Z * Z * Z;
}.

(** [app._build_feature_config], [ext_env] being the settings loaded when
    the module was imported. *)
Definition _build_feature_config (ext_env : ExtractorSettings)
  : FeatureExtractionConfig :=
  let farneback :=
    {| pyr_scale := farneback_pyr_scale ext_env;
       levels := farneback_levels ext_env;
       winsize := farneback_winsize ext_env;
       iterations := farneback_iterations ext_env;
       poly_n := farneback_poly_n ext_env;
       poly_sigma := farneback_poly_sigma ext_env;
       flags := farneback_flags ext_env |} in
  let hist :=
    {| bins := histogram_bins ext_env; ranges := histogram_ranges ext_env |} in
  {| frame_stride := env_frame_stride ext_env;
     resize_width := env_resize_width ext_env;
     shot_threshold := env_shot_threshold ext_env;
     text_sample_stride := env_text_sample_stride ext_env;
     text_min_chars := env_text_min_chars ext_env;
     yolo_model := env_yolo_model ext_env;
     yolo_frame_stride := env_yolo_frame_stride ext_env;
     farneback := farneback;
     hist := hist |}.

(** [cli._env_cfg], [e] being what [ExtractorSettings.load()] returned. *)
Definition _env_cfg (e : ExtractorSettings) : FeatureExtractionConfig :=
  {| frame_stride := env_frame_stride e;
     resize_width := env_resize_width e;
     shot_threshold := env_shot_threshold e;
     text_sample_stride := env_text_sample_stride e;
     text_min_chars := env_text_min_chars e;
     yolo_model := env_yolo_model e;
     yolo_frame_stride := env_yolo_frame_stride e;
     farneback :=
       {| pyr_scale := farneback_pyr_scale e;
          levels := farneback_levels e;
          winsize := farneback_winsize e;
          iterations := farneback_iterations e;
          poly_n := farneback_poly_n e;
          poly_sigma := farneback_poly_sigma e;
          flags := farneback_flags e |};
     hist := {| bins := histogram_bins e; ranges := histogram_ranges e |} |}.

(** The command line with no override at all. *)
Definition no_override : Namespace :=
  {| arg_frame_stride := None; arg_resize_width := None;
     arg_shot_threshold := None; arg_text_sample_stride := None;
     arg_text_min_chars := None; arg_yolo_frame_stride := None;
     arg_yolo_model := None |}.

(** Two command lines as one: what [later] gives wins over [earlier]. *)
Definition overlay (later earlier : Namespace) : Namespace :=
  {| arg_frame_stride :=
       from_option Some (arg_frame_stride earlier) (arg_frame_stride later);
     arg_resize_width :=
       from_option Some (arg_resize_width earlier) (arg_resize_width later);
     arg_shot_threshold :=
       from_option Some (arg_shot_threshold earlier) (arg_shot_threshold later);
     arg_text_sample_stride :=
       from_option Some (arg_text_sample_stride earlier)
         (arg_text_sample_stride later);
     arg_text_min_chars :=
       from_option Some (arg_text_min_chars earlier) (arg_text_min_chars later);
     arg_yolo_frame_stride :=
       from_option Some (arg_yolo_frame_stride earlier)
         (arg_yolo_frame_stride later);
     arg_yolo_model :=
       from_option Some (arg_yolo_model earlier) (arg_yolo_model later) |}.

End FromSettings.


(** ** The upload layer ([app.py], lines 27-92) *)

Section Upload.
Context `{Builtins}.

(** The part of a FastAPI [UploadFile] the endpoint uses. *)
Record UploadFile : Type := {
  filename : option string;
  content_type : option string;
  body : list Byte.byte;
}.

(** A raised [HTTPException]. *)
Record http_exception : Type := {
  status_code : Z;
  detail : string;
}.

(** [sorted(exts)] *)
Definition sorted_strings (exts : list string) : list string :=
  merge_sort String.le exts.

Definition _ensure_valid_upload (app_cfg : AppSettings) (file : UploadFile)
  : http_exception + string :=
  let ext := py_lower (path_suffix (default "" (filename file))) in
  if negb (bool_decide (ext ∈ allowed_extensions app_cfg)) then
    let allowed := py_join ", " (sorted_strings (allowed_extensions app_cfg)) in
    inl {| status_code := 400;
           detail := "Unsupported file extension '" +:+ ext
                     +:+ "'. Allowed: " +:+ allowed |}
  else if negb (startswith (default "" (content_type file))
                  (allowed_mime_prefix app_cfg)) then
    inl {| status_code := 400;
           detail := "Unsupported content type '"
                     +:+ default "None" (content_type file)
                     +:+ "'. Expected '" +:+ allowed_mime_prefix app_cfg
                     +:+ "*'." |}
  else inr ext.

(** What [root.rglob("*")] finds under the processing volume. *)
Inductive entry : Type :=
| RegularFile (content : list Byte.byte)
| Directory
| Inaccessible.                       (* [is_file] or [stat] raises [OSError] *)

(** What an entry adds to the total of [_dir_size_bytes]. *)
Definition entry_size (e : entry) : Z :=
  match e with
  | RegularFile content => Z.of_nat (length content)
  | Directory => 0
  | Inaccessible => 0
  end.

Definition _dir_size_bytes (root : gmap string entry) : Z :=
  map_fold (fun _ e total => total + entry_size e) 0 root.

(** The two counters of a [_Quota]. *)
Record _Quota : Type := {
  start : Z;
  written : Z;
}.

(** [_Quota.__init__] *)
Definition Quota_init (root : gmap string entry) : _Quota :=
  {| start := _dir_size_bytes root; written := 0 |}.

(** [_Quota.check], [free] being what [shutil.disk_usage(root).free] reads
    at this call. *)
Definition Quota_check (app_cfg : AppSettings) (free : Z) (self : _Quota) (n : Z)
  : http_exception + unit :=
  if max_upload_bytes app_cfg <? written self + n then
    inl {| status_code := 413;
           detail := "Upload exceeds "
                     +:+ py_str (max_upload_bytes app_cfg / (1024 * 1024))
                     +:+ " MB limit." |}
  else
    let projected := start self + written self + n in
    if volume_quota_bytes app_cfg <? projected then
      inl {| status_code := 429;
             detail := "Temporary storage quota exceeded." |}
    else
      let free_after := free - n in
      if free_after <? volume_min_free_bytes app_cfg then
        inl {| status_code := 507;
               detail := "Insufficient free space on processing volume." |}
      else inr tt.

(** [_Quota.add] *)
Definition Quota_add (self : _Quota) (n : Z) : _Quota :=
  {| start := start self; written := written self + n |}.

(** [await upload.read(size)] on what is left of the body: the chunk and
    the rest.  A negative size reads everything. *)
Definition upload_read (size : Z) (unread : list Byte.byte)
  : list Byte.byte * list Byte.byte :=
  if size <? 0 then (unread, [])
  else (take (Z.to_nat size) unread, drop (Z.to_nat size) unread).

(** The [while True] of [_stream_upload_to_tempfile]: the exception or the
    total, and what was written to the temporary file.  [free_at k] is the
    free space the [k]-th check reads.  [None] stands for a loop that has
    not ended within [fuel] turns. *)
Fixpoint stream_loop (fuel : nat) (app_cfg : AppSettings) (free_at : nat -> Z)
    (quota : _Quota) (unread tmp : list Byte.byte) (total : Z) (k : nat)
  : option ((http_exception + Z) * list Byte.byte) :=
  match fuel with
  | O => None
  | S fuel' =>
      let '(chunk, rest) := upload_read (upload_chunk_bytes app_cfg) unread in
      match chunk with
      | [] => Some (inr total, tmp)                               (* break *)
      | _ :: _ =>
          let n := Z.of_nat (length chunk) in
          match Quota_check app_cfg (free_at k) quota n with
          | inl e => Some (inl e, tmp)
          | inr _ =>
              stream_loop fuel' app_cfg free_at (Quota_add quota n) rest
                (tmp ++ chunk) (total + n) (S k)
          end
      end
  end.

(** [_stream_upload_to_tempfile]: the outcome and the volume afterwards.
    [tmp_name] is the path [NamedTemporaryFile(dir=..., prefix="vs_",
    suffix=suffix, delete=False)] creates; closing the file and the upload
    in the [finally] changes nothing on the volume. *)
Definition _stream_upload_to_tempfile (app_cfg : AppSettings)
    (root : gmap string entry) (free_at : nat -> Z) (tmp_name : string)
    (upload : UploadFile)
  : option ((http_exception + string) * gmap string entry) :=
  let quota := Quota_init root in
  match stream_loop (S (length (body upload))) app_cfg free_at quota
          (body upload) [] 0 0 with
  | None => None
  | Some (outcome, tmp) =>
      let root' := <[tmp_name := RegularFile tmp]> root in
      match outcome with
      | inl e => Some (inl e, root')
      | inr total =>
          if total =? 0 then
            Some (inl {| status_code := 400; detail := "Empty upload." |},
                  root')
          else Some (inr tmp_name, root')
      end
  end.

End Upload.

(** ** The [/extract] endpoint as a whole ([app.py], lines 131-147) *)

Section Endpoint.
Context `{Backend} `{Builtins}.

(** What the decoder and [Path.exists] see of an entry of the volume:
    [probe] is what [cv2.VideoCapture] makes of the bytes of a regular
    file; a directory exists and does not open, and neither does an entry
    that cannot be read.  The endpoint only looks at the file it has just
    written, which is a regular file. *)
Definition seen_by_decoder (probe : list Byte.byte -> File) (e : entry) : File :=
  match e with
  | RegularFile content => probe content
  | Directory => OtherFile
  | Inaccessible => OtherFile
  end.

(** [os.unlink(p)]: the entry goes, or the call raises [OSError] ([None])
    and the volume stays as it is.  It raises for a path that is not there
    and when the system refuses the removal, which [refused] tells. *)
Definition os_unlink (refused : bool) (root : gmap string entry) (p : string)
  : option (gmap string entry) :=
  if refused then None
  else
    match root !! p with
    | Some _ => Some (delete p root)
    | None => None
    end.

(** A raised [HTTPException] as the answer of the endpoint. *)
Definition answer (e : http_exception) : Response :=
  HTTPException (status_code e) (detail e) None.

(** [extract]: the answer and the volume afterwards.  The two upload
    checks run before the [try], so what they raise is answered with the
    temporary file left as it is; the [finally] removes the file and
    swallows the [OSError] of a removal that fails.  [ext_env] is the
    module-level [ExtractorSettings.load()]; [None] stands for an upload
    loop that has not ended. *)
Definition extract (app_cfg : AppSettings) (ext_env : ExtractorSettings)
    (probe : list Byte.byte -> File) (resolve : string -> string)
    (free_at : nat -> Z) (tmp_name : string) (refused : bool)
    (root : gmap string entry) (file : UploadFile)
  : option (Response * gmap string entry) :=
  match _ensure_valid_upload app_cfg file with
  | inl e => Some (answer e, root)
  | inr ext =>
      match _stream_upload_to_tempfile app_cfg root free_at tmp_name file with
      | None => None
      | Some (inl e, root1) => Some (answer e, root1)
      | Some (inr temp_path, root1) =>
          let fs := {| files := seen_by_decoder probe <$> root1;
                       resolve := resolve |} in
          let response :=
            extract_response fs (_build_feature_config ext_env) temp_path in
          Some (response, default root1 (os_unlink refused root1 temp_path))
      end
  end.

End Endpoint.


(** ** A concrete backend: IEEE binary64 floats and synthetic frames

    Python's [float] is the binary64 format of the primitive floats.  The
    synthetic backend stands for OpenCV, Tesseract and the detection model
    on frames that carry their own shade, text and detections, the way a
    stub does in a test-suite. *)

Module Synthetic.

(** [float(n)], rounded to nearest. *)
Definition float_of_Z (z : Z) : float :=
  SF2Prim (binary_normalize prec emax z 0 false).

(** [int(x)] for a finite [x]: truncation towards zero. *)
Definition trunc (x : float) : Z :=
  match Prim2SF x with
  | S754_finite s m e =>
      let v := if 0 <=? e then Z.pos m * 2 ^ e else Z.pos m / 2 ^ (- e) in
      if s then - v else v
  | _ => 0
  end.

(** The float nearest to [m * 10^e], for the short literals of the
    sources. *)
Definition literal (m e : Z) : float :=
  if 0 <=? e then float_of_Z (m * 10 ^ e)
  else PrimFloat.div (float_of_Z m) (float_of_Z (10 ^ (- e))).

(** Integer true division agrees with the quotient of the two conversions
    while both operands are below 2^53, which frame counts are. *)
#[global] Instance binary64 : PyFloat := {|
  pyfloat := float;
  f_zero := 0%float;
  f_lit := literal;
  f_of_int := float_of_Z;
  f_add := PrimFloat.add;
  f_mul := PrimFloat.mul;
  f_div := PrimFloat.div;
  int_truediv := fun a b => PrimFloat.div (float_of_Z a) (float_of_Z b);
  f_gt := fun x y => PrimFloat.ltb y x;
  f_is_zero := fun x => PrimFloat.eqb x 0%float;
  f_trunc := trunc;
|}.

Record SynthFrame : Type := {
  sf_height : Z;
  sf_width : Z;
  sf_shade : Z;                      (* one colour for the whole image *)
  sf_text : list string;             (* what the OCR reads on it, one
                                        character for each code point *)
  sf_classes : option (list Z);      (* the class ids the detector reports *)
  sf_corrupt : bool;                 (* the OCR faults on this frame *)
}.

(** The code points of a text all of whose code points are below U+0100,
    written with one character each. *)
Definition codepoints (s : string) : pystr :=
  map N_of_ascii (list_ascii_of_string s).

Definition synth_names : gmap Z string :=
  <[0 := "person"]> (<[2 := "car"]> (<[16 := "dog"]> ∅)).

#[global] Instance synth : Backend := {|
  frame := SynthFrame;
  histogram := Z;
  gray_image := Z;
  detector := string;
  frame_shape := fun f => (sf_height f, sf_width f);
  cv2_resize := fun f size =>
    inr {| sf_height := snd size; sf_width := fst size; sf_shade := sf_shade f;
           sf_text := sf_text f; sf_classes := sf_classes f;
           sf_corrupt := sf_corrupt f |};
  cv2_hsv_hist := fun _ f => inr (sf_shade f);
  cv2_compareHist := fun h1 h2 => inr (if h1 =? h2 then 0%float else 1%float);
  cv2_bgr2gray := fun f => inr (sf_shade f);
  cv2_flow_mean_magnitude := fun _ g1 g2 => inr (float_of_Z (Z.abs (g2 - g1)));
  ocr_fragments := fun f =>
    if sf_corrupt f then inl (TesseractError "tesseract failed")
    else inr (map codepoints (sf_text f));
  YOLO := fun model =>
    if String.eqb model "missing.pt"
    then inl (FileNotFoundError "No such file or directory: 'missing.pt'")
    else inr model;
  detector_names := fun _ => Attr (Some synth_names);
  detector_call := fun _ f =>
    inr {| names := NoAttr; boxes := Attr (Some {| cls := sf_classes f |}) |};
|}.

Definition plain (shade : Z) : SynthFrame :=
  {| sf_height := 480; sf_width := 1280; sf_shade := shade; sf_text := [];
     sf_classes := Some []; sf_corrupt := false |}.

Definition captioned (shade : Z) (classes : list Z) : SynthFrame :=
  {| sf_height := 480; sf_width := 640; sf_shade := shade;
     sf_text := [" BREAKING"; " NEWS "; ""]; sf_classes := Some classes;
     sf_corrupt := false |}.

Definition corrupt (shade : Z) : SynthFrame :=
  {| sf_height := 480; sf_width := 640; sf_shade := shade; sf_text := [];
     sf_classes := None; sf_corrupt := true |}.

(** Seven frames: a cut between the third and the fourth, people and a car
    on the captioned ones. *)
Definition clip_frames : list SynthFrame :=
  [plain 10; plain 10; plain 10; captioned 90 [0; 0; 2]; captioned 90 [0; 7];
   plain 95; captioned 95 [16]].

Definition clip : Video :=
  {| video_fps := float_of_Z 25; video_frame_count := float_of_Z 7;
     video_reads := map Grabbed clip_frames |}.

(** A container that opens and has no frame to give. *)
Definition empty_clip : Video :=
  {| video_fps := float_of_Z 25; video_frame_count := 0%float;
     video_reads := [] |}.

(** A clip whose third frame makes the OCR fault. *)
Definition damaged_clip : Video :=
  {| video_fps := float_of_Z 25; video_frame_count := float_of_Z 4;
     video_reads := map Grabbed [plain 10; plain 20; corrupt 30; plain 40] |}.

(** A clip the decoder gives up on after two frames. *)
Definition truncated_clip : Video :=
  {| video_fps := float_of_Z 25; video_frame_count := float_of_Z 9;
     video_reads :=
       [Grabbed (plain 10); Grabbed (plain 20);
        DecodeError (Cv2Error "decode failed")] |}.

Definition disk : FileSystem :=
  {| files :=
       <["clip.mp4" := VideoFile clip]>
         (<["empty.mp4" := VideoFile empty_clip]>
            (<["damaged.mp4" := VideoFile damaged_clip]>
               (<["truncated.mp4" := VideoFile truncated_clip]>
                  (<["notes.mp4" := OtherFile]> ∅))));
     resolve := fun p => "/data/" +:+ p |}.

(** The same picture, brighter by [d] everywhere. *)
Definition brighter (d : Z) (f : SynthFrame) : SynthFrame :=
  {| sf_height := sf_height f; sf_width := sf_width f;
     sf_shade := sf_shade f + d; sf_text := sf_text f;
     sf_classes := sf_classes f; sf_corrupt := sf_corrupt f |}.

(** [clip] filmed with more light. *)
Definition bright_clip : Video :=
  {| video_fps := float_of_Z 25; video_frame_count := float_of_Z 7;
     video_reads := map Grabbed (map (brighter 100) clip_frames) |}.

Definition bright_disk : FileSystem :=
  {| files := <["clip.mp4" := VideoFile bright_clip]> ∅;
     resolve := fun p => "/data/" +:+ p |}.

(** Every accepted frame is sampled for text and detections. *)
Definition dense_config : FeatureExtractionConfig :=
  {| frame_stride := 1; resize_width := 640; shot_threshold := literal 45 (-2);
     text_sample_stride := 1; text_min_chars := 8;
     yolo_model := "yolov8n.pt"; yolo_frame_stride := 1;
     farneback := default_farneback; hist := default_hist |}.

(** Every other frame is accepted; text on every second accepted frame,
    detections on every third. *)
Definition sparse_config : FeatureExtractionConfig :=
  {| frame_stride := 2; resize_width := 640; shot_threshold := literal 45 (-2);
     text_sample_stride := 2; text_min_chars := 8;
     yolo_model := "yolov8n.pt"; yolo_frame_stride := 3;
     farneback := default_farneback; hist := default_hist |}.

Definition extractor_of (cfg : FeatureExtractionConfig) : VideoFeatureExtractor :=
  {| config := cfg; self_detector := yolo_model cfg |}.

(** [--frame-stride 0] on the command line. *)
Definition zero_stride_args : Namespace :=
  {| arg_frame_stride := Some 0; arg_resize_width := None;
     arg_shot_threshold := None; arg_text_sample_stride := None;
     arg_text_min_chars := None; arg_yolo_frame_stride := None;
     arg_yolo_model := None |}.

End Synthetic.

(** ** Concrete builtins and a small processing volume *)

Module SyntheticUpload.

(** The substring from the last ["."] on, if there is one. *)
Fixpoint from_last_dot (s : string) : option string :=
  match s with
  | EmptyString => None
  | String c rest =>
      match from_last_dot rest with
      | Some t => Some t
      | None => if Ascii.eqb c "." then Some s else None
      end
  end.

(** [Path(name).suffix] for a bare file name: the last dot must be neither
    the first nor the last character. *)
Definition suffix_of_name (name : string) : string :=
  match from_last_dot name with
  | Some t =>
      if String.eqb t name || String.eqb t "." then EmptyString else t
  | None => EmptyString
  end.

Definition lower_ascii (c : ascii) : ascii :=
  let n := nat_of_ascii c in
  if (65 <=? n)%nat && (n <=? 90)%nat then ascii_of_nat (n + 32) else c.

Fixpoint lower_string (s : string) : string :=
  match s with
  | EmptyString => EmptyString
  | String c rest => String (lower_ascii c) (lower_string rest)
  end.

Definition ascii_space (c : ascii) : bool :=
  let n := nat_of_ascii c in
  ((9 <=? n)%nat && (n <=? 13)%nat) || ((28 <=? n)%nat && (n <=? 32)%nat).

Fixpoint ascii_lstrip (s : string) : string :=
  match s with
  | EmptyString => EmptyString
  | String c s' => if ascii_space c then ascii_lstrip s' else s
  end.

Definition ascii_strip (s : string) : string :=
  String.rev (ascii_lstrip (String.rev (ascii_lstrip s))).

(** Decimal numerals with an optional minus sign, ASCII whitespace, bare
    file names and ASCII letters: enough of the builtins for the examples. *)
#[global] Instance decimal : Builtins := {|
  py_int := fun s => Z.of_int <$> NilZero.int_of_string s;
  py_str := fun n => NilZero.string_of_int (Z.to_int n);
  str_strip := ascii_strip;
  path_suffix := suffix_of_name;
  py_lower := lower_string;
|}.

(** A deployment with small limits: chunks of 4 bytes, uploads of at most
    10, a quota of 20 and 5 bytes to be left free. *)
Definition small_env : Environ :=
  <["UPLOAD_CHUNK_BYTES" := "4"]>
    (<["MAX_UPLOAD_BYTES" := "10"]>
       (<["VOLUME_QUOTA_BYTES" := "20"]>
          (<["VOLUME_MIN_FREE_BYTES" := "5"]>
             (<["HISTOGRAM_BINS" := "8, 16"]>
                (<["FRAME_STRIDE" := "five"]> ∅))))).

Definition small_app : AppSettings := AppSettings_load small_env.

Definition payload (n : nat) : list Byte.byte := repeat Byte.x41 n.

(** A volume that already holds a file of 6 bytes, a directory and an
    entry that cannot be read. *)
Definition used_volume : gmap string entry :=
  <["/tmp/video-tmp/vs_old.mp4" := RegularFile (payload 6)]>
    (<["/tmp/video-tmp/cache" := Directory]>
       (<["/tmp/video-tmp/lost" := Inaccessible]> ∅)).

Definition holiday : UploadFile :=
  {| filename := Some "Holiday.MP4"; content_type := Some "video/mp4";
     body := payload 9 |}.

Definition oversized : UploadFile :=
  {| filename := Some "long.mov"; content_type := Some "video/quicktime";
     body := payload 11 |}.

Definition report_pdf : UploadFile :=
  {| filename := Some "report.pdf"; content_type := Some "application/pdf";
     body := payload 3 |}.

(** Plenty of free space at every check. *)
Definition roomy : nat -> Z := fun _ => 1000.

(** The settings of an environment that sets nothing. *)
Definition plain_settings : ExtractorSettings (H := Synthetic.binary64) :=
  {| env_frame_stride := 5; env_resize_width := 640;
     env_shot_threshold := Synthetic.literal 45 (-2);
     env_text_sample_stride := 10; env_text_min_chars := 8;
     env_yolo_model := "yolov8n.pt"; env_yolo_frame_stride := 15;
     farneback_pyr_scale := Synthetic.literal 5 (-1);
     farneback_levels := 3; farneback_winsize := 15;
     farneback_iterations := 3; farneback_poly_n := 5;
     farneback_poly_sigma := Synthetic.literal 12 (-1);
     farneback_flags := 0;
     histogram_bins := (8, 8, 8);
     histogram_ranges := (0, 180, 0, 256, 0, 256) |}.

(** [--text-sample-stride 2 --yolo-model yolov8s.pt] *)
Definition two_flags : Namespace (H := Synthetic.binary64) :=
  {| arg_frame_stride := None; arg_resize_width := None;
     arg_shot_threshold := None; arg_text_sample_stride := Some 2;
     arg_text_min_chars := None; arg_yolo_frame_stride := None;
     arg_yolo_model := Some "yolov8s.pt" |}.

End SyntheticUpload.


(** ** More synthetic videos *)

Module SyntheticMore.

(** The frames of [Synthetic.clip_frames] at the even indices, other
    frames at the odd ones, and one frame more. *)
Definition variant_frames : list Synthetic.SynthFrame :=
  [Synthetic.plain 10; Synthetic.corrupt 1; Synthetic.plain 10;
   Synthetic.plain 3; Synthetic.captioned 90 [0; 7]; Synthetic.corrupt 2;
   Synthetic.captioned 95 [16]; Synthetic.plain 0].

Definition variant : Video :=
  {| video_fps := Synthetic.float_of_Z 25;
     video_frame_count := Synthetic.float_of_Z 7;
     video_reads := map Grabbed variant_frames |}.

Definition two_clips : FileSystem :=
  {| files :=
       <["clip.mp4" := VideoFile Synthetic.clip]>
         (<["variant.mp4" := VideoFile variant]>
            (<["notes.mp4" := OtherFile]> ∅));
     resolve := fun p => "/data/" +:+ p |}.

(** A frame of a text that is whitespace only, a no-break space
    (U+00A0) included. *)
Definition blank_page : Synthetic.SynthFrame :=
  {| Synthetic.sf_height := 480; Synthetic.sf_width := 640;
     Synthetic.sf_shade := 255; Synthetic.sf_text := ["  "; ""; String "160" " "];
     Synthetic.sf_classes := Some []; Synthetic.sf_corrupt := false |}.

End SyntheticMore.


(** ** A small deployment of the endpoint *)

Module SyntheticEndpoint.

(** The decoder reads a file of nine bytes as [Synthetic.clip] and opens
    nothing else. *)
Definition probe (content : list Byte.byte) : File :=
  if (length content =? 9)%nat then VideoFile Synthetic.clip else OtherFile.

(** The settings of a deployment whose model file is not there. *)
Definition missing_model : ExtractorSettings (H := Synthetic.binary64) :=
  {| env_frame_stride := 5; env_resize_width := 640;
     env_shot_threshold := Synthetic.literal 45 (-2);
     env_text_sample_stride := 10; env_text_min_chars := 8;
     env_yolo_model := "missing.pt"; env_yolo_frame_stride := 15;
     farneback_pyr_scale := Synthetic.literal 5 (-1);
     farneback_levels := 3; farneback_winsize := 15;
     farneback_iterations := 3; farneback_poly_n := 5;
     farneback_poly_sigma := Synthetic.literal 12 (-1);
     farneback_flags := 0;
     histogram_bins := (8, 8, 8);
     histogram_ranges := (0, 180, 0, 256, 0, 256) |}.

(** Three bytes under a video name and a video content type. *)
Definition short_note : UploadFile :=
  {| filename := Some "note.mp4"; content_type := Some "video/mp4";
     body := SyntheticUpload.payload 3 |}.

End SyntheticEndpoint.


(** * Properties *)

(** ** Reasoning about fallible computations *)

Lemma bind_Ok {A B} (m : result A) (k : A -> result B) (b : B) :
  m ≫= k = Ok b <-> exists a, m = Ok a /\ k a = Ok b.
Proof.
  destruct m as [a|e]; simpl; split.
  - intros Hk. exists a. split; [reflexivity | exact Hk].
  - intros (a' & Ha & Hk). injection Ha as ->. exact Hk.
  - discriminate.
  - intros (a' & Ha & _). discriminate.
Qed.

Lemma bind_Raise {A B} (m : result A) (k : A -> result B) (e : exn) :
  m ≫= k = Raise e <-> m = Raise e \/ exists a, m = Ok a /\ k a = Raise e.
Proof.
  destruct m as [a|e']; simpl; split.
  - intros Hk. right. exists a. split; [reflexivity | exact Hk].
  - intros [Hm | (a' & Ha & Hk)]; [discriminate | ]. injection Ha as ->. exact Hk.
  - intros Hm. left. injection Hm as ->. reflexivity.
  - intros [Hm | (a' & Ha & _)]; [ | discriminate].
    injection Hm as ->. reflexivity.
Qed.

Lemma call_Raise {A} (r : fault + A) (e : exn) :
  call r = Raise e -> exists f, e = BackendError f.
Proof.
  destruct r as [f|a]; simpl; intros Hr; [ | discriminate].
  injection Hr as <-. exists f. reflexivity.
Qed.

Lemma py_mod_Ok (a b r : Z) : py_mod a b = Ok r <-> b <> 0 /\ r = a mod b.
Proof.
  unfold py_mod. destruct (Z.eqb_spec b 0) as [-> | Hb]; split.
  - discriminate.
  - intros [Hb _]. contradiction.
  - intros Hr. injection Hr as <-. split; [exact Hb | reflexivity].
  - intros [_ ->]. reflexivity.
Qed.

Lemma py_mod_Raise (a b : Z) (e : exn) :
  py_mod a b = Raise e <-> b = 0 /\ e = ZeroDivisionError.
Proof.
  unfold py_mod. destruct (Z.eqb_spec b 0) as [-> | Hb]; split.
  - intros Hr. injection Hr as <-. split; reflexivity.
  - intros [_ ->]. reflexivity.
  - discriminate.
  - intros [Hb' _]. contradiction.
Qed.

(** ** The sampling loop *)

Section Loop.
Context `{Backend}.
Implicit Types (self : VideoFeatureExtractor) (st : Locals).

(** What a successful run of the analyzers on one accepted frame did. *)
Lemma sample_frame_Ok self i f st st' :
  sample_frame self i f st = Ok st' ->
  exists small ch cg,
    _resize_to_width f (resize_width (config self)) = Ok small /\
    _hsv_histogram self small = Ok ch /\
    call (cv2_bgr2gray small) = Ok cg /\
    absolute_frame_index st' = i /\
    processed_frames st' = processed_frames st + 1 /\
    prev_hist st' = Some ch /\
    prev_gray st' = Some cg /\
    match prev_hist st with
    | None => hard_cuts st' = hard_cuts st
    | Some ph =>
        exists d, _bhattacharyya ph ch = Ok d /\
          hard_cuts st' =
            if f_gt d (shot_threshold (config self)) then hard_cuts st + 1
            else hard_cuts st
    end /\
    match prev_gray st with
    | None =>
        motion_samples st' = motion_samples st /\
        motion_magnitude_sum st' = motion_magnitude_sum st
    | Some pg =>
        exists m, _avg_optical_flow_magnitude self pg cg = Ok m /\
          motion_samples st' = motion_samples st + 1 /\
          motion_magnitude_sum st' = f_add (motion_magnitude_sum st) m
    end /\
    text_sample_stride (config self) <> 0 /\
    (if (processed_frames st + 1) mod text_sample_stride (config self) =? 0
     then exists found,
         _contains_text small (text_min_chars (config self)) = Ok found /\
         text_samples st' = text_samples st + 1 /\
         text_positives st' =
           if found then text_positives st + 1 else text_positives st
     else text_samples st' = text_samples st /\
          text_positives st' = text_positives st) /\
    yolo_frame_stride (config self) <> 0 /\
    (if (processed_frames st + 1) mod yolo_frame_stride (config self) =? 0
     then exists found,
         _count_people_vs_objects self small = Ok found /\
         person_total st' = person_total st + fst found /\
         object_total st' = object_total st + snd found
     else person_total st' = person_total st /\
          object_total st' = object_total st).
Proof.
  unfold sample_frame. intros Hs.
  apply bind_Ok in Hs as (small & Hsmall & Hs).
  apply bind_Ok in Hs as (ch & Hch & Hs).
  apply bind_Ok in Hs as (cuts & Hcuts & Hs).
  apply bind_Ok in Hs as (cg & Hcg & Hs).
  apply bind_Ok in Hs as (motion & Hmotion & Hs).
  apply bind_Ok in Hs as (tr & Htr & Hs).
  apply bind_Ok in Hs as (text & Htext & Hs).
  apply bind_Ok in Hs as (yr & Hyr & Hs).
  apply bind_Ok in Hs as (counts & Hcounts & Hs).
  apply py_mod_Ok in Htr as [Hts ->]. apply py_mod_Ok in Hyr as [Hys ->].
  injection Hs as <-. simpl.
  exists small, ch, cg.
  repeat split; try assumption.
  - destruct (prev_hist st) as [ph|].
    + apply bind_Ok in Hcuts as (d & Hd & Hcuts). injection Hcuts as <-.
      exists d. split; [exact Hd | reflexivity].
    + injection Hcuts as <-. reflexivity.
  - destruct (prev_gray st) as [pg|].
    + apply bind_Ok in Hmotion as (m & Hm & Hmotion). injection Hmotion as <-.
      exists m. repeat split. exact Hm.
    + injection Hmotion as <-. split; reflexivity.
  - set (due := _ mod text_sample_stride _ =? 0) in *. destruct due.
    + apply bind_Ok in Htext as (found & Hfound & Htext). injection Htext as <-.
      exists found. repeat split. exact Hfound.
    + injection Htext as <-. split; reflexivity.
  - set (due := _ mod yolo_frame_stride _ =? 0) in *. destruct due.
    + apply bind_Ok in Hcounts as (found & Hfound & Hcounts).
      injection Hcounts as <-. exists found. repeat split. exact Hfound.
    + injection Hcounts as <-. split; reflexivity.
Qed.

Lemma sample_frame_set_index self i j f st :
  sample_frame self i f (set_index j st) = sample_frame self i f st.
Proof. reflexivity. Qed.

Lemma set_index_same st : set_index (absolute_frame_index st) st = st.
Proof. destruct st. reflexivity. Qed.

Lemma sample_all_set_index self l n j st :
  set_index n <$> sample_all self l (set_index j st) =
  set_index n <$> sample_all self l st.
Proof.
  destruct l as [|[i f] rest]; simpl.
  - reflexivity.
  - rewrite sample_frame_set_index. reflexivity.
Qed.

(** The [continue] test of the loop, for a stride that is not zero. *)
Lemma loop_body_stride self f st :
  frame_stride (config self) <> 0 ->
  loop_body self f st =
    if (absolute_frame_index st + 1) mod frame_stride (config self) =? 0
    then sample_frame self (absolute_frame_index st + 1) f st
    else Ok (set_index (absolute_frame_index st + 1) st).
Proof.
  intros Hs. unfold loop_body, py_mod.
  destruct (Z.eqb_spec (frame_stride (config self)) 0) as [E|_]; [contradiction|].
  simpl. destruct (_ =? 0); reflexivity.
Qed.

Lemma loop_body_zero_stride self f st :
  frame_stride (config self) = 0 -> loop_body self f st = Raise ZeroDivisionError.
Proof. intros Hs. unfold loop_body, py_mod. rewrite Hs. reflexivity. Qed.

Lemma loop_body_index self f st st' :
  loop_body self f st = Ok st' ->
  absolute_frame_index st' = absolute_frame_index st + 1.
Proof.
  unfold loop_body. intros Hb.
  apply bind_Ok in Hb as (r & _ & Hb).
  destruct (negb (r =? 0)).
  - injection Hb as <-. reflexivity.
  - apply sample_frame_Ok in Hb as (? & ? & ? & _ & _ & _ & Hi & _). exact Hi.
Qed.

(** The loop stops at the first read or frame that raises, and otherwise goes
    on with what follows. *)
Lemma while_true_app self pre post st :
  while_true self (pre ++ post) st =
    match while_true self pre st with
    | (Ok st', _) => while_true self post st'
    | (Raise e, rest) => (Raise e, rest ++ post)
    end.
Proof.
  revert st. induction pre as [|[f|flt] pre IH]; intros st; simpl.
  - reflexivity.
  - destruct (loop_body self f st) as [st'|e]; [apply IH | reflexivity].
  - reflexivity.
Qed.

(** The loop on a stream of frames is the analyzers run on the accepted
    frames; the skipped frames only move the index. *)
Lemma while_true_samples self frames st :
  frame_stride (config self) <> 0 ->
  (while_true self (map Grabbed frames) st).1 =
    set_index (absolute_frame_index st + Z.of_nat (length frames)) <$>
      sample_all self
        (accepted_from (frame_stride (config self))
           (absolute_frame_index st + 1) frames) st.
Proof.
  intros Hs. revert st. induction frames as [|f rest IH]; intros st.
  - simpl. rewrite Z.add_0_r, set_index_same. reflexivity.
  - cbn [map while_true accepted_from length].
    rewrite loop_body_stride by exact Hs.
    replace (absolute_frame_index st + Z.of_nat (S (length rest)))
      with (absolute_frame_index st + 1 + Z.of_nat (length rest)) by lia.
    destruct (_ =? 0).
    + cbn [sample_all].
      destruct (sample_frame self _ f st) as [st'|e] eqn:Hf; [ | reflexivity].
      simpl. rewrite IH.
      apply sample_frame_Ok in Hf as (? & ? & ? & _ & _ & _ & -> & _).
      reflexivity.
    + rewrite IH. cbn [set_index absolute_frame_index].
      apply sample_all_set_index.
Qed.

(** A stream on which the loop ends normally had no failing read. *)
Lemma while_true_Ok_reads self reads st st' :
  (while_true self reads st).1 = Ok st' ->
  exists frames, reads = map Grabbed frames.
Proof.
  revert st. induction reads as [|[f|flt] rest IH]; intros st; simpl.
  - intros _. exists []. reflexivity.
  - destruct (loop_body self f st) as [st1|e]; [ | discriminate].
    intros Hr. apply IH in Hr as [frames ->]. exists (f :: frames). reflexivity.
  - discriminate.
Qed.

(** ** [extract_features] as a whole *)

Lemma path_exists_true fs p : path_exists fs p = true <-> is_Some (files fs !! p).
Proof. unfold path_exists. apply bool_decide_eq_true. Qed.

Lemma path_exists_false fs p : path_exists fs p = false <-> files fs !! p = None.
Proof.
  unfold path_exists. rewrite bool_decide_eq_false, <- eq_None_not_Some.
  reflexivity.
Qed.

(** On a container that opens, the outcome is the report of the locals the
    loop ends with, and the handle is left as [release] leaves it. *)
Lemma extract_features_video fs self path v :
  files fs !! path = Some (VideoFile v) ->
  exists duration total,
    extract_features fs self path =
      (build_report (resolve fs path) duration total <$>
         (while_true self (video_reads v) initial_locals).1,
       Some (release (set_pending (cv2_VideoCapture fs path)
                        (while_true self (video_reads v) initial_locals).2))).
Proof.
  intros Hv. unfold extract_features.
  assert (path_exists fs path = true) as ->
    by (apply path_exists_true; rewrite Hv; eauto).
  unfold isOpened, try_finally, frame_loop, cap_release, cv2_VideoCapture.
  rewrite Hv. cbn [negb opened pending].
  destruct (while_true self (video_reads v) initial_locals) as [r rest].
  eexists _, _. destruct r; reflexivity.
Qed.

(** The report of a container that opens, with the two fields that come
    from its metadata written out. *)
Lemma extract_features_report fs self path v :
  files fs !! path = Some (VideoFile v) ->
  (extract_features fs self path).1 =
    (let fps := if f_is_zero (video_fps v) then f_zero else video_fps v in
     let total :=
       if f_is_zero (video_frame_count v) then 0
       else f_trunc (video_frame_count v) in
     build_report (resolve fs path)
       (if f_gt fps f_zero then Some (f_div (f_of_int total) fps) else None)
       total) <$> (while_true self (video_reads v) initial_locals).1.
Proof.
  intros Hv. unfold extract_features.
  assert (path_exists fs path = true) as ->
    by (apply path_exists_true; rewrite Hv; eauto).
  unfold isOpened, try_finally, frame_loop, cap_release, cv2_VideoCapture.
  rewrite Hv. cbn [negb opened pending CAP_PROP_FPS CAP_PROP_FRAME_COUNT].
  destruct (while_true self (video_reads v) initial_locals) as [[st|e] rest];
    reflexivity.
Qed.

Lemma extract_features_Ok fs self path v r :
  files fs !! path = Some (VideoFile v) ->
  (extract_features fs self path).1 = Ok r ->
  exists st duration total,
    (while_true self (video_reads v) initial_locals).1 = Ok st /\
    r = build_report (resolve fs path) duration total st.
Proof.
  intros Hv Hr.
  destruct (extract_features_video fs self path v Hv) as (duration & total & E).
  rewrite E in Hr. cbn [fst] in Hr.
  destruct (while_true self (video_reads v) initial_locals).1 as [st|e];
    [ | discriminate].
  injection Hr as <-. exists st, duration, total. split; reflexivity.
Qed.

(** A property of the counters that the analyzers keep holds when the loop
    ends. *)
Lemma while_true_invariant (P : Locals -> Prop) self :
  (forall i st, P st -> P (set_index i st)) ->
  (forall i f st st', P st -> sample_frame self i f st = Ok st' -> P st') ->
  forall reads st st',
    P st -> (while_true self reads st).1 = Ok st' -> P st'.
Proof.
  intros Hskip Hsample reads.
  induction reads as [|[f|flt] rest IH]; intros st st' HP; simpl.
  - intros Hr. injection Hr as <-. exact HP.
  - destruct (loop_body self f st) as [st1|e] eqn:Hb; [ | discriminate].
    apply IH. unfold loop_body in Hb.
    apply bind_Ok in Hb as (r & _ & Hb). destruct (negb (r =? 0)).
    + injection Hb as <-. apply Hskip, HP.
    + eapply Hsample; [exact HP | exact Hb].
  - discriminate.
Qed.

(** ** Arithmetic of the strides *)

Lemma ceil_div_spec (a b : Z) :
  0 < b -> a <= ceil_div a b * b < a + b.
Proof.
  intros Hb. unfold ceil_div.
  pose proof (Z.div_mod (a + b - 1) b ltac:(lia)) as Hdm.
  pose proof (Z.mod_pos_bound (a + b - 1) b Hb) as Hr.
  lia.
Qed.

Lemma ceil_div_succ (i s : Z) :
  1 <= s ->
  ceil_div (i + 1) s = ceil_div i s + (if i mod s =? 0 then 1 else 0).
Proof.
  intros Hs. unfold ceil_div.
  pose proof (Z.div_mod i s ltac:(lia)) as Hdm.
  pose proof (Z.mod_pos_bound i s ltac:(lia)) as Hr.
  destruct (Z.eqb_spec (i mod s) 0) as [E|E].
  - rewrite <- (Z.div_unique (i + 1 + s - 1) s (i / s + 1) 0) by lia.
    rewrite <- (Z.div_unique (i + s - 1) s (i / s) (s - 1)) by lia.
    reflexivity.
  - rewrite <- (Z.div_unique (i + 1 + s - 1) s (i / s + 1) (i mod s)) by lia.
    rewrite <- (Z.div_unique (i + s - 1) s (i / s + 1) (i mod s - 1)) by lia.
    lia.
Qed.

Lemma div_succ (p s : Z) :
  1 <= s ->
  (p + 1) / s = p / s + (if (p + 1) mod s =? 0 then 1 else 0).
Proof.
  intros Hs.
  pose proof (Z.div_mod (p + 1) s ltac:(lia)) as Hdm.
  pose proof (Z.mod_pos_bound (p + 1) s ltac:(lia)) as Hr.
  destruct (Z.eqb_spec ((p + 1) mod s) 0) as [E|E].
  - rewrite <- (Z.div_unique p s ((p + 1) / s - 1) (s - 1)) by lia. lia.
  - rewrite <- (Z.div_unique p s ((p + 1) / s) ((p + 1) mod s - 1)) by lia. lia.
Qed.

(** ** The accepted frames *)

Lemma accepted_from_length (s i : Z) (frames : list frame) :
  1 <= s ->
  Z.of_nat (length (accepted_from s i frames)) =
    ceil_div (i + Z.of_nat (length frames)) s - ceil_div i s.
Proof.
  intros Hs. revert i. induction frames as [|f rest IH]; intros i.
  - simpl. rewrite Z.add_0_r. lia.
  - cbn [accepted_from length].
    replace (i + Z.of_nat (S (length rest)))
      with (i + 1 + Z.of_nat (length rest)) by lia.
    pose proof (ceil_div_succ i s Hs) as Hc.
    destruct (i mod s =? 0); cbn [length]; rewrite ?Nat2Z.inj_succ, IH; lia.
Qed.

Lemma elem_of_accepted_from (s i j : Z) (f : frame) (frames : list frame) :
  (j, f) ∈ accepted_from s i frames <->
  i <= j /\ frames !! Z.to_nat (j - i) = Some f /\ j mod s = 0.
Proof.
  revert i. induction frames as [|f0 rest IH]; intros i.
  - simpl. split.
    + intros Hin. apply elem_of_nil in Hin. contradiction.
    + intros (_ & Hl & _). discriminate.
  - cbn [accepted_from].
    assert ((j, f) ∈ accepted_from s (i + 1) rest <->
            i < j /\ (f0 :: rest) !! Z.to_nat (j - i) = Some f /\ j mod s = 0)
      as Htail.
    { rewrite IH. split.
      - intros (Hle & Hl & Hm). repeat split; [lia | | exact Hm].
        replace (Z.to_nat (j - i)) with (S (Z.to_nat (j - (i + 1)))) by lia.
        exact Hl.
      - intros (Hlt & Hl & Hm). repeat split; [lia | | exact Hm].
        replace (Z.to_nat (j - i)) with (S (Z.to_nat (j - (i + 1)))) in Hl by lia.
        exact Hl. }
    assert (i = j -> (f0 :: rest) !! Z.to_nat (j - i) = Some f <-> f0 = f)
      as Hhead.
    { intros ->. rewrite Z.sub_diag. simpl. split; congruence. }
    destruct (Z.eqb_spec (i mod s) 0) as [E|E].
    + rewrite elem_of_cons, Htail. split.
      * intros [Heq | (Hlt & Hl & Hm)].
        -- injection Heq as -> ->. repeat split; [lia | | exact E].
           apply Hhead; reflexivity.
        -- repeat split; [lia | exact Hl | exact Hm].
      * intros (Hle & Hl & Hm). destruct (Z.eq_dec i j) as [Hij|Hij].
        -- left. apply (Hhead Hij) in Hl. subst. reflexivity.
        -- right. repeat split; [lia | exact Hl | exact Hm].
    + rewrite Htail. split.
      * intros (Hlt & Hl & Hm). repeat split; [lia | exact Hl | exact Hm].
      * intros (Hle & Hl & Hm). destruct (Z.eq_dec i j) as [Hij|Hij].
        -- subst. contradiction.
        -- repeat split; [lia | exact Hl | exact Hm].
Qed.

Lemma sample_all_processed self l st st' :
  sample_all self l st = Ok st' ->
  processed_frames st' = processed_frames st + Z.of_nat (length l).
Proof.
  revert st. induction l as [|[i f] rest IH]; intros st; simpl.
  - intros Hr. injection Hr as <-. lia.
  - intros Hr. apply bind_Ok in Hr as (st1 & H1 & Hr).
    apply IH in Hr. rewrite Hr.
    apply sample_frame_Ok in H1 as (? & ? & ? & _ & _ & _ & _ & -> & _).
    lia.
Qed.

(** ** What the loop can raise *)

Lemma resize_Raise (f : frame) (target_w : Z) (e : exn) :
  _resize_to_width f target_w = Raise e ->
  (exists flt, e = BackendError flt) \/
  (e = ZeroDivisionError /\ (frame_shape f).2 = 0 /\ target_w < 0).
Proof.
  unfold _resize_to_width. destruct (frame_shape f) as [h w]. cbn [snd].
  destruct (Z.leb_spec w target_w) as [Hle|Hlt]; [discriminate | ].
  intros Hr. apply bind_Raise in Hr as [Hr | (scale & _ & Hr)].
  - unfold div_by_float_of in Hr.
    destruct (Z.eqb_spec w 0) as [-> | _]; [ | discriminate].
    injection Hr as <-. right. repeat split. exact Hlt.
  - left. eapply call_Raise, Hr.
Qed.

Lemma sample_frame_Raise self i f st e :
  sample_frame self i f st = Raise e ->
  (exists flt, e = BackendError flt) \/
  (e = ZeroDivisionError /\
   (text_sample_stride (config self) = 0 \/
    yolo_frame_stride (config self) = 0 \/
    ((frame_shape f).2 = 0 /\ resize_width (config self) < 0))).
Proof.
  unfold sample_frame. intros Hs.
  apply bind_Raise in Hs as [Hs | (small & _ & Hs)].
  { apply resize_Raise in Hs as [Hs | (-> & Hw & Ht)]; [left; exact Hs | ].
    right. split; [reflexivity | ]. right. right. split; assumption. }
  apply bind_Raise in Hs as [Hs | (ch & _ & Hs)].
  { left. eapply call_Raise, Hs. }
  apply bind_Raise in Hs as [Hs | (cuts & _ & Hs)].
  { destruct (prev_hist st) as [ph|]; [ | discriminate].
    apply bind_Raise in Hs as [Hs | (d & _ & Hs)]; [ | discriminate].
    left. eapply call_Raise, Hs. }
  apply bind_Raise in Hs as [Hs | (cg & _ & Hs)].
  { left. eapply call_Raise, Hs. }
  apply bind_Raise in Hs as [Hs | (motion & _ & Hs)].
  { destruct (prev_gray st) as [pg|]; [ | discriminate].
    apply bind_Raise in Hs as [Hs | (m & _ & Hs)]; [ | discriminate].
    left. eapply call_Raise, Hs. }
  apply bind_Raise in Hs as [Hs | (tr & _ & Hs)].
  { apply py_mod_Raise in Hs as [Hz ->]. right. split; [reflexivity | ].
    left. exact Hz. }
  apply bind_Raise in Hs as [Hs | (text & _ & Hs)].
  { destruct (tr =? 0); [ | discriminate].
    apply bind_Raise in Hs as [Hs | (found & _ & Hs)]; [ | discriminate].
    unfold _contains_text in Hs.
    apply bind_Raise in Hs as [Hs | (frags & _ & Hs)]; [ | discriminate].
    left. eapply call_Raise, Hs. }
  apply bind_Raise in Hs as [Hs | (yr & _ & Hs)].
  { apply py_mod_Raise in Hs as [Hz ->]. right. split; [reflexivity | ].
    right. left. exact Hz. }
  apply bind_Raise in Hs as [Hs | (counts & _ & Hs)]; [ | discriminate].
  destruct (yr =? 0); [ | discriminate].
  apply bind_Raise in Hs as [Hs | (found & _ & Hs)]; [ | discriminate].
  unfold _count_people_vs_objects in Hs.
  apply bind_Raise in Hs as [Hs | (res & _ & Hs)]; [ | discriminate].
  left. eapply call_Raise, Hs.
Qed.

Lemma loop_body_Raise self f st e :
  loop_body self f st = Raise e ->
  (exists flt, e = BackendError flt) \/
  (e = ZeroDivisionError /\
   (frame_stride (config self) = 0 \/
    text_sample_stride (config self) = 0 \/
    yolo_frame_stride (config self) = 0 \/
    ((frame_shape f).2 = 0 /\ resize_width (config self) < 0))).
Proof.
  unfold loop_body. intros Hb.
  apply bind_Raise in Hb as [Hb | (r & _ & Hb)].
  - apply py_mod_Raise in Hb as [Hz ->]. right. split; [reflexivity | ].
    left. exact Hz.
  - destruct (negb (r =? 0)); [discriminate | ].
    apply sample_frame_Raise in Hb as [Hb | [-> Hb]]; [left; exact Hb | ].
    right. split; [reflexivity | ]. right. exact Hb.
Qed.

Lemma while_true_Raise self reads st e :
  (while_true self reads st).1 = Raise e ->
  (exists flt, e = BackendError flt) \/
  (e = ZeroDivisionError /\
   (frame_stride (config self) = 0 \/
    text_sample_stride (config self) = 0 \/
    yolo_frame_stride (config self) = 0 \/
    resize_width (config self) < 0)).
Proof.
  revert st. induction reads as [|[f|flt] rest IH]; intros st; simpl.
  - discriminate.
  - destruct (loop_body self f st) as [st1|e1] eqn:Hb; [apply IH | ].
    simpl. intros He. injection He as ->.
    apply loop_body_Raise in Hb as [Hb | [-> Hb]]; [left; exact Hb | ].
    right. split; [reflexivity | ]. tauto.
  - intros He. injection He as <-. left. exists flt. reflexivity.
Qed.

Lemma extract_features_Raise fs self path v e :
  files fs !! path = Some (VideoFile v) ->
  (extract_features fs self path).1 = Raise e <->
  (while_true self (video_reads v) initial_locals).1 = Raise e.
Proof.
  intros Hv.
  destruct (extract_features_video fs self path v Hv) as (duration & total & E).
  rewrite E. cbn [fst].
  destruct (while_true self (video_reads v) initial_locals).1 as [st|e1];
    cbn [fmap result_fmap]; split; intros Hr.
  - discriminate.
  - discriminate.
  - injection Hr as ->. reflexivity.
  - injection Hr as ->. reflexivity.
Qed.

Lemma extract_features_missing fs self path :
  files fs !! path = None ->
  extract_features fs self path =
    (Raise (FileNotFoundError ("Video not found: " ++ path)), None).
Proof.
  intros Hn. unfold extract_features.
  apply path_exists_false in Hn. rewrite Hn. reflexivity.
Qed.

Lemma extract_features_unreadable fs self path :
  files fs !! path = Some OtherFile ->
  extract_features fs self path =
    (Raise (ValueError ("Unable to open video: " ++ path)),
     Some (cv2_VideoCapture fs path)).
Proof.
  intros Ho. unfold extract_features.
  assert (path_exists fs path = true) as ->
    by (apply path_exists_true; rewrite Ho; eauto).
  unfold isOpened, cv2_VideoCapture. rewrite Ho. reflexivity.
Qed.


Lemma extract_features_Ok_inv fs self path r :
  (extract_features fs self path).1 = Ok r ->
  exists v st duration total,
    files fs !! path = Some (VideoFile v) /\
    (while_true self (video_reads v) initial_locals).1 = Ok st /\
    r = build_report (resolve fs path) duration total st.
Proof.
  intros Hr. destruct (files fs !! path) as [[v|]|] eqn:Hf.
  - destruct (extract_features_Ok fs self path v r Hf Hr)
      as (st & duration & total & Hrun & ->).
    exists v, st, duration, total. repeat split. exact Hrun.
  - rewrite (extract_features_unreadable fs self path Hf) in Hr. discriminate.
  - rewrite (extract_features_missing fs self path Hf) in Hr. discriminate.
Qed.

(** On a normal end the locals are those of the analyzers run on the
    accepted frames, whatever the stride. *)
Lemma while_true_samples_Ok self frames st st' :
  (while_true self (map Grabbed frames) st).1 = Ok st' ->
  exists st0,
    sample_all self
      (accepted_from (frame_stride (config self))
         (absolute_frame_index st + 1) frames) st = Ok st0 /\
    st' = set_index (absolute_frame_index st + Z.of_nat (length frames)) st0.
Proof.
  intros Hr. destruct (Z.eq_dec (frame_stride (config self)) 0) as [Hz|Hnz].
  - destruct frames as [|f rest].
    + simpl in Hr. injection Hr as <-. exists st. split; [reflexivity | ].
      simpl. rewrite Z.add_0_r, set_index_same. reflexivity.
    + cbn [map while_true] in Hr.
      rewrite (loop_body_zero_stride self f st Hz) in Hr. discriminate.
  - rewrite (while_true_samples self frames st Hnz) in Hr.
    destruct (sample_all self _ st) as [st0|e]; [ | discriminate].
    injection Hr as <-. exists st0. split; reflexivity.
Qed.

(** ** The detection counter *)

Lemma count_label_decide (names : gmap Z string) (p o c : Z) :
  count_label names (p, o) c =
    if decide (label_of names c = "person") then (p + 1, o) else (p, o + 1).
Proof.
  unfold count_label, label_of.
  destruct (String.eqb_spec (default "" (names !! c)) "person") as [E|E];
    destruct (decide _) as [D|D]; try reflexivity; contradiction.
Qed.

Lemma fold_count_label (names : gmap Z string) (classes : list Z) (p o : Z) :
  fold_left (count_label names) classes (p, o) =
    (p + persons_among names classes, o + others_among names classes).
Proof.
  unfold persons_among, others_among.
  revert p o. induction classes as [|c rest IH]; intros p o.
  - simpl. f_equal; lia.
  - cbn [fold_left]. rewrite count_label_decide, !filter_cons.
    destruct (decide (label_of names c = "person")) as [D|D].
    + rewrite decide_False by (intros Hn; apply Hn, D).
      rewrite IH. cbn [length]. f_equal; lia.
    + rewrite decide_True by exact D.
      rewrite IH. cbn [length]. f_equal; lia.
Qed.

Lemma persons_others_total (names : gmap Z string) (classes : list Z) :
  persons_among names classes + others_among names classes =
    Z.of_nat (length classes).
Proof.
  unfold persons_among, others_among.
  induction classes as [|c rest IH]; [reflexivity | ].
  rewrite !filter_cons.
  destruct (decide (label_of names c = "person")) as [D|D].
  - rewrite decide_False by (intros Hn; apply Hn, D). cbn [length]. lia.
  - rewrite decide_True by exact D. cbn [length]. lia.
Qed.

Lemma count_in_result_nonneg (det : detector) (res : Results) :
  0 <= (count_in_result det res).1 /\ 0 <= (count_in_result det res).2.
Proof.
  unfold count_in_result.
  destruct (boxes res) as [|[bx|]]; [simpl; lia | | simpl; lia].
  destruct (cls bx) as [classes|]; [ | simpl; lia].
  rewrite fold_count_label. unfold persons_among, others_among. simpl. lia.
Qed.

Lemma count_people_nonneg self f found :
  _count_people_vs_objects self f = Ok found -> 0 <= found.1 /\ 0 <= found.2.
Proof.
  unfold _count_people_vs_objects. intros Hc.
  apply bind_Ok in Hc as (res & _ & Hc). injection Hc as <-.
  apply count_in_result_nonneg.
Qed.

(** ** Invariants of the counters *)

Lemma counts_nonneg_loop self reads st' :
  (while_true self reads initial_locals).1 = Ok st' -> counts_nonneg st'.
Proof.
  apply (while_true_invariant counts_nonneg self).
  - intros i st HP. exact HP.
  - intros i f st st1 (Hp & Hpe & Ho & Ht & Hm) Hs.
    apply sample_frame_Ok in Hs
      as (small & ch & cg & _ & _ & _ & _ & Hp' & _ & _ & _ & Hmo & _ & Htx
          & _ & Hy).
    unfold counts_nonneg.
    assert (0 <= person_total st1 /\ 0 <= object_total st1) as [? ?].
    { destruct (_ =? 0) in Hy.
      - destruct Hy as (found & Hfound & -> & ->).
        apply count_people_nonneg in Hfound. lia.
      - destruct Hy as [-> ->]. lia. }
    assert (0 <= text_samples st1).
    { destruct (_ =? 0) in Htx.
      - destruct Htx as (found & _ & -> & _). lia.
      - destruct Htx as [-> _]. lia. }
    assert (0 <= motion_samples st1).
    { destruct (prev_gray st).
      - destruct Hmo as (m & _ & -> & _). lia.
      - destruct Hmo as [-> _]. lia. }
    lia.
  - unfold counts_nonneg. simpl. lia.
Qed.

Lemma cuts_bounded_loop self reads st' :
  (while_true self reads initial_locals).1 = Ok st' -> cuts_bounded st'.
Proof.
  apply (while_true_invariant cuts_bounded self).
  - intros i st HP. exact HP.
  - intros i f st st1 HP Hs.
    apply sample_frame_Ok in Hs
      as (small & ch & cg & _ & _ & _ & _ & Hp' & Hh' & _ & Hc & _).
    right. rewrite Hp', Hh'. destruct HP as [(Hp & Hc0 & Hn) | (Hp & Hc0 & Hsome)].
    + rewrite Hn in Hc. rewrite Hc, Hp, Hc0. repeat split; try lia. eauto.
    + destruct (prev_hist st) as [ph|]; [ | destruct Hsome; discriminate].
      destruct Hc as (d & _ & ->).
      destruct (f_gt d _); repeat split; try lia; eauto.
  - left. repeat split.
Qed.


(** ** The motion estimator *)

Lemma sample_frame_gray self i f st st' :
  sample_frame self i f st = Ok st' ->
  exists g,
    gray_of self f = Ok g /\ prev_gray st' = Some g /\
    match prev_gray st with
    | None =>
        motion_samples st' = motion_samples st /\
        motion_magnitude_sum st' = motion_magnitude_sum st
    | Some pg =>
        exists m,
          cv2_flow_mean_magnitude (farneback (config self)) pg g = inr m /\
          motion_samples st' = motion_samples st + 1 /\
          motion_magnitude_sum st' = f_add (motion_magnitude_sum st) m
    end.
Proof.
  intros Hs.
  apply sample_frame_Ok in Hs
    as (small & ch & cg & Hsmall & _ & Hcg & _ & _ & _ & Hg' & _ & Hm & _).
  exists cg. split; [unfold gray_of; rewrite Hsmall; exact Hcg | ].
  split; [exact Hg' | ].
  destruct (prev_gray st) as [pg|]; [ | exact Hm].
  destruct Hm as (m & Hmag & Hm). exists m. split; [ | exact Hm].
  unfold _avg_optical_flow_magnitude in Hmag.
  destruct (cv2_flow_mean_magnitude (farneback (config self)) pg cg)
    as [flt|m']; [discriminate | ].
  injection Hmag as ->. reflexivity.
Qed.

(** The motion counters after the analyzers ran on a list of frames: one
    sample for each frame that had a predecessor, summed in order. *)
Lemma sample_all_motion self l st st' :
  sample_all self l st = Ok st' ->
  exists grays samples,
    grays_of self l = Ok grays /\
    flow_samples self (prev_gray st) grays = Ok samples /\
    length grays = length l /\
    length samples =
      match prev_gray st with
      | Some _ => length grays
      | None => pred (length grays)
      end /\
    motion_samples st' = motion_samples st + Z.of_nat (length samples) /\
    motion_magnitude_sum st' = running_sum (motion_magnitude_sum st) samples.
Proof.
  revert st. induction l as [|[i f] rest IH]; intros st Hall.
  - simpl in Hall. injection Hall as <-. exists [], [].
    simpl. destruct (prev_gray st); repeat split; lia.
  - cbn [sample_all] in Hall. apply bind_Ok in Hall as (st1 & H1 & Hall).
    apply sample_frame_gray in H1 as (g & Hg & Hprev1 & Hm).
    apply IH in Hall
      as (grays & samples & Hgrays & Hflow & Hlen & Hslen & Hcount & Hsum).
    rewrite Hprev1 in Hflow, Hslen.
    cbn [grays_of]. rewrite Hg, Hgrays. cbn [mbind result_bind mret result_ret].
    destruct (prev_gray st) as [pg|].
    + destruct Hm as (m & Hmag & Hms & Hmsum).
      exists (g :: grays), (m :: samples).
      cbn [flow_samples]. rewrite Hmag, Hflow.
      cbn [call mbind result_bind mret result_ret length].
      repeat split; try lia.
      rewrite Hsum, Hmsum. reflexivity.
    + destruct Hm as [Hms Hmsum].
      exists (g :: grays), samples.
      cbn [flow_samples length]. rewrite Hflow.
      repeat split; try lia.
      rewrite Hsum, Hmsum. reflexivity.
Qed.

(** Each image of [grays_of] is what the grayscale conversion gives for
    the resized frame at the same position. *)
Lemma grays_of_lookup self l grays :
  grays_of self l = Ok grays ->
  forall (k : nat) i f g,
    l !! k = Some (i, f) -> grays !! k = Some g ->
    exists small,
      _resize_to_width f (resize_width (config self)) = Ok small /\
      cv2_bgr2gray small = inr g.
Proof.
  revert grays. induction l as [|[j f0] rest IH]; intros grays Hg k i f g Hl Hk.
  - destruct k; discriminate Hl.
  - cbn [grays_of] in Hg. apply bind_Ok in Hg as (g0 & Hg0 & Hg).
    apply bind_Ok in Hg as (gs & Hgs & Hg). injection Hg as <-.
    destruct k as [|k]; cbn in Hl, Hk.
    + injection Hl as <- <-. injection Hk as <-.
      unfold gray_of in Hg0. apply bind_Ok in Hg0 as (small & Hsmall & Hcv).
      exists small. split; [exact Hsmall | ].
      destruct (cv2_bgr2gray small) as [flt|g']; [discriminate | ].
      injection Hcv as ->. reflexivity.
    + exact (IH gs Hgs k i f g Hl Hk).
Qed.

(** Each sample of [flow_samples] is what the flow capability gives for two
    images that follow each other. *)
Lemma flow_samples_lookup self prev grays samples :
  flow_samples self prev grays = Ok samples ->
  forall (k : nat) g1 g2 m,
    (from_option (fun p => [p]) [] prev ++ grays) !! k = Some g1 ->
    (from_option (fun p => [p]) [] prev ++ grays) !! S k = Some g2 ->
    samples !! k = Some m ->
    cv2_flow_mean_magnitude (farneback (config self)) g1 g2 = inr m.
Proof.
  revert prev samples.
  induction grays as [|g rest IH]; intros prev samples Hf k g1 g2 m H1 H2 Hm.
  - injection Hf as <-. destruct k; discriminate Hm.
  - cbn [flow_samples] in Hf. destruct prev as [p|].
    + apply bind_Ok in Hf as (m0 & Hm0 & Hf).
      apply bind_Ok in Hf as (ms & Hms & Hf). injection Hf as <-.
      destruct k as [|k]; cbn in H1, H2, Hm.
      * injection H1 as <-. injection H2 as <-. injection Hm as <-.
        destruct (cv2_flow_mean_magnitude (farneback (config self)) p g)
          as [flt|m']; [discriminate | ].
        injection Hm0 as ->. reflexivity.
      * exact (IH (Some g) ms Hms k g1 g2 m H1 H2 Hm).
    + exact (IH (Some g) samples Hf k g1 g2 m H1 H2 Hm).
Qed.


(** ** The sub-sampled analyzers *)

Lemma sample_frame_text self i f st st' :
  sample_frame self i f st = Ok st' ->
  processed_frames st' = processed_frames st + 1 /\
  text_samples st' =
    text_samples st +
    (if (processed_frames st + 1) mod text_sample_stride (config self) =? 0
     then 1 else 0) /\
  ((processed_frames st + 1) mod text_sample_stride (config self) <> 0 ->
   text_positives st' = text_positives st) /\
  ((processed_frames st + 1) mod yolo_frame_stride (config self) <> 0 ->
   person_total st' = person_total st /\ object_total st' = object_total st).
Proof.
  intros Hs.
  apply sample_frame_Ok in Hs
    as (small & ch & cg & _ & _ & _ & _ & Hp' & _ & _ & _ & _ & _ & Htx
        & _ & Hy).
  split; [exact Hp' | ].
  destruct (Z.eqb_spec
    ((processed_frames st + 1) mod text_sample_stride (config self)) 0)
    as [Et|Et];
  destruct (Z.eqb_spec
    ((processed_frames st + 1) mod yolo_frame_stride (config self)) 0)
    as [Ey|Ey].
  - destruct Htx as (found & _ & -> & _). repeat split; intros; lia.
  - destruct Htx as (found & _ & -> & _). destruct Hy as [-> ->].
    repeat split; intros; lia.
  - destruct Htx as [-> ->]. repeat split; intros; lia.
  - destruct Htx as [-> ->]. destruct Hy as [-> ->].
    repeat split; intros; lia.
Qed.

Lemma late_start_loop self reads st' :
  (while_true self reads initial_locals).1 = Ok st' -> late_start self st'.
Proof.
  apply (while_true_invariant (late_start self) self).
  - intros i st HP. exact HP.
  - intros i f st st1 (Hp & Htext & Hyolo) Hs.
    apply sample_frame_text in Hs as (Hp' & Hts & Htp & Hy).
    unfold late_start. rewrite Hp'. split; [lia | split].
    + intros Hfew.
      assert ((processed_frames st + 1) mod text_sample_stride (config self)
              = processed_frames st + 1) as Hmod by (apply Z.mod_small; lia).
      rewrite Hts, Htp by lia.
      destruct (Z.eqb_spec
        ((processed_frames st + 1) mod text_sample_stride (config self)) 0);
        lia.
    + intros Hfew.
      assert ((processed_frames st + 1) mod yolo_frame_stride (config self)
              = processed_frames st + 1) as Hmod by (apply Z.mod_small; lia).
      destruct Hy as [-> ->]; lia.
  - unfold late_start. simpl. lia.
Qed.

Lemma text_floor_loop self reads st' :
  1 <= text_sample_stride (config self) ->
  (while_true self reads initial_locals).1 = Ok st' -> text_floor self st'.
Proof.
  intros Hstride.
  apply (while_true_invariant (text_floor self) self).
  - intros i st HP. exact HP.
  - intros i f st st1 HP Hs. unfold text_floor in *.
    apply sample_frame_text in Hs as (-> & -> & _).
    rewrite div_succ by exact Hstride. lia.
  - reflexivity.
Qed.


(** ** A reliable backend and a valid configuration give a report *)

Lemma resize_returns_frame (f : frame) (target_w : Z) :
  reliable -> 0 <= target_w ->
  exists small, _resize_to_width f target_w = Ok small.
Proof.
  intros Hrel Hw. unfold _resize_to_width, div_by_float_of.
  destruct (frame_shape f) as [h w].
  destruct (Z.leb_spec w target_w) as [Hle|Hlt]; [eauto | ].
  destruct (Z.eqb_spec w 0) as [E|_]; [lia | ].
  cbn [mbind result_bind].
  destruct (resize_returns Hrel f
              (target_w,
               f_trunc (f_mul (f_of_int h)
                          (f_div (f_of_int target_w) (f_of_int w)))))
    as [g ->].
  exists g. reflexivity.
Qed.

Lemma sample_frame_returns self i f st :
  reliable -> valid_config (config self) ->
  exists st', sample_frame self i f st = Ok st'.
Proof.
  intros Hrel (Hf & Ht & Hy & Hw). unfold sample_frame.
  assert (Htnz : text_sample_stride (config self) <> 0) by lia.
  assert (Hynz : yolo_frame_stride (config self) <> 0) by lia.
  destruct (resize_returns_frame f _ Hrel Hw) as [small ->].
  cbn [mbind result_bind]. unfold _hsv_histogram.
  destruct (hsv_hist_returns Hrel (hist (config self)) small) as [ch ->].
  cbn [call mbind result_bind].
  assert (exists cuts,
    match prev_hist st with
    | Some ph =>
        _bhattacharyya ph ch ≫= fun color_distance =>
          mret (if f_gt color_distance (shot_threshold (config self))
                then hard_cuts st + 1 else hard_cuts st)
    | None => mret (hard_cuts st)
    end = Ok cuts) as [cuts ->].
  { destruct (prev_hist st) as [ph|]; [ | eexists; reflexivity].
    unfold _bhattacharyya.
    destruct (compareHist_returns Hrel ph ch) as [d ->].
    eexists. reflexivity. }
  cbn [mbind result_bind].
  destruct (bgr2gray_returns Hrel small) as [cg ->].
  cbn [call mbind result_bind].
  assert (exists motion,
    match prev_gray st with
    | Some pg =>
        _avg_optical_flow_magnitude self pg cg ≫= fun avg_mag =>
          mret (f_add (motion_magnitude_sum st) avg_mag, motion_samples st + 1)
    | None => mret (motion_magnitude_sum st, motion_samples st)
    end = Ok motion) as [motion ->].
  { destruct (prev_gray st) as [pg|]; [ | eexists; reflexivity].
    unfold _avg_optical_flow_magnitude.
    destruct (flow_returns Hrel (farneback (config self)) pg cg) as [m ->].
    eexists. reflexivity. }
  cbn [mbind result_bind].
  rewrite (proj2 (py_mod_Ok (processed_frames st + 1)
                    (text_sample_stride (config self)) _)
             (conj Htnz eq_refl)).
  cbn [mbind result_bind].
  assert (exists text,
    (if (processed_frames st + 1) mod text_sample_stride (config self) =? 0
     then
       _contains_text small (text_min_chars (config self)) ≫= fun found =>
         mret (text_samples st + 1,
               if found : bool then text_positives st + 1
               else text_positives st)
     else mret (text_samples st, text_positives st)) = Ok text) as [text ->].
  { destruct (_ =? 0); [ | eexists; reflexivity].
    unfold _contains_text. destruct (ocr_returns Hrel small) as [l ->].
    eexists. reflexivity. }
  cbn [mbind result_bind].
  rewrite (proj2 (py_mod_Ok (processed_frames st + 1)
                    (yolo_frame_stride (config self)) _)
             (conj Hynz eq_refl)).
  cbn [mbind result_bind].
  assert (exists counts,
    (if (processed_frames st + 1) mod yolo_frame_stride (config self) =? 0
     then
       _count_people_vs_objects self small ≫= fun found =>
         mret (person_total st + found.1, object_total st + found.2)
     else mret (person_total st, object_total st)) = Ok counts)
    as [counts ->].
  { destruct (_ =? 0); [ | eexists; reflexivity].
    unfold _count_people_vs_objects.
    destruct (detector_returns Hrel (self_detector self) small) as [res ->].
    eexists. reflexivity. }
  eexists. reflexivity.
Qed.

Lemma while_true_returns self frames st :
  reliable -> valid_config (config self) ->
  exists st', (while_true self (map Grabbed frames) st).1 = Ok st'.
Proof.
  intros Hrel Hcfg. revert st.
  induction frames as [|f rest IH]; intros st.
  - exists st. reflexivity.
  - cbn [map while_true].
    rewrite loop_body_stride by (destruct Hcfg; lia).
    destruct (_ =? 0).
    + destruct (sample_frame_returns self (absolute_frame_index st + 1) f st
                  Hrel Hcfg) as [st1 ->].
      apply IH.
    + apply IH.
Qed.

(** With a backend that does not fault and a valid configuration, every
    stream of frames gets its report. *)
Lemma extract_features_returns fs self path v frames :
  reliable -> valid_config (config self) ->
  files fs !! path = Some (VideoFile v) ->
  video_reads v = map Grabbed frames ->
  exists r, (extract_features fs self path).1 = Ok r.
Proof.
  intros Hrel Hcfg Hv Hreads.
  destruct (extract_features_video fs self path v Hv) as (duration & total & E).
  rewrite E, Hreads. cbn [fst].
  destruct (while_true_returns self frames initial_locals Hrel Hcfg)
    as [st ->].
  eexists. reflexivity.
Qed.


End Loop.

(** * The claims of the specification *)

Section Claims.
Context `{Backend}.
Implicit Types (self : VideoFeatureExtractor) (st : Locals) (fs : FileSystem).

(** C1.  On a video whose decoder yields the frames [frames] in order, with
    a frame stride of at least one: the accepted frames are exactly those
    whose absolute index, counted from 0, is a multiple of the stride; the
    loop does to the locals what the analyzers do on these frames in order
    (the other frames only move the index); [frames_processed] is their
    number, which is [ceil(N / frame_stride)]; and the processed counter is
    1 once the first frame, which is always accepted, has been handled. *)
Theorem C1_stride_sampling fs self path v frames r :
  1 <= frame_stride (config self) ->
  files fs !! path = Some (VideoFile v) ->
  video_reads v = map Grabbed frames ->
  (extract_features fs self path).1 = Ok r ->
  let stride := frame_stride (config self) in
  let n := Z.of_nat (length frames) in
  (forall i f,
     (i, f) ∈ accepted_frames stride frames <->
     0 <= i /\ frames !! Z.to_nat i = Some f /\ i mod stride = 0) /\
  (while_true self (video_reads v) initial_locals).1 =
    set_index (n - 1) <$>
      sample_all self (accepted_frames stride frames) initial_locals /\
  frames_processed r = Z.of_nat (length (accepted_frames stride frames)) /\
  frames_processed r = ceil_div n stride /\
  n <= frames_processed r * stride < n + stride /\
  match frames with
  | [] => frames_processed r = 0
  | f0 :: _ =>
      exists st1,
        loop_body self f0 initial_locals = Ok st1 /\ processed_frames st1 = 1
  end.
Proof.
  intros Hs Hv Hreads Hr. cbv zeta.
  destruct (extract_features_Ok fs self path v r Hv Hr)
    as (st & duration & total & Hrun & ->).
  assert (Hsamples :
    (while_true self (video_reads v) initial_locals).1 =
      set_index (Z.of_nat (length frames) - 1) <$>
        sample_all self
          (accepted_frames (frame_stride (config self)) frames) initial_locals).
  { rewrite Hreads, while_true_samples by lia.
    cbn [initial_locals absolute_frame_index].
    replace (-1 + Z.of_nat (length frames))
      with (Z.of_nat (length frames) - 1) by lia.
    reflexivity. }
  assert (Hcount :
    processed_frames st =
      Z.of_nat (length (accepted_frames (frame_stride (config self)) frames))).
  { rewrite Hsamples in Hrun.
    destruct (sample_all self _ initial_locals) as [st0|e] eqn:Hall;
      [ | discriminate].
    injection Hrun as <-. apply sample_all_processed in Hall.
    cbn [set_index processed_frames]. rewrite Hall. reflexivity. }
  assert (Hceil :
    processed_frames st =
      ceil_div (Z.of_nat (length frames)) (frame_stride (config self))).
  { rewrite Hcount. unfold accepted_frames.
    rewrite accepted_from_length by exact Hs.
    unfold ceil_div at 2. rewrite Z.div_small by lia.
    rewrite Z.add_0_l. lia. }
  cbn [build_report frames_processed].
  split; [ | split; [exact Hsamples | split; [exact Hcount | split;
    [exact Hceil | split]]]].
  - intros i f. unfold accepted_frames. rewrite elem_of_accepted_from.
    rewrite Z.sub_0_r. reflexivity.
  - rewrite Hceil. apply ceil_div_spec. lia.
  - destruct frames as [|f0 rest]; [exact Hcount | ].
    rewrite Hreads in Hrun. cbn [map while_true] in Hrun.
    destruct (loop_body self f0 initial_locals) as [st1|e] eqn:Hb;
      [ | discriminate].
    exists st1. split; [reflexivity | ].
    rewrite loop_body_stride in Hb by lia.
    cbn [initial_locals absolute_frame_index] in Hb.
    change (-1 + 1) with 0 in Hb. rewrite Z.mod_0_l in Hb by lia.
    cbn [Z.eqb] in Hb.
    apply sample_frame_Ok in Hb as (? & ? & ? & _ & _ & _ & _ & -> & _).
    reflexivity.
Qed.



(** C3.  Whenever the decode handle was opened, the call leaves it
    released, exactly once, whatever the outcome: the loop ran to the end
    of the stream, or an analyzer or a read raised (the outcome is then
    that exception).  The second part says the same of [try: ... finally:
    cap.release()] around any body. *)
Theorem C3_handle_released fs self path v :
  files fs !! path = Some (VideoFile v) ->
  isOpened (cv2_VideoCapture fs path) = true /\
  (exists cap,
     (extract_features fs self path).2 = Some cap /\
     isOpened cap = false /\ release_calls cap = 1%nat) /\
  (forall e,
     (while_true self (video_reads v) initial_locals).1 = Raise e <->
     (extract_features fs self path).1 = Raise e) /\
  (forall (A : Type) (body : Cap A) (cap : VideoCapture),
     try_finally body cap_release cap = ((body cap).1, release (body cap).2)).
Proof.
  intros Hv.
  destruct (extract_features_video fs self path v Hv) as (duration & total & E).
  split; [ | split; [ | split]].
  - unfold isOpened, cv2_VideoCapture. rewrite Hv. reflexivity.
  - eexists. split; [rewrite E; reflexivity | ]. split.
    + reflexivity.
    + cbn [release release_calls set_pending]. unfold cv2_VideoCapture.
      rewrite Hv. reflexivity.
  - intros e. symmetry. apply extract_features_Raise, Hv.
  - intros A body cap. unfold try_finally, cap_release.
    destruct (body cap) as [r cap1]. reflexivity.
Qed.

(** C4 (amended).  In every report, [hard_cuts] is at most
    [frames_processed - 1] as soon as one frame was accepted, and is 0 when
    none was: the first accepted frame finds no previous histogram and
    counts nothing, every later one counts at most one cut. *)
Theorem C4_cuts_bound fs self path r :
  (extract_features fs self path).1 = Ok r ->
  0 <= report_hard_cuts r /\
  0 <= frames_processed r /\
  report_hard_cuts r <= Z.max 0 (frames_processed r - 1) /\
  (1 <= frames_processed r -> report_hard_cuts r <= frames_processed r - 1) /\
  (frames_processed r = 0 -> report_hard_cuts r = 0) /\
  prev_hist initial_locals = None /\
  (forall i f st st',
     sample_frame self i f st = Ok st' ->
     hard_cuts st <= hard_cuts st' <= hard_cuts st + 1 /\
     (prev_hist st = None -> hard_cuts st' = hard_cuts st) /\
     is_Some (prev_hist st')).
Proof.
  intros Hr.
  apply extract_features_Ok_inv in Hr
    as (v & st & duration & total & _ & Hrun & ->).
  apply cuts_bounded_loop in Hrun.
  cbn [build_report report_hard_cuts frames_processed].
  assert (Hstep : forall i f st0 st',
    sample_frame self i f st0 = Ok st' ->
    hard_cuts st0 <= hard_cuts st' <= hard_cuts st0 + 1 /\
    (prev_hist st0 = None -> hard_cuts st' = hard_cuts st0) /\
    is_Some (prev_hist st')).
  { intros i f st0 st' Hs.
    apply sample_frame_Ok in Hs
      as (small & ch & cg & _ & _ & _ & _ & _ & Hh' & _ & Hc & _).
    rewrite Hh'. destruct (prev_hist st0) as [ph|].
    - destruct Hc as (d & _ & ->).
      destruct (f_gt d _); repeat split; try lia; try discriminate; eauto.
    - rewrite Hc. repeat split; try lia; eauto. }
  assert (0 <= hard_cuts st /\ 0 <= processed_frames st /\
          hard_cuts st <= Z.max 0 (processed_frames st - 1)) as (? & ? & ?)
    by (destruct Hrun as [(Hp & Hc & _) | (Hp & Hc & _)]; lia).
  split; [lia | split; [lia | split; [lia | split; [lia | split; [lia | ]]]]].
  split; [reflexivity | exact Hstep].
Qed.

(** C5.  In every report the person-to-object ratio is present exactly
    when [object_detections] is positive, it is then the true division of
    the two counts, and it is [None] when there is no object; building the
    report raises nothing. *)
Theorem C5_ratio_optional fs self path r :
  (extract_features fs self path).1 = Ok r ->
  0 <= object_detections r /\
  (is_Some (person_to_object_ratio r) <-> 0 < object_detections r) /\
  (person_to_object_ratio r = None <-> object_detections r = 0) /\
  person_to_object_ratio r =
    if object_detections r =? 0 then None
    else Some (int_truediv (people_detections r) (object_detections r)).
Proof.
  intros Hr.
  apply extract_features_Ok_inv in Hr
    as (v & st & duration & total & _ & Hrun & ->).
  apply counts_nonneg_loop in Hrun as (_ & _ & Ho & _).
  cbn [build_report person_to_object_ratio object_detections people_detections].
  destruct (Z.eqb_spec (object_total st) 0) as [E|E].
  - split; [lia | ]. split; [ | split; [ | reflexivity]].
    + split; [intros [q Hq]; discriminate | lia].
    + split; [intros _; exact E | reflexivity].
  - split; [lia | ]. split; [ | split; [ | reflexivity]].
    + split; [lia | eauto].
    + split; [discriminate | lia].
Qed.

(** C6.  The first accepted frame only sets the previous grayscale image
    and gives no motion sample; every later accepted frame gives one, the
    mean flow magnitude against the accepted frame just before it: the
    [k]-th sample is what the flow capability answers, with the Farneback
    parameters of the configuration, for the grayscale images of the
    [k]-th and the [k+1]-th accepted frame, each the grayscale conversion
    of the resized frame.  The reported average is the sum of the samples,
    taken in order from 0.0, divided by their number, and 0.0 when there is
    none, which is the case of every video with fewer than two accepted
    frames. *)
Theorem C6_motion_average fs self path v frames r :
  files fs !! path = Some (VideoFile v) ->
  video_reads v = map Grabbed frames ->
  (extract_features fs self path).1 = Ok r ->
  let accepted := accepted_frames (frame_stride (config self)) frames in
  exists grays samples,
    grays_of self accepted = Ok grays /\
    flow_samples self None grays = Ok samples /\
    length grays = length accepted /\
    length samples = pred (length grays) /\
    (forall (k : nat) i f g,
       accepted !! k = Some (i, f) -> grays !! k = Some g ->
       exists small,
         _resize_to_width f (resize_width (config self)) = Ok small /\
         cv2_bgr2gray small = inr g) /\
    (forall (k : nat) g1 g2 m,
       grays !! k = Some g1 -> grays !! S k = Some g2 ->
       samples !! k = Some m ->
       cv2_flow_mean_magnitude (farneback (config self)) g1 g2 = inr m) /\
    avg_motion_magnitude r =
      (if Z.of_nat (length samples) =? 0 then f_zero
       else f_div (running_sum f_zero samples)
              (f_of_int (Z.of_nat (length samples)))) /\
    ((length accepted < 2)%nat -> avg_motion_magnitude r = f_zero) /\
    (forall i f st', sample_frame self i f initial_locals = Ok st' ->
       motion_samples st' = 0 /\ is_Some (prev_gray st')).
Proof.
  intros Hv Hreads Hr. cbv zeta.
  destruct (extract_features_Ok fs self path v r Hv Hr)
    as (st & duration & total & Hrun & ->).
  rewrite Hreads in Hrun.
  apply while_true_samples_Ok in Hrun as (st0 & Hall & ->).
  cbn [initial_locals absolute_frame_index] in Hall.
  change (-1 + 1) with 0 in Hall.
  fold (accepted_frames (frame_stride (config self)) frames) in Hall.
  apply sample_all_motion in Hall
    as (grays & samples & Hgrays & Hflow & Hlen & Hslen & Hcount & Hsum).
  cbn [initial_locals prev_gray motion_samples motion_magnitude_sum]
    in Hflow, Hslen, Hcount, Hsum.
  exists grays, samples.
  assert (Havg :
    avg_motion_magnitude
      (build_report (resolve fs path) duration total
         (set_index (-1 + Z.of_nat (length frames)) st0)) =
      (if Z.of_nat (length samples) =? 0 then f_zero
       else f_div (running_sum f_zero samples)
              (f_of_int (Z.of_nat (length samples))))).
  { cbn [build_report avg_motion_magnitude set_index motion_samples
         motion_magnitude_sum].
    rewrite Hcount, Hsum, Z.add_0_l. reflexivity. }
  split; [exact Hgrays | split; [exact Hflow | split; [exact Hlen | ]]].
  split; [exact Hslen | ].
  split; [exact (grays_of_lookup self _ grays Hgrays) | ].
  split; [exact (flow_samples_lookup self None grays samples Hflow) | ].
  split; [exact Havg | split].
  - intros Hfew. eapply eq_trans; [exact Havg | ].
    replace (length samples) with 0%nat by lia. reflexivity.
  - intros i f st' Hs.
    apply sample_frame_gray in Hs as (g & _ & Hg' & Hm).
    cbn [initial_locals prev_gray motion_samples] in Hm.
    destruct Hm as [-> _]. split; [reflexivity | ]. rewrite Hg'. eauto.
Qed.


(** C7.  The counter adds one to exactly one of the two counts for each
    class id: to the persons when the label is "person", to the others
    otherwise, and a class id the names map does not have gets the empty
    label and goes to the others; the two counts add up to the number of
    detections.  A result without [boxes], with [boxes] equal to [None] or
    with a [None] class array gives (0, 0), and none of this raises. *)
Theorem C7_person_object_split self (f : frame) (res : Results) :
  let det := self_detector self in
  let names := names_used det res in
  (forall p o c,
     count_label names (p, o) c =
       if decide (label_of names c = "person") then (p + 1, o)
       else (p, o + 1)) /\
  (forall p o c, names !! c = None -> count_label names (p, o) c = (p, o + 1)) /\
  (forall classes,
     boxes res = Attr (Some {| cls := Some classes |}) ->
     count_in_result det res =
       (persons_among names classes, others_among names classes) /\
     persons_among names classes + others_among names classes =
       Z.of_nat (length classes)) /\
  (boxes res = NoAttr \/ boxes res = Attr None \/
   boxes res = Attr (Some {| cls := None |}) ->
   count_in_result det res = (0, 0)) /\
  (detector_call det f = inr res ->
   _count_people_vs_objects self f = Ok (count_in_result det res)).
Proof.
  cbv zeta. split; [ | split; [ | split; [ | split]]].
  - intros p o c. apply count_label_decide.
  - intros p o c Hnone. rewrite count_label_decide.
    unfold label_of. rewrite Hnone. cbn [default].
    rewrite decide_False by discriminate. reflexivity.
  - intros classes Hb. split; [ | apply persons_others_total].
    unfold count_in_result. rewrite Hb. cbn [cls].
    rewrite fold_count_label. reflexivity.
  - intros [Hb | [Hb | Hb]]; unfold count_in_result; rewrite Hb; reflexivity.
  - intros Hcall. unfold _count_people_vs_objects. rewrite Hcall. reflexivity.
Qed.


(** C9 (amended).  The default configuration has the strides 5, 10 and 15,
    all at least one, but nothing checks the strides of a configuration:
    [_merge] takes an override as it is given.  No field of a constructed
    configuration can be assigned: every [setattr] raises
    [FrozenInstanceError].  For a configuration whose three strides are at
    least one, the modulo operations of the loop are defined, and with a
    resize width that is not negative no run raises [ZeroDivisionError]. *)
Theorem C9_config_strides :
  (frame_stride default_config = 5 /\
   text_sample_stride default_config = 10 /\
   yolo_frame_stride default_config = 15) /\
  (forall base args s,
     arg_frame_stride args = Some s -> frame_stride (_merge base args) = s) /\
  (forall (V : Type) cfg name (value : V),
     exists msg,
       config_setattr cfg name value = Raise (FrozenInstanceError msg)) /\
  (forall cfg : FeatureExtractionConfig,
     1 <= frame_stride cfg ->
     1 <= text_sample_stride cfg ->
     1 <= yolo_frame_stride cfg ->
     forall index processed,
       py_mod index (frame_stride cfg) = Ok (index mod frame_stride cfg) /\
       py_mod processed (text_sample_stride cfg) =
         Ok (processed mod text_sample_stride cfg) /\
       py_mod processed (yolo_frame_stride cfg) =
         Ok (processed mod yolo_frame_stride cfg)) /\
  (forall fs self path,
     1 <= frame_stride (config self) ->
     1 <= text_sample_stride (config self) ->
     1 <= yolo_frame_stride (config self) ->
     0 <= resize_width (config self) ->
     (extract_features fs self path).1 <> Raise ZeroDivisionError).
Proof.
  split; [repeat split | split; [ | split; [ | split]]].
  - intros base args s Hs. cbn [_merge frame_stride]. rewrite Hs. reflexivity.
  - intros V cfg name value. eexists. reflexivity.
  - intros cfg Hf Ht Hy index processed.
    repeat split; apply py_mod_Ok; split; (lia || reflexivity).
  - intros fs self path Hf Ht Hy Hw Hr.
    destruct (files fs !! path) as [[v|]|] eqn:Hfile.
    + apply (extract_features_Raise fs self path v _ Hfile) in Hr.
      apply while_true_Raise in Hr as [[flt Hr] | [_ Hz]];
        [discriminate | lia].
    + rewrite (extract_features_unreadable fs self path Hfile) in Hr.
      discriminate.
    + rewrite (extract_features_missing fs self path Hfile) in Hr.
      discriminate.
Qed.


(** C10.  The processed counter is 1 at the first accepted frame and the
    sub-sampled analyzers fire when it is a multiple of their stride, so
    the text detector has taken [processed / text_sample_stride] samples
    (the first one at the [text_sample_stride]-th accepted frame); with
    fewer accepted frames than [text_sample_stride] there is no text sample
    and the reported ratio is 0.0 whatever the frames show, and with fewer
    than [yolo_frame_stride] both detection counts are 0. *)
Theorem C10_late_first_sample fs self path r :
  (extract_features fs self path).1 = Ok r ->
  exists v st,
    files fs !! path = Some (VideoFile v) /\
    (while_true self (video_reads v) initial_locals).1 = Ok st /\
    frames_processed r = processed_frames st /\
    (1 <= text_sample_stride (config self) ->
     text_samples st =
       processed_frames st / text_sample_stride (config self)) /\
    (frames_processed r < text_sample_stride (config self) ->
     text_samples st = 0 /\ text_present_ratio r = f_zero) /\
    (frames_processed r < yolo_frame_stride (config self) ->
     people_detections r = 0 /\ object_detections r = 0) /\
    (forall i f st0 st1,
       sample_frame self i f st0 = Ok st1 ->
       processed_frames st1 = processed_frames st0 + 1 /\
       text_samples st1 =
         text_samples st0 +
         (if (processed_frames st0 + 1) mod text_sample_stride (config self)
             =? 0 then 1 else 0)).
Proof.
  intros Hr.
  apply extract_features_Ok_inv in Hr
    as (v & st & duration & total & Hv & Hrun & ->).
  exists v, st.
  pose proof (late_start_loop self _ _ Hrun) as (Hp & Htext & Hyolo).
  cbn [build_report frames_processed text_present_ratio people_detections
       object_detections].
  split; [exact Hv | split; [exact Hrun | split; [reflexivity | ]]].
  split; [ | split; [ | split]].
  - intros Hstride. apply (text_floor_loop self _ _ Hstride Hrun).
  - intros Hfew. destruct (Htext Hfew) as [Hts _].
    split; [exact Hts | ]. rewrite Hts. reflexivity.
  - intros Hfew. apply Hyolo, Hfew.
  - intros i f st0 st1 Hs.
    apply sample_frame_text in Hs as (Hp' & Hts & _).
    split; [exact Hp' | exact Hts].
Qed.


End Claims.


(** * Two runs on the same responses *)

Section Determinism.
Context `{PyFloat} (B1 B2 : Backend).
Variable Rf : @frame _ B1 -> @frame _ B2 -> Prop.
Variable Rh : @histogram _ B1 -> @histogram _ B2 -> Prop.
Variable Rg : @gray_image _ B1 -> @gray_image _ B2 -> Prop.
Variable Rd : @detector _ B1 -> @detector _ B2 -> Prop.
Hypothesis Hsame : same_responses B1 B2 Rf Rh Rg Rd.

Lemma call_alike {A1 A2} (R : A1 -> A2 -> Prop) r1 r2 :
  answers_alike R r1 r2 -> outcomes_alike R (call r1) (call r2).
Proof. intros [flt | a1 a2 Ha]; cbn [call]; constructor. exact Ha. Qed.

Lemma bind_alike {A1 A2 C1 C2} (R : A1 -> A2 -> Prop) (S : C1 -> C2 -> Prop)
    (m1 : result A1) (m2 : result A2) k1 k2 :
  outcomes_alike R m1 m2 ->
  (forall a1 a2, R a1 a2 -> outcomes_alike S (k1 a1) (k2 a2)) ->
  outcomes_alike S (m1 ≫= k1) (m2 ≫= k2).
Proof.
  intros [e | a1 a2 Ha] Hk; cbn [mbind result_bind]; [constructor | ].
  apply Hk, Ha.
Qed.

Lemma outcomes_alike_refl {A} (r : result A) : outcomes_alike eq r r.
Proof. destruct r; constructor. reflexivity. Qed.

Lemma outcomes_alike_eq {A} (r1 r2 : result A) :
  outcomes_alike eq r1 r2 -> r1 = r2.
Proof. intros [e | a1 a2 ->]; reflexivity. Qed.

Lemma resize_to_width_alike f1 f2 (target_w : Z) :
  Rf f1 f2 ->
  outcomes_alike Rf (_resize_to_width f1 target_w) (_resize_to_width f2 target_w).
Proof.
  intros Hf. unfold _resize_to_width.
  rewrite (shape_alike _ _ _ _ _ _ Hsame f1 f2 Hf).
  destruct (frame_shape f2) as [h w].
  destruct (w <=? target_w); [constructor; exact Hf | ].
  destruct (div_by_float_of target_w w) as [scale|e];
    cbn [mbind result_bind]; [ | constructor].
  apply call_alike, (resize_alike _ _ _ _ _ _ Hsame), Hf.
Qed.

Lemma contains_text_alike f1 f2 (min_chars : Z) :
  Rf f1 f2 -> _contains_text f1 min_chars = _contains_text f2 min_chars.
Proof.
  intros Hf. unfold _contains_text.
  rewrite (ocr_alike _ _ _ _ _ _ Hsame f1 f2 Hf). reflexivity.
Qed.

Lemma count_people_alike (self1 : @VideoFeatureExtractor _ B1)
    (self2 : @VideoFeatureExtractor _ B2) f1 f2 :
  Rd (self_detector self1) (self_detector self2) ->
  Rf f1 f2 ->
  _count_people_vs_objects self1 f1 = _count_people_vs_objects self2 f2.
Proof.
  intros Hd Hf. unfold _count_people_vs_objects.
  rewrite (detect_alike _ _ _ _ _ _ Hsame _ _ f1 f2 Hd Hf).
  destruct (detector_call (self_detector self2) f2) as [flt|res];
    [reflexivity | ].
  cbn [call mbind result_bind mret result_ret]. f_equal.
  unfold count_in_result.
  rewrite (names_alike _ _ _ _ _ _ Hsame _ _ Hd). reflexivity.
Qed.

Lemma initial_locals_alike :
  locals_alike B1 B2 Rh Rg initial_locals initial_locals.
Proof. constructor; try reflexivity; constructor. Qed.

Lemma sample_frame_alike (self1 : @VideoFeatureExtractor _ B1)
    (self2 : @VideoFeatureExtractor _ B2) (i : Z) f1 f2 st1 st2 :
  config self1 = config self2 ->
  Rd (self_detector self1) (self_detector self2) ->
  Rf f1 f2 ->
  locals_alike B1 B2 Rh Rg st1 st2 ->
  outcomes_alike (locals_alike B1 B2 Rh Rg)
    (sample_frame self1 i f1 st1) (sample_frame self2 i f2 st2).
Proof.
  intros Hcfg Hd Hf [Hi Hp Hc Hts Htp Hms Hsum Hpt Hot Hph Hpg].
  unfold sample_frame. cbv zeta.
  rewrite Hcfg, Hp, Hc, Hts, Htp, Hms, Hsum, Hpt, Hot.
  apply (bind_alike Rf); [apply resize_to_width_alike, Hf | ].
  intros small1 small2 Hsmall.
  apply (bind_alike Rh).
  { unfold _hsv_histogram. rewrite Hcfg.
    apply call_alike, (hist_alike _ _ _ _ _ _ Hsame), Hsmall. }
  intros h1 h2 Hh.
  apply (bind_alike eq).
  { destruct Hph as [ph1 ph2 Hph | ]; [ | apply outcomes_alike_refl].
    unfold _bhattacharyya.
    rewrite (compare_alike _ _ _ _ _ _ Hsame ph1 ph2 h1 h2 Hph Hh).
    apply outcomes_alike_refl. }
  intros cuts1 cuts2 <-.
  apply (bind_alike Rg).
  { apply call_alike, (gray_alike _ _ _ _ _ _ Hsame), Hsmall. }
  intros g1 g2 Hg.
  apply (bind_alike eq).
  { destruct Hpg as [pg1 pg2 Hpg | ]; [ | apply outcomes_alike_refl].
    unfold _avg_optical_flow_magnitude. rewrite Hcfg.
    rewrite (flow_alike _ _ _ _ _ _ Hsame _ pg1 pg2 g1 g2 Hpg Hg).
    apply outcomes_alike_refl. }
  intros motion1 motion2 <-.
  apply (bind_alike eq); [apply outcomes_alike_refl | ].
  intros text_due1 text_due2 <-.
  apply (bind_alike eq).
  { rewrite (contains_text_alike small1 small2 _ Hsmall).
    apply outcomes_alike_refl. }
  intros text1 text2 <-.
  apply (bind_alike eq); [apply outcomes_alike_refl | ].
  intros yolo_due1 yolo_due2 <-.
  apply (bind_alike eq).
  { rewrite (count_people_alike self1 self2 small1 small2 Hd Hsmall).
    apply outcomes_alike_refl. }
  intros counts1 counts2 <-.
  apply both_Ok. constructor; cbn; try reflexivity; constructor; assumption.
Qed.

Lemma loop_body_alike (self1 : @VideoFeatureExtractor _ B1)
    (self2 : @VideoFeatureExtractor _ B2) f1 f2 st1 st2 :
  config self1 = config self2 ->
  Rd (self_detector self1) (self_detector self2) ->
  Rf f1 f2 ->
  locals_alike B1 B2 Rh Rg st1 st2 ->
  outcomes_alike (locals_alike B1 B2 Rh Rg)
    (loop_body self1 f1 st1) (loop_body self2 f2 st2).
Proof.
  intros Hcfg Hd Hf Hst. unfold loop_body. cbv zeta.
  rewrite Hcfg, (index_alike _ _ _ _ _ _ Hst).
  apply (bind_alike eq); [apply outcomes_alike_refl | ].
  intros skip1 skip2 <-.
  destruct (negb (skip1 =? 0)); [ | apply sample_frame_alike; assumption].
  apply both_Ok. destruct Hst. constructor; cbn; assumption || reflexivity.
Qed.

Lemma while_true_alike (self1 : @VideoFeatureExtractor _ B1)
    (self2 : @VideoFeatureExtractor _ B2) reads1 reads2 st1 st2 :
  config self1 = config self2 ->
  Rd (self_detector self1) (self_detector self2) ->
  Forall2 (reads_alike B1 B2 Rf) reads1 reads2 ->
  locals_alike B1 B2 Rh Rg st1 st2 ->
  outcomes_alike (locals_alike B1 B2 Rh Rg)
    (while_true self1 reads1 st1).1 (while_true self2 reads2 st2).1.
Proof.
  intros Hcfg Hd Hreads. revert st1 st2.
  induction Hreads as [|r1 r2 rest1 rest2 Hr _ IH]; intros st1 st2 Hst.
  - apply both_Ok, Hst.
  - destruct Hr as [f1 f2 Hf | flt]; cbn [while_true]; [ | constructor].
    pose proof (loop_body_alike self1 self2 f1 f2 st1 st2 Hcfg Hd Hf Hst) as Hb.
    destruct (loop_body self1 f1 st1) as [st1'|e1],
             (loop_body self2 f2 st2) as [st2'|e2];
      inversion Hb; subst; [apply IH; assumption | constructor].
Qed.

Lemma build_report_alike (resolved : string) duration (total : Z) st1 st2 :
  locals_alike B1 B2 Rh Rg st1 st2 ->
  build_report resolved duration total st1 =
    build_report resolved duration total st2.
Proof.
  intros [Hi Hp Hc Hts Htp Hms Hsum Hpt Hot Hph Hpg].
  unfold build_report. cbv zeta.
  rewrite Hp, Hc, Hts, Htp, Hms, Hsum, Hpt, Hot. reflexivity.
Qed.

End Determinism.



(** * Witnesses on the synthetic backend *)

Lemma C1_witness :
  match (extract_features Synthetic.disk
           (Synthetic.extractor_of Synthetic.sparse_config) "clip.mp4").1 with
  | Ok r => frames_processed r = 4
  | Raise _ => False
  end.
Proof.
  assert (Hok : is_ok (extract_features Synthetic.disk
                  (Synthetic.extractor_of Synthetic.sparse_config)
                  "clip.mp4").1 = true) by (vm_compute; reflexivity).
  destruct (extract_features Synthetic.disk
              (Synthetic.extractor_of Synthetic.sparse_config) "clip.mp4").1
    as [r|e] eqn:E; [ | discriminate Hok].
  assert (Hs : 1 <= frame_stride
                      (config (Synthetic.extractor_of Synthetic.sparse_config)))
    by (vm_compute; discriminate).
  destruct (C1_stride_sampling Synthetic.disk
              (Synthetic.extractor_of Synthetic.sparse_config) "clip.mp4"
              Synthetic.clip Synthetic.clip_frames r Hs eq_refl eq_refl E)
    as (_ & _ & _ & Hc & _).
  rewrite Hc. vm_compute. reflexivity.
Defined.


Lemma C3_witness :
  exists cap,
    (extract_features Synthetic.disk
       (Synthetic.extractor_of Synthetic.dense_config) "damaged.mp4").2
      = Some cap /\
    isOpened cap = false /\ release_calls cap = 1%nat.
Proof.
  exact (proj1 (proj2
    (C3_handle_released Synthetic.disk
       (Synthetic.extractor_of Synthetic.dense_config) "damaged.mp4"
       Synthetic.damaged_clip eq_refl))).
Defined.

(** The claim C4 as it is written fails on a container that opens and
    yields no frame: no cut and no processed frame, and 0 <= 0 - 1 is
    false. *)
Lemma C4_counterexample :
  exists r,
    (extract_features Synthetic.disk
       (Synthetic.extractor_of Synthetic.dense_config) "empty.mp4").1 = Ok r /\
    ~ (report_hard_cuts r <= frames_processed r - 1).
Proof.
  assert (Hcuts :
    report_hard_cuts <$>
      (extract_features Synthetic.disk
         (Synthetic.extractor_of Synthetic.dense_config) "empty.mp4").1 = Ok 0)
    by (vm_compute; reflexivity).
  assert (Hframes :
    frames_processed <$>
      (extract_features Synthetic.disk
         (Synthetic.extractor_of Synthetic.dense_config) "empty.mp4").1 = Ok 0)
    by (vm_compute; reflexivity).
  destruct (extract_features Synthetic.disk
              (Synthetic.extractor_of Synthetic.dense_config) "empty.mp4").1
    as [r|e]; [ | discriminate Hcuts].
  exists r. split; [reflexivity | ].
  injection Hcuts as ->. injection Hframes as ->. lia.
Qed.

Lemma C4_witness :
  match (extract_features Synthetic.disk
           (Synthetic.extractor_of Synthetic.dense_config) "clip.mp4").1 with
  | Ok r => report_hard_cuts r <= frames_processed r - 1
  | Raise _ => False
  end.
Proof.
  assert (Hframes :
    frames_processed <$>
      (extract_features Synthetic.disk
         (Synthetic.extractor_of Synthetic.dense_config) "clip.mp4").1 = Ok 7)
    by (vm_compute; reflexivity).
  destruct (extract_features Synthetic.disk
              (Synthetic.extractor_of Synthetic.dense_config) "clip.mp4").1
    as [r|e] eqn:E; [ | discriminate Hframes].
  injection Hframes as Hframes.
  destruct (C4_cuts_bound Synthetic.disk
              (Synthetic.extractor_of Synthetic.dense_config) "clip.mp4" r E)
    as (_ & _ & _ & Hc & _).
  apply Hc. rewrite Hframes. lia.
Defined.

Lemma C5_witness :
  match (extract_features Synthetic.disk
           (Synthetic.extractor_of Synthetic.dense_config) "clip.mp4").1 with
  | Ok r => is_Some (person_to_object_ratio r)
  | Raise _ => False
  end.
Proof.
  assert (Hobjects :
    object_detections <$>
      (extract_features Synthetic.disk
         (Synthetic.extractor_of Synthetic.dense_config) "clip.mp4").1 = Ok 3)
    by (vm_compute; reflexivity).
  destruct (extract_features Synthetic.disk
              (Synthetic.extractor_of Synthetic.dense_config) "clip.mp4").1
    as [r|e] eqn:E; [ | discriminate Hobjects].
  injection Hobjects as Hobjects.
  destruct (C5_ratio_optional Synthetic.disk
              (Synthetic.extractor_of Synthetic.dense_config) "clip.mp4" r E)
    as (_ & Hc & _).
  apply Hc. rewrite Hobjects. lia.
Defined.

Lemma C6_witness :
  match (extract_features Synthetic.disk
           (Synthetic.extractor_of Synthetic.sparse_config) "clip.mp4").1 with
  | Ok r =>
      avg_motion_magnitude r =
        f_div (running_sum f_zero
                 [Synthetic.float_of_Z 0; Synthetic.float_of_Z 80;
                  Synthetic.float_of_Z 5])
          (f_of_int 3)
  | Raise _ => False
  end.
Proof.
  assert (Hok : is_ok (extract_features Synthetic.disk
                  (Synthetic.extractor_of Synthetic.sparse_config)
                  "clip.mp4").1 = true) by (vm_compute; reflexivity).
  assert (Hg : grays_of (Synthetic.extractor_of Synthetic.sparse_config)
                 (accepted_frames
                    (frame_stride
                       (config (Synthetic.extractor_of Synthetic.sparse_config)))
                    Synthetic.clip_frames) = Ok [10; 10; 90; 95])
    by (vm_compute; reflexivity).
  assert (Hf : flow_samples (Synthetic.extractor_of Synthetic.sparse_config)
                 None [10; 10; 90; 95] =
               Ok [Synthetic.float_of_Z 0; Synthetic.float_of_Z 80;
                   Synthetic.float_of_Z 5])
    by (vm_compute; reflexivity).
  destruct (extract_features Synthetic.disk
              (Synthetic.extractor_of Synthetic.sparse_config) "clip.mp4").1
    as [r|e] eqn:E; [ | discriminate Hok].
  destruct (C6_motion_average Synthetic.disk
              (Synthetic.extractor_of Synthetic.sparse_config) "clip.mp4"
              Synthetic.clip Synthetic.clip_frames r eq_refl eq_refl E)
    as (grays & samples & Hgrays & Hflow & _ & _ & _ & _ & Havg & _).
  rewrite Hg in Hgrays. injection Hgrays as <-.
  rewrite Hf in Hflow. injection Hflow as <-.
  exact Havg.
Defined.

Lemma C7_witness :
  _count_people_vs_objects (Synthetic.extractor_of Synthetic.dense_config)
    (Synthetic.captioned 90 [0; 7; 0; 2]) = Ok (2, 2).
Proof.
  pose (res := {| names := NoAttr;
                  boxes := Attr (Some {| cls := Some [0; 7; 0; 2] |}) |}).
  destruct (C7_person_object_split
              (Synthetic.extractor_of Synthetic.dense_config)
              (Synthetic.captioned 90 [0; 7; 0; 2]) res)
    as (_ & _ & Hsplit & _ & Hcall).
  rewrite (Hcall eq_refl).
  rewrite (proj1 (Hsplit [0; 7; 0; 2] eq_refl)).
  vm_compute. reflexivity.
Defined.


(** The claim C9 as it is written fails: [--frame-stride 0] builds a
    configuration with a zero stride, and the extraction of a video that
    has a frame then raises [ZeroDivisionError]. *)
Lemma C9_counterexample :
  ~ (forall cfg : @FeatureExtractionConfig Synthetic.binary64,
       1 <= frame_stride cfg /\ 1 <= text_sample_stride cfg /\
       1 <= yolo_frame_stride cfg) /\
  frame_stride (_merge default_config Synthetic.zero_stride_args) = 0 /\
  (extract_features Synthetic.disk
     (Synthetic.extractor_of (_merge default_config Synthetic.zero_stride_args))
     "clip.mp4").1 = Raise ZeroDivisionError.
Proof.
  split; [ | split; reflexivity].
  intros Hall.
  destruct (Hall (_merge default_config Synthetic.zero_stride_args))
    as [Hstride _].
  vm_compute in Hstride. apply Hstride. reflexivity.
Qed.

Lemma C9_witness :
  (extract_features Synthetic.disk
     (Synthetic.extractor_of Synthetic.sparse_config) "truncated.mp4").1
    <> Raise ZeroDivisionError /\
  py_mod 7 (frame_stride Synthetic.sparse_config) = Ok 1 /\
  frame_stride (_merge Synthetic.sparse_config Synthetic.zero_stride_args) = 0.
Proof.
  destruct (@C9_config_strides Synthetic.binary64 Synthetic.synth)
    as (_ & Hmerge & _ & Hmod & Hrun).
  split; [ | split].
  - apply Hrun; vm_compute; discriminate.
  - refine (proj1 (Hmod Synthetic.sparse_config _ _ _ 7 0));
      vm_compute; discriminate.
  - apply Hmerge. reflexivity.
Defined.

Lemma C10_witness :
  match (extract_features Synthetic.disk
           (Synthetic.extractor_of default_config) "clip.mp4").1 with
  | Ok r =>
      text_present_ratio r = f_zero /\
      people_detections r = 0 /\ object_detections r = 0
  | Raise _ => False
  end.
Proof.
  assert (Hframes :
    frames_processed <$>
      (extract_features Synthetic.disk
         (Synthetic.extractor_of default_config) "clip.mp4").1 = Ok 2)
    by (vm_compute; reflexivity).
  destruct (extract_features Synthetic.disk
              (Synthetic.extractor_of default_config) "clip.mp4").1
    as [r|e] eqn:E; [ | discriminate Hframes].
  injection Hframes as Hframes.
  destruct (C10_late_first_sample Synthetic.disk
              (Synthetic.extractor_of default_config) "clip.mp4" r E)
    as (v & st & _ & _ & _ & _ & Htext & Hyolo & _).
  split.
  - apply Htext. rewrite Hframes. vm_compute. reflexivity.
  - apply Hyolo. rewrite Hframes. vm_compute. reflexivity.
Defined.

(** * Further properties of the extractor and of the endpoint *)

Section ExtractorExtras.
Context `{Backend}.
Implicit Types (self : VideoFeatureExtractor) (st : Locals) (fs : FileSystem).

Lemma text_bounded_loop self reads st' :
  (while_true self reads initial_locals).1 = Ok st' ->
  0 <= text_positives st' <= text_samples st'.
Proof.
  apply (while_true_invariant
           (fun st => 0 <= text_positives st <= text_samples st) self).
  - intros i st HP. exact HP.
  - intros i f st st1 HP Hs.
    apply sample_frame_Ok in Hs
      as (small & ch & cg & _ & _ & _ & _ & _ & _ & _ & _ & _ & _ & Htx & _).
    destruct (_ =? 0) in Htx.
    + destruct Htx as (found & _ & -> & ->). destruct found; lia.
    + destruct Htx as [-> ->]. exact HP.
  - simpl. lia.
Qed.

(** The text ratio of a report is the quotient of the two text counters the
    loop ends with, [text_positives] never more than [text_samples], and
    0.0 when no frame was sampled for text. *)
Theorem text_ratio_from_counts fs self path r :
  (extract_features fs self path).1 = Ok r ->
  exists v st,
    files fs !! path = Some (VideoFile v) /\
    (while_true self (video_reads v) initial_locals).1 = Ok st /\
    0 <= text_positives st <= text_samples st /\
    text_present_ratio r =
      if text_samples st =? 0 then f_zero
      else int_truediv (text_positives st) (text_samples st).
Proof.
  intros Hr.
  apply extract_features_Ok_inv in Hr
    as (v & st & duration & total & Hv & Hrun & ->).
  exists v, st.
  split; [exact Hv | split; [exact Hrun | ]].
  split; [apply (text_bounded_loop self _ _ Hrun) | reflexivity].
Qed.

(** Frames that the stride skips have no say: two files with the same
    metadata whose accepted frames are the same, at the same indices, get
    reports that differ in the path at most, or the same exception. *)
Theorem skipped_frames_ignored fs self path1 path2 v1 v2 frames1 frames2 :
  frame_stride (config self) <> 0 ->
  files fs !! path1 = Some (VideoFile v1) ->
  files fs !! path2 = Some (VideoFile v2) ->
  video_reads v1 = map Grabbed frames1 ->
  video_reads v2 = map Grabbed frames2 ->
  video_fps v1 = video_fps v2 ->
  video_frame_count v1 = video_frame_count v2 ->
  accepted_frames (frame_stride (config self)) frames1 =
    accepted_frames (frame_stride (config self)) frames2 ->
  measurements <$> (extract_features fs self path1).1 =
    measurements <$> (extract_features fs self path2).1.
Proof.
  intros Hs Hv1 Hv2 Hr1 Hr2 Hfps Hcount Hacc.
  rewrite (extract_features_report fs self path1 v1 Hv1).
  rewrite (extract_features_report fs self path2 v2 Hv2).
  rewrite Hr1, Hr2, Hfps, Hcount.
  rewrite !while_true_samples by exact Hs.
  cbn [initial_locals absolute_frame_index]. change (-1 + 1) with 0.
  unfold accepted_frames in Hacc. rewrite Hacc.
  destruct (sample_all self _ initial_locals) as [st|e]; reflexivity.
Qed.

(** A read that fails ends the run: whatever the stream holds after it,
    the outcome is the exception of the frames before it, if one of them
    raised, and the decoder's fault otherwise; there is no report. *)
Theorem decode_fault_ends_run fs self path v pre flt rest :
  files fs !! path = Some (VideoFile v) ->
  video_reads v = pre ++ DecodeError flt :: rest ->
  (extract_features fs self path).1 =
    match (while_true self pre initial_locals).1 with
    | Ok _ => Raise (BackendError flt)
    | Raise e => Raise e
    end.
Proof.
  intros Hv Hreads.
  rewrite (extract_features_report fs self path v Hv), Hreads, while_true_app.
  destruct (while_true self pre initial_locals) as [[st|e] left]; reflexivity.
Qed.

(** [_resize_to_width] never enlarges: a frame no wider than the target is
    returned as it is, and a frame that is resized gets exactly the target
    width.  It raises [ZeroDivisionError] only for a frame of width 0 with
    a negative target. *)
Theorem resize_to_width_cases (f : frame) (target_w : Z) :
  ((frame_shape f).2 <= target_w -> _resize_to_width f target_w = Ok f) /\
  (_resize_to_width f target_w = Raise ZeroDivisionError <->
   (frame_shape f).2 = 0 /\ target_w < 0) /\
  (forall g,
     _resize_to_width f target_w = Ok g ->
     ((frame_shape f).2 <= target_w /\ g = f) \/
     (target_w < (frame_shape f).2 /\
      exists height, cv2_resize f (target_w, height) = inr g)).
Proof.
  unfold _resize_to_width, div_by_float_of.
  destruct (frame_shape f) as [h w]. cbn [snd].
  destruct (Z.leb_spec w target_w) as [Hle|Hlt].
  - split; [reflexivity | split].
    + split; [discriminate | lia].
    + intros g Hg. injection Hg as <-. left. split; [exact Hle | reflexivity].
  - split; [lia | ].
    destruct (Z.eqb_spec w 0) as [-> | Hw]; cbn [mbind result_bind].
    + split; [split; [intros _; split; [reflexivity | exact Hlt]
                     | reflexivity] | discriminate].
    + split.
      * split; [ | lia]. intros Hr. apply call_Raise in Hr as [flt Hr].
        discriminate.
      * intros g Hg. right. split; [exact Hlt | ].
        destruct (cv2_resize f _) as [flt|g'] eqn:E; [discriminate | ].
        injection Hg as <-. eexists. exact E.
Qed.

End ExtractorExtras.

(** ** Stripping *)

Lemma only_spaces_app (s1 s2 : pystr) :
  only_spaces (s1 ++ s2) = only_spaces s1 && only_spaces s2.
Proof. apply forallb_app. Qed.

Lemma only_spaces_rev (s : pystr) : only_spaces (rev s) = only_spaces s.
Proof.
  induction s as [|c s IH]; [reflexivity | ].
  cbn [rev]. rewrite only_spaces_app, IH.
  unfold only_spaces. cbn [forallb]. rewrite andb_true_r. apply andb_comm.
Qed.

Lemma lstrip_spaces (ws s : pystr) :
  only_spaces ws = true -> py_lstrip (ws ++ s) = py_lstrip s.
Proof.
  induction ws as [|c ws IH]; [reflexivity | ].
  unfold only_spaces. cbn [forallb]. intros Hws.
  apply andb_true_iff in Hws as [Hc Hws].
  cbn [app py_lstrip]. rewrite Hc. apply IH, Hws.
Qed.

Lemma lstrip_clean (s : pystr) : no_leading_space s = true -> py_lstrip s = s.
Proof.
  destruct s as [|c s]; cbn [no_leading_space py_lstrip]; [reflexivity | ].
  intros Hc. apply negb_true_iff in Hc. rewrite Hc. reflexivity.
Qed.

Lemma lstrip_only_spaces (s : pystr) : only_spaces s = true -> py_lstrip s = [].
Proof.
  intros Hs. rewrite <- (app_nil_r s).
  rewrite lstrip_spaces by exact Hs. reflexivity.
Qed.

(** [strip] takes the whitespace off both ends and nothing else: around a
    core that neither begins nor ends with whitespace, any whitespace
    before and after goes and the core stays, inner whitespace included. *)
Theorem py_strip_spec (before core after : pystr) :
  only_spaces before = true ->
  only_spaces after = true ->
  no_leading_space core = true ->
  no_leading_space (rev core) = true ->
  py_strip (before ++ core ++ after) = core.
Proof.
  intros Hb Ha Hfirst Hlast. unfold py_strip.
  rewrite lstrip_spaces by exact Hb.
  destruct core as [|c core].
  - cbn [app]. rewrite (lstrip_only_spaces after Ha). reflexivity.
  - rewrite (lstrip_clean ((c :: core) ++ after) Hfirst).
    rewrite rev_app_distr.
    rewrite lstrip_spaces by (rewrite only_spaces_rev; exact Ha).
    rewrite (lstrip_clean _ Hlast). apply rev_involutive.
Qed.

Lemma py_strip_only_spaces (s : pystr) : only_spaces s = true -> py_strip s = [].
Proof.
  intros Hs. unfold py_strip. rewrite (lstrip_only_spaces s Hs). reflexivity.
Qed.

Lemma only_spaces_join (frags : list pystr) :
  Forall (fun s => only_spaces s = true) frags ->
  only_spaces (py_join_empty frags) = true.
Proof.
  induction 1 as [|s frags Hs _ IH]; [reflexivity | ].
  unfold py_join_empty in *. cbn [concat].
  rewrite only_spaces_app, Hs, IH. reflexivity.
Qed.

Section TextExtras.
Context `{Backend}.

(** [_contains_text] raises what the OCR raises and otherwise compares the
    stripped length with [min_chars]: it is true whenever [min_chars] is 0
    or less, and OCR output made of whitespace only, of any kind that
    [str.isspace] knows, counts as no text. *)
Theorem contains_text_edges (f : frame) (min_chars : Z) :
  (forall flt,
     ocr_fragments f = inl flt ->
     _contains_text f min_chars = Raise (BackendError flt)) /\
  (forall frags,
     ocr_fragments f = inr frags ->
     exists found,
       _contains_text f min_chars = Ok found /\
       (min_chars <= 0 -> found = true) /\
       (Forall (fun s => only_spaces s = true) frags ->
        found = (min_chars <=? 0))).
Proof.
  unfold _contains_text. split.
  - intros flt ->. reflexivity.
  - intros frags ->. cbn [call mbind result_bind mret result_ret].
    eexists. split; [reflexivity | split].
    + intros Hmin. apply Z.leb_le. unfold py_len. lia.
    + intros Hblank.
      rewrite py_strip_only_spaces by (apply only_spaces_join, Hblank).
      reflexivity.
Qed.

End TextExtras.

(** * Properties of the configuration and of the settings *)

Section ConfigExtras.
Context `{PyFloat}.

(** Without any flag [_merge] gives the base configuration back. *)
Theorem merge_no_override (base : FeatureExtractionConfig) :
  _merge base no_override = base.
Proof. destruct base. reflexivity. Qed.

(** Merging two command lines one after the other is merging their
    overlay, the later flags winning; merging the same flags twice changes
    nothing more; and no flag reaches the optical-flow and histogram
    parameters. *)
Theorem merge_composition (base : FeatureExtractionConfig) (a b : Namespace) :
  _merge (_merge base a) b = _merge base (overlay b a) /\
  _merge (_merge base a) a = _merge base a /\
  farneback (_merge base a) = farneback base /\
  hist (_merge base a) = hist base.
Proof.
  destruct a as [a1 a2 a3 a4 a5 a6 a7], b as [b1 b2 b3 b4 b5 b6 b7].
  unfold _merge, overlay. cbn. repeat split.
  - destruct b1, b2, b3, b4, b5, b6, b7; reflexivity.
  - destruct a1, a2, a3, a4, a5, a6, a7; reflexivity.
Qed.

(** The command line without flags and the endpoint build the same
    configuration from the same settings. *)
Theorem cli_and_endpoint_agree (e : ExtractorSettings) :
  _merge (_env_cfg e) no_override = _build_feature_config e.
Proof. reflexivity. Qed.

End ConfigExtras.

Lemma append_cons (c : ascii) (s t : string) :
  (String c s +:+ t)%string = String c (s +:+ t).
Proof. reflexivity. Qed.

Lemma split_commas_nonempty (s : string) : split_commas s <> [].
Proof.
  destruct s as [|c rest]; simpl; [discriminate | ].
  destruct (Ascii.eqb c ","); [discriminate | ].
  destruct (split_commas rest); discriminate.
Qed.

Lemma join_cons_cons (sep x y : string) (l : list string) :
  py_join sep (x :: y :: l) = (x +:+ sep +:+ py_join sep (y :: l))%string.
Proof. reflexivity. Qed.

(** Splitting on commas loses nothing. *)
Lemma join_split_commas (s : string) : py_join "," (split_commas s) = s.
Proof.
  induction s as [|c rest IH]; [reflexivity | ].
  cbn [split_commas]. destruct (Ascii.eqb_spec c ",") as [-> | Hc].
  - pose proof (split_commas_nonempty rest) as Hne.
    destruct (split_commas rest) as [|y l]; [contradiction | ].
    rewrite join_cons_cons, IH. reflexivity.
  - pose proof (split_commas_nonempty rest) as Hne.
    destruct (split_commas rest) as [|y l]; [contradiction | ].
    destruct l as [|z l].
    + change (py_join "," [y]) with y in IH.
      change (py_join "," [String c y]) with (String c y). rewrite IH.
      reflexivity.
    + rewrite join_cons_cons in IH. rewrite join_cons_cons.
      rewrite append_cons, IH. reflexivity.
Qed.

Section SettingsExtras.
Context `{Builtins}.

Lemma get_unset (env : Environ) (name d : string) :
  env !! name = None \/ env !! name = Some EmptyString -> _get env name d = d.
Proof. unfold _get. intros [-> | ->]; reflexivity. Qed.

Lemma get_set (env : Environ) (name d v : string) :
  env !! name = Some v -> v <> EmptyString -> _get env name d = v.
Proof.
  unfold _get. intros -> Hv.
  destruct (String.eqb_spec v ""); [contradiction | reflexivity].
Qed.

(** [_get_int] never fails: a variable that is unset or empty gives the
    default, a value [int] rejects gives the default too, and any other
    value gives its integer, zero and negative numbers included. *)
Theorem get_int_fallback (env : Environ) (name : string) (d : Z) :
  py_int (py_str d) = Some d ->
  (env !! name = None \/ env !! name = Some EmptyString ->
   _get_int env name d = d) /\
  (forall v, env !! name = Some v -> v <> EmptyString ->
     py_int v = None -> _get_int env name d = d) /\
  (forall v n, env !! name = Some v -> v <> EmptyString ->
     py_int v = Some n -> _get_int env name d = n).
Proof.
  intros Hround. unfold _get_int. split; [ | split].
  - intros Hunset. rewrite (get_unset env name _ Hunset), Hround. reflexivity.
  - intros v Hv Hne Hbad. rewrite (get_set env name _ v Hv Hne), Hbad.
    reflexivity.
  - intros v n Hv Hne Hgood. rewrite (get_set env name _ v Hv Hne), Hgood.
    reflexivity.
Qed.

Lemma ints_of_items_Some (raw : list string) (ns : list Z) :
  ints_of_items raw = Some ns <->
  Forall2 (fun x n => py_int x = Some n)
    (filter (fun x => x <> EmptyString) (map str_strip raw)) ns.
Proof.
  revert ns. induction raw as [|x rest IH]; intros ns.
  - simpl. split.
    + intros Hs. injection Hs as <-. constructor.
    + intros Hf. inversion Hf. reflexivity.
  - cbn [ints_of_items map]. rewrite filter_cons.
    destruct (String.eqb_spec (str_strip x) "") as [E|E].
    + rewrite decide_False by (intros Hn; apply Hn, E). apply IH.
    + rewrite decide_True by exact E.
      destruct (py_int (str_strip x)) as [n|] eqn:Hn.
      * destruct (ints_of_items rest) as [ns'|] eqn:Hrest; split.
        -- intros Hs. injection Hs as <-. constructor; [exact Hn | ].
           apply IH. reflexivity.
        -- intros Hf. inversion Hf as [|? n' ? ns'' Hx Htail]; subst.
           apply IH in Htail. rewrite Hn in Hx. congruence.
        -- discriminate.
        -- intros Hf. inversion Hf as [|? n' ? ns'' Hx Htail]; subst.
           apply IH in Htail. discriminate.
      * split; [discriminate | ].
        intros Hf. inversion Hf as [|? n' ? ns'' Hx Htail]; subst.
        rewrite Hn in Hx. discriminate.
Qed.

Lemma ints_of_items_None (raw : list string) :
  (exists x, x ∈ filter (fun x => x <> EmptyString) (map str_strip raw) /\
             py_int x = None) ->
  ints_of_items raw = None.
Proof.
  intros (x & Hin & Hbad).
  destruct (ints_of_items raw) as [ns|] eqn:Hs; [ | reflexivity].
  apply ints_of_items_Some in Hs.
  apply list_elem_of_lookup in Hin as [i Hi].
  destruct (Forall2_lookup_l _ _ _ _ _ Hs Hi) as (n & _ & Hn).
  congruence.
Qed.

(** [_get_tuple_ints] is all or nothing: blank items are skipped, the other
    items are stripped and converted; if they all convert and there is at
    least one, they are the result, and if one of them does not, or none
    is left, the result is the whole default.  With a default that is not
    empty the result is never empty. *)
Theorem get_tuple_ints_all_or_nothing (env : Environ) (name : string)
    (d : list Z) :
  let items :=
    filter (fun x => x <> EmptyString)
      (map str_strip
         (split_commas (_get env name (py_join "," (map py_str d))))) in
  (forall ns,
     Forall2 (fun x n => py_int x = Some n) items ns -> ns <> [] ->
     _get_tuple_ints env name d = ns) /\
  ((exists x, x ∈ items /\ py_int x = None) -> _get_tuple_ints env name d = d) /\
  (items = [] -> _get_tuple_ints env name d = d) /\
  (d <> [] -> _get_tuple_ints env name d <> []).
Proof.
  cbv zeta. unfold _get_tuple_ints.
  set (raw := split_commas (_get env name (py_join "," (map py_str d)))).
  split; [ | split; [ | split]].
  - intros ns Hall Hne. apply ints_of_items_Some in Hall. rewrite Hall.
    destruct ns; [contradiction | reflexivity].
  - intros Hbad. rewrite (ints_of_items_None raw Hbad). reflexivity.
  - intros Hnone.
    assert (ints_of_items raw = Some []) as ->.
    { apply ints_of_items_Some. rewrite Hnone. constructor. }
    reflexivity.
  - intros Hd. destruct (ints_of_items raw) as [[|n ns]|];
      [exact Hd | discriminate | exact Hd].
Qed.

(** The slice after [HISTOGRAM_BINS] truncates and never pads: when the
    variable holds [k] numbers, the loaded tuple has [min 3 k] of them, so
    fewer than three when fewer were given. *)
Theorem histogram_bins_not_padded (env : Environ) (ns : list Z) :
  Forall2 (fun x n => py_int x = Some n)
    (filter (fun x => x <> EmptyString)
       (map str_strip
          (split_commas
             (_get env "HISTOGRAM_BINS" (py_join "," (map py_str [8; 8; 8]))))))
    ns ->
  ns <> [] ->
  load_histogram_bins env = take 3 ns /\
  length (load_histogram_bins env) = Nat.min 3 (length ns).
Proof.
  intros Hall Hne. unfold load_histogram_bins, _get_tuple_ints.
  apply ints_of_items_Some in Hall. rewrite Hall.
  destruct ns as [|n ns]; [contradiction | ].
  split; [reflexivity | apply length_take].
Qed.

Lemma dotted_startswith (ext : string) : startswith (dotted ext) "." = true.
Proof.
  unfold dotted. destruct (startswith ext ".") eqn:E; [exact E | ].
  unfold startswith. simpl. destruct (ascii_dec "." "."); [ | contradiction].
  destruct ext; reflexivity.
Qed.

(** Every extension [AppSettings.load] keeps starts with a dot, there is
    at least one, one for each item of the variable, and an item that has
    its dot is kept as it is, so that a list of dotted items joins back to
    the value of the variable. *)
Theorem loaded_extensions_dotted (env : Environ) :
  let raw := _get env "ALLOWED_EXTENSIONS" ".mp4,.mov,.mkv,.avi,.webm" in
  let exts := allowed_extensions (AppSettings_load env) in
  exts <> [] /\
  length exts = length (split_commas raw) /\
  Forall (fun e => startswith e "." = true) exts /\
  (Forall (fun e => startswith e "." = true) (split_commas raw) ->
   py_join "," exts = raw).
Proof.
  cbv zeta. cbn [AppSettings_load allowed_extensions].
  set (raw := _get env "ALLOWED_EXTENSIONS" ".mp4,.mov,.mkv,.avi,.webm").
  split; [ | split; [ | split]].
  - pose proof (split_commas_nonempty raw) as Hne.
    destruct (split_commas raw); [contradiction | discriminate].
  - apply length_map.
  - apply Forall_forall. intros e He. apply list_elem_of_In in He.
    apply in_map_iff in He as (x & <- & _).
    apply dotted_startswith.
  - intros Hdots.
    assert (map dotted (split_commas raw) = split_commas raw) as ->.
    { induction Hdots as [|x l Hx _ IH]; [reflexivity | ].
      cbn [map]. rewrite IH. unfold dotted. rewrite Hx. reflexivity. }
    apply join_split_commas.
Qed.

End SettingsExtras.

(** * Properties of the upload layer *)

Section UploadExtras.
Context `{Builtins}.
Implicit Types (app_cfg : AppSettings) (root : gmap string entry).

Lemma dir_size_step (j1 j2 : string) (z1 z2 : entry) (y : Z) :
  y + entry_size z2 + entry_size z1 = y + entry_size z1 + entry_size z2.
Proof. lia. Qed.

Lemma dir_size_insert_fresh root (p : string) (e : entry) :
  root !! p = None ->
  _dir_size_bytes (<[p := e]> root) = _dir_size_bytes root + entry_size e.
Proof.
  intros Hp. unfold _dir_size_bytes.
  rewrite map_fold_insert_L; [reflexivity | | exact Hp].
  intros j1 j2 z1 z2 y _ _ _. apply dir_size_step; assumption.
Qed.

Lemma entry_size_nonneg (e : entry) : 0 <= entry_size e.
Proof. destruct e; simpl; lia. Qed.

Lemma dir_size_nonneg root : 0 <= _dir_size_bytes root.
Proof.
  induction root as [|p e root Hp IH] using map_ind.
  - unfold _dir_size_bytes. rewrite map_fold_empty. lia.
  - rewrite dir_size_insert_fresh by exact Hp.
    pose proof (entry_size_nonneg e). lia.
Qed.

(** [_dir_size_bytes] adds up the regular files only: a new regular file
    adds its length, a directory or an entry that cannot be read adds
    nothing, removing an entry takes its size off again, and the total is
    never negative. *)
Theorem dir_size_accounting root (p : string) :
  0 <= _dir_size_bytes root /\
  _dir_size_bytes ∅ = 0 /\
  (root !! p = None ->
   (forall content,
      _dir_size_bytes (<[p := RegularFile content]> root) =
        _dir_size_bytes root + Z.of_nat (length content)) /\
   _dir_size_bytes (<[p := Directory]> root) = _dir_size_bytes root /\
   _dir_size_bytes (<[p := Inaccessible]> root) = _dir_size_bytes root) /\
  (forall e,
     root !! p = Some e ->
     _dir_size_bytes (delete p root) = _dir_size_bytes root - entry_size e).
Proof.
  split; [apply dir_size_nonneg | split; [ | split]].
  - unfold _dir_size_bytes. apply map_fold_empty.
  - intros Hp. repeat split; intros; rewrite dir_size_insert_fresh by exact Hp;
      simpl; lia.
  - intros e He.
    rewrite <- (insert_delete_id root p e He) at 2.
    rewrite dir_size_insert_fresh by apply lookup_delete_eq. lia.
Qed.

(** [_Quota.check] passes exactly when the three limits hold, and reports
    the first one that does not, in the order upload size (413), volume
    quota (429), free space (507). *)
Theorem quota_check_order app_cfg (free : Z) (q : _Quota) (n : Z) :
  (Quota_check app_cfg free q n = inr tt <->
   written q + n <= max_upload_bytes app_cfg /\
   start q + written q + n <= volume_quota_bytes app_cfg /\
   volume_min_free_bytes app_cfg <= free - n) /\
  (forall e,
     Quota_check app_cfg free q n = inl e ->
     (status_code e = 413 /\ max_upload_bytes app_cfg < written q + n) \/
     (status_code e = 429 /\ written q + n <= max_upload_bytes app_cfg /\
      volume_quota_bytes app_cfg < start q + written q + n) \/
     (status_code e = 507 /\ written q + n <= max_upload_bytes app_cfg /\
      start q + written q + n <= volume_quota_bytes app_cfg /\
      free - n < volume_min_free_bytes app_cfg)).
Proof.
  unfold Quota_check.
  destruct (Z.ltb_spec (max_upload_bytes app_cfg) (written q + n)) as [H1|H1].
  { split; [split; [discriminate | lia] | ].
    intros e He. injection He as <-. left. split; [reflexivity | exact H1]. }
  destruct (Z.ltb_spec (volume_quota_bytes app_cfg)
              (start q + written q + n)) as [H2|H2].
  { split; [split; [discriminate | lia] | ].
    intros e He. injection He as <-. right. left. repeat split; assumption. }
  destruct (Z.ltb_spec (free - n) (volume_min_free_bytes app_cfg)) as [H3|H3].
  { split; [split; [discriminate | lia] | ].
    intros e He. injection He as <-. right. right. repeat split; assumption. }
  split; [split; [intros _; repeat split; assumption | reflexivity] | ].
  discriminate.
Qed.

Lemma quota_check_passed app_cfg (free : Z) (q : _Quota) (n : Z) (u : unit) :
  Quota_check app_cfg free q n = inr u ->
  written q + n <= max_upload_bytes app_cfg /\
  start q + written q + n <= volume_quota_bytes app_cfg.
Proof.
  unfold Quota_check.
  destruct (Z.ltb_spec (max_upload_bytes app_cfg) (written q + n));
    [discriminate | ].
  destruct (Z.ltb_spec (volume_quota_bytes app_cfg) (start q + written q + n));
    [discriminate | ].
  intros _. split; assumption.
Qed.

Lemma quota_check_failed app_cfg (free : Z) (q : _Quota) (n : Z)
    (e : http_exception) :
  Quota_check app_cfg free q n = inl e ->
  status_code e = 413 \/ status_code e = 429 \/ status_code e = 507.
Proof.
  unfold Quota_check.
  destruct (_ <? _); [intros He; injection He as <-; left; reflexivity | ].
  destruct (_ <? _);
    [intros He; injection He as <-; right; left; reflexivity | ].
  destruct (_ <? _); [ | discriminate].
  intros He. injection He as <-. right. right. reflexivity.
Qed.

(** What one [read] gives: the chunk and the rest make up what was unread,
    the chunk is empty only at the end of the body or for a size of 0, and
    a chunk that is not empty shortens what is left. *)
Lemma upload_read_spec (size : Z) (unread : list Byte.byte) :
  (upload_read size unread).1 ++ (upload_read size unread).2 = unread /\
  (size = 0 -> (upload_read size unread).1 = []) /\
  (size <> 0 -> (upload_read size unread).1 = [] -> unread = []) /\
  ((upload_read size unread).1 <> [] ->
   (length (upload_read size unread).2 < length unread)%nat).
Proof.
  unfold upload_read. destruct (Z.ltb_spec size 0) as [Hneg|Hpos]; cbn [fst snd].
  - split; [apply app_nil_r | split; [lia | split; [intros _ Hu; exact Hu | ]]].
    intros Hne. destruct unread; [contradiction | simpl; lia].
  - split; [apply take_drop | split; [intros ->; reflexivity | split]].
    + intros Hs Hnil. destruct unread as [|b l]; [reflexivity | ].
      destruct (Z.to_nat size) as [|k] eqn:Hk; [lia | discriminate].
    + intros Hne. rewrite length_drop.
      destruct (Z.to_nat size) as [|k] eqn:Hk; [contradiction | ].
      destruct unread; [contradiction | simpl; lia].
Qed.

Lemma stream_loop_ends (fuel : nat) app_cfg (free_at : nat -> Z) (q : _Quota)
    (unread tmp : list Byte.byte) (total : Z) (k : nat) :
  (length unread < fuel)%nat ->
  is_Some (stream_loop fuel app_cfg free_at q unread tmp total k).
Proof.
  revert q unread tmp total k.
  induction fuel as [|fuel IH]; intros q unread tmp total k Hfuel; [lia | ].
  cbn [stream_loop].
  destruct (upload_read_spec (upload_chunk_bytes app_cfg) unread)
    as (_ & _ & _ & Hshort).
  destruct (upload_read (upload_chunk_bytes app_cfg) unread) as [chunk rest].
  cbn [fst snd] in Hshort.
  destruct chunk as [|b chunk]; [eauto | ].
  destruct (Quota_check app_cfg (free_at k) q _); [eauto | ].
  apply IH. specialize (Hshort ltac:(discriminate)). lia.
Qed.

(** Whatever way the loop ends, the temporary file holds the beginning of
    what was to be written. *)
Lemma stream_loop_prefix (fuel : nat) app_cfg (free_at : nat -> Z) (q : _Quota)
    (unread tmp : list Byte.byte) (total : Z) (k : nat) outcome tmp' :
  stream_loop fuel app_cfg free_at q unread tmp total k = Some (outcome, tmp') ->
  exists rest, tmp ++ unread = tmp' ++ rest.
Proof.
  revert q unread tmp total k.
  induction fuel as [|fuel IH]; intros q unread tmp total k; [discriminate | ].
  cbn [stream_loop].
  destruct (upload_read_spec (upload_chunk_bytes app_cfg) unread)
    as (Hsplit & _).
  destruct (upload_read (upload_chunk_bytes app_cfg) unread) as [chunk rest].
  cbn [fst snd] in Hsplit.
  destruct chunk as [|b chunk].
  - intros Hr. injection Hr as <- <-. exists unread. reflexivity.
  - destruct (Quota_check app_cfg (free_at k) q _).
    + intros Hr. injection Hr as <- <-. exists unread. reflexivity.
    + intros Hr. apply IH in Hr as [rest' Hr]. exists rest'.
      rewrite <- Hr, <- Hsplit, app_assoc. reflexivity.
Qed.

(** A loop that ends without an exception, with a chunk size that is not
    0, has written everything, and the last check it passed bounds the
    whole. *)
Lemma stream_loop_done (fuel : nat) app_cfg (free_at : nat -> Z) (q : _Quota)
    (unread tmp : list Byte.byte) (total : Z) (k : nat) t tmp' :
  upload_chunk_bytes app_cfg <> 0 ->
  stream_loop fuel app_cfg free_at q unread tmp total k = Some (inr t, tmp') ->
  tmp' = tmp ++ unread /\
  t = total + Z.of_nat (length unread) /\
  (unread <> [] ->
   written q + Z.of_nat (length unread) <= max_upload_bytes app_cfg /\
   start q + written q + Z.of_nat (length unread)
     <= volume_quota_bytes app_cfg).
Proof.
  intros Hsize. revert q unread tmp total k.
  induction fuel as [|fuel IH]; intros q unread tmp total k; [discriminate | ].
  cbn [stream_loop].
  destruct (upload_read_spec (upload_chunk_bytes app_cfg) unread)
    as (Hsplit & _ & Hend & _).
  destruct (upload_read (upload_chunk_bytes app_cfg) unread) as [chunk rest].
  cbn [fst snd] in Hsplit, Hend.
  destruct chunk as [|b chunk].
  - intros Hr. injection Hr as <- <-.
    rewrite (Hend Hsize eq_refl), app_nil_r.
    split; [reflexivity | split; [simpl; lia | intros Hne; contradiction]].
  - destruct (Quota_check app_cfg (free_at k) q _) as [e|u] eqn:Hcheck;
      [discriminate | ].
    apply quota_check_passed in Hcheck as [Hmax Hquota].
    intros Hr. apply IH in Hr as (-> & -> & Hbounds).
    assert (length unread = (length (b :: chunk) + length rest)%nat) as Hlen
      by (rewrite <- Hsplit, length_app; reflexivity).
    split; [rewrite <- Hsplit, app_assoc; reflexivity | split; [lia | ]].
    intros _. destruct rest as [|b' rest].
    + simpl in Hlen. rewrite Hlen. simpl length in *. lia.
    + specialize (Hbounds ltac:(discriminate)).
      cbn [Quota_add start written] in Hbounds. lia.
Qed.

Lemma stream_loop_status (fuel : nat) app_cfg (free_at : nat -> Z) (q : _Quota)
    (unread tmp : list Byte.byte) (total : Z) (k : nat) e tmp' :
  stream_loop fuel app_cfg free_at q unread tmp total k = Some (inl e, tmp') ->
  status_code e = 413 \/ status_code e = 429 \/ status_code e = 507.
Proof.
  revert q unread tmp total k.
  induction fuel as [|fuel IH]; intros q unread tmp total k; [discriminate | ].
  cbn [stream_loop].
  destruct (upload_read (upload_chunk_bytes app_cfg) unread) as [chunk rest].
  destruct chunk as [|b chunk]; [discriminate | ].
  destruct (Quota_check app_cfg (free_at k) q _) as [e'|u] eqn:Hcheck.
  - intros Hr. injection Hr as <- <-. eapply quota_check_failed, Hcheck.
  - apply IH.
Qed.

(** The streaming loop always ends, whatever the chunk size, negative and
    zero included. *)
Theorem stream_upload_terminates app_cfg root (free_at : nat -> Z)
    (tmp_name : string) (upload : UploadFile) :
  is_Some (_stream_upload_to_tempfile app_cfg root free_at tmp_name upload).
Proof.
  unfold _stream_upload_to_tempfile.
  destruct (stream_loop_ends (S (length (body upload))) app_cfg free_at
              (Quota_init root) (body upload) [] 0 0 ltac:(lia))
    as [[outcome tmp] ->].
  destruct outcome as [e|total]; [eauto | ].
  destruct (total =? 0); eauto.
Qed.

(** An upload that is accepted is on the volume byte for byte under the
    name that is returned; it is not empty, not longer than
    [max_upload_bytes], and with what the volume held before it stays
    within the quota. *)
Theorem stream_upload_success app_cfg root (free_at : nat -> Z)
    (tmp_name : string) (upload : UploadFile) name root' :
  _stream_upload_to_tempfile app_cfg root free_at tmp_name upload
    = Some (inr name, root') ->
  name = tmp_name /\
  root' = <[tmp_name := RegularFile (body upload)]> root /\
  body upload <> [] /\
  upload_chunk_bytes app_cfg <> 0 /\
  Z.of_nat (length (body upload)) <= max_upload_bytes app_cfg /\
  _dir_size_bytes root + Z.of_nat (length (body upload))
    <= volume_quota_bytes app_cfg.
Proof.
  unfold _stream_upload_to_tempfile.
  destruct (stream_loop _ app_cfg free_at (Quota_init root) (body upload) [] 0 0)
    as [[[e|total] tmp]|] eqn:Hloop; try discriminate.
  destruct (Z.eqb_spec total 0) as [Hzero|Hpos]; [discriminate | ].
  intros Hr. injection Hr as <- <-.
  assert (upload_chunk_bytes app_cfg <> 0) as Hsize.
  { intros Hsize. cbn [stream_loop] in Hloop.
    destruct (upload_read_spec (upload_chunk_bytes app_cfg) (body upload))
      as (_ & Hnil & _).
    specialize (Hnil Hsize).
    destruct (upload_read (upload_chunk_bytes app_cfg) (body upload))
      as [chunk rest].
    cbn [fst] in Hnil. subst chunk. injection Hloop as <- _. contradiction. }
  apply (stream_loop_done _ app_cfg free_at _ _ _ _ _ _ _ Hsize) in Hloop
    as (-> & -> & Hbounds).
  assert (body upload <> []) as Hne.
  { intros Hnil. rewrite Hnil in Hpos. contradiction. }
  specialize (Hbounds Hne). cbn [Quota_init start written] in Hbounds.
  repeat split; try assumption; lia.
Qed.

(** An empty body, or a chunk size of 0 whatever the body, is answered
    with 400 "Empty upload.", and the empty temporary file stays. *)
Theorem empty_upload_rejected app_cfg root (free_at : nat -> Z)
    (tmp_name : string) (upload : UploadFile) :
  body upload = [] \/ upload_chunk_bytes app_cfg = 0 ->
  _stream_upload_to_tempfile app_cfg root free_at tmp_name upload =
    Some (inl {| status_code := 400; detail := "Empty upload." |},
          <[tmp_name := RegularFile []]> root).
Proof.
  intros Hempty. unfold _stream_upload_to_tempfile. cbn [stream_loop].
  assert ((upload_read (upload_chunk_bytes app_cfg) (body upload)).1 = [])
    as Hnil.
  { destruct Hempty as [-> | Hsize].
    - unfold upload_read. destruct (_ <? 0); [reflexivity | ].
      cbn [fst]. apply take_nil.
    - apply upload_read_spec, Hsize. }
  destruct (upload_read (upload_chunk_bytes app_cfg) (body upload))
    as [chunk rest].
  cbn [fst] in Hnil. subst chunk. reflexivity.
Qed.

(** The temporary file is never removed by the streaming: after any
    outcome, a rejection included, it is on the volume with the bytes that
    were written, a beginning of the body; the other entries are
    untouched and the volume has grown by that many bytes. *)
Theorem stream_upload_leaves_file app_cfg root (free_at : nat -> Z)
    (tmp_name : string) (upload : UploadFile) outcome root' :
  root !! tmp_name = None ->
  _stream_upload_to_tempfile app_cfg root free_at tmp_name upload
    = Some (outcome, root') ->
  exists written_bytes rest,
    body upload = written_bytes ++ rest /\
    root' !! tmp_name = Some (RegularFile written_bytes) /\
    (forall p, p <> tmp_name -> root' !! p = root !! p) /\
    _dir_size_bytes root' =
      _dir_size_bytes root + Z.of_nat (length written_bytes).
Proof.
  intros Hfresh. unfold _stream_upload_to_tempfile.
  destruct (stream_loop _ app_cfg free_at (Quota_init root) (body upload) [] 0 0)
    as [[o tmp]|] eqn:Hloop; [ | discriminate].
  apply stream_loop_prefix in Hloop as [rest Hrest]. cbn [app] in Hrest.
  intros Hr.
  assert (root' = <[tmp_name := RegularFile tmp]> root) as ->.
  { destruct o as [e|total]; [congruence | ].
    destruct (total =? 0); congruence. }
  exists tmp, rest. split; [exact Hrest | split; [ | split]].
  - apply lookup_insert_eq.
  - intros p Hp. apply lookup_insert_ne. congruence.
  - rewrite (dir_size_insert_fresh root tmp_name _ Hfresh). reflexivity.
Qed.

(** A rejection by the streaming has one of four statuses: 400 for an
    upload that gave no byte, 413, 429 or 507 from the quota checks. *)
Theorem stream_upload_statuses app_cfg root (free_at : nat -> Z)
    (tmp_name : string) (upload : UploadFile) e root' :
  _stream_upload_to_tempfile app_cfg root free_at tmp_name upload
    = Some (inl e, root') ->
  (e = {| status_code := 400; detail := "Empty upload." |} /\
   root' = <[tmp_name := RegularFile []]> root /\
   (body upload = [] \/ upload_chunk_bytes app_cfg = 0)) \/
  status_code e = 413 \/ status_code e = 429 \/ status_code e = 507.
Proof.
  unfold _stream_upload_to_tempfile.
  destruct (stream_loop _ app_cfg free_at (Quota_init root) (body upload) [] 0 0)
    as [[[e'|total] tmp]|] eqn:Hloop; try discriminate.
  - intros Hr. injection Hr as <- <-. right.
    eapply stream_loop_status, Hloop.
  - destruct (Z.eqb_spec total 0) as [-> | Hpos]; [ | discriminate].
    intros Hr. injection Hr as <- <-. left.
    destruct (Z.eq_dec (upload_chunk_bytes app_cfg) 0) as [Hsize|Hsize].
    + cbn [stream_loop] in Hloop.
      destruct (upload_read_spec (upload_chunk_bytes app_cfg) (body upload))
        as (_ & Hnil & _).
      specialize (Hnil Hsize).
      destruct (upload_read (upload_chunk_bytes app_cfg) (body upload))
        as [chunk rest].
      cbn [fst] in Hnil. subst chunk. injection Hloop as <-.
      split; [reflexivity | split; [reflexivity | right; exact Hsize]].
    + apply (stream_loop_done _ app_cfg free_at _ _ _ _ _ _ _ Hsize) in Hloop
        as (-> & Htotal & _).
      assert (body upload = []) as Hnil
        by (destruct (body upload); [reflexivity | simpl in Htotal; lia]).
      rewrite Hnil.
      split; [reflexivity | split; [reflexivity | left; reflexivity]].
Qed.

(** [_ensure_valid_upload] accepts exactly the uploads whose lowercased
    suffix is one of the allowed extensions and whose content type, read
    as the empty text when it is missing, starts with the allowed prefix;
    it then returns that suffix.  Both refusals are 400, and the extension
    is looked at first. *)
Theorem ensure_valid_upload_cases app_cfg (file : UploadFile) :
  let ext := py_lower (path_suffix (default "" (filename file))) in
  (_ensure_valid_upload app_cfg file = inr ext <->
   ext ∈ allowed_extensions app_cfg /\
   startswith (default "" (content_type file)) (allowed_mime_prefix app_cfg)
     = true) /\
  (forall e, _ensure_valid_upload app_cfg file = inl e -> status_code e = 400) /\
  (forall ext', _ensure_valid_upload app_cfg file = inr ext' -> ext' = ext) /\
  (ext ∉ allowed_extensions app_cfg ->
   exists e,
     _ensure_valid_upload app_cfg file = inl e /\
     detail e = ("Unsupported file extension '" +:+ ext +:+ "'. Allowed: "
                 +:+ py_join ", " (sorted_strings (allowed_extensions app_cfg)))
                  %string).
Proof.
  cbv zeta. unfold _ensure_valid_upload.
  destruct (decide (py_lower (path_suffix (default "" (filename file)))
                    ∈ allowed_extensions app_cfg)) as [Hin|Hout].
  - rewrite (bool_decide_eq_true_2 _ Hin). cbn [negb].
    destruct (startswith _ _) eqn:Hct; cbn [negb].
    + split; [split; [intros _; split; [exact Hin | reflexivity]
                     | reflexivity] | ].
      split; [discriminate | split; [congruence | contradiction]].
    + split; [split; [discriminate | intros [_ Hf]; discriminate] | ].
      split; [intros e He; injection He as <-; reflexivity | ].
      split; [discriminate | contradiction].
  - rewrite (bool_decide_eq_false_2 _ Hout). cbn [negb].
    split; [split; [discriminate | intros [Hin _]; contradiction] | ].
    split; [intros e He; injection He as <-; reflexivity | ].
    split; [discriminate | ].
    intros _. eexists. split; reflexivity.
Qed.


End UploadExtras.

(** * Properties of the endpoint *)

Section EndpointExtras.
Context `{Backend} `{Builtins}.

Lemma extract_features_not_missing (fs : FileSystem) self path msg :
  is_Some (files fs !! path) ->
  (extract_features fs self path).1 <> Raise (FileNotFoundError msg).
Proof.
  intros [[v|] Hf] Hr.
  - apply (extract_features_Raise fs self path v _ Hf) in Hr.
    apply while_true_Raise in Hr as [[flt Hr] | [Hr _]]; discriminate.
  - rewrite (extract_features_unreadable fs self path Hf) in Hr. discriminate.
Qed.

(** What the [try] block answers when the model does not load. *)
Lemma extract_response_load_failure (fs : FileSystem) cfg temp_path e :
  YOLO (yolo_model cfg) = inl e ->
  extract_response fs cfg temp_path =
    match e with
    | FileNotFoundError _ =>
        HTTPException 400 "Failed to read uploaded video file." None
    | _ => HTTPException 500 "Video processing failed." (Some e)
    end.
Proof.
  intros Hload. unfold extract_response, VideoFeatureExtractor_init.
  cbv zeta. cbn [default from_option id]. rewrite Hload.
  destruct e; reflexivity.
Qed.

(** What the [try] block answers for a file that is there. *)
Lemma extract_response_cases (fs : FileSystem) cfg temp_path :
  is_Some (files fs !! temp_path) ->
  match extract_response fs cfg temp_path with
  | JSONResponse r code =>
      code = 200 /\
      exists self,
        VideoFeatureExtractor_init (Some cfg) = Ok self /\
        (extract_features fs self temp_path).1 = Ok r
  | HTTPException code detail cause =>
      (code = 400 /\ detail = "Failed to read uploaded video file." /\
       cause = None /\
       exists msg, YOLO (yolo_model cfg) = inl (FileNotFoundError msg)) \/
      (code = 500 /\ detail = "Video processing failed." /\
       exists e, cause = Some e /\ forall msg, e <> FileNotFoundError msg)
  end.
Proof.
  intros Hthere.
  destruct (YOLO (yolo_model cfg)) as [e|det] eqn:Hload.
  { rewrite (extract_response_load_failure fs cfg temp_path e Hload).
    destruct e as [msg| | | | ];
      [left; split; [reflexivity | split; [reflexivity | split; [reflexivity | ]]];
       exists msg; reflexivity | | | | ];
      (right; split; [reflexivity | split; [reflexivity | ]];
       eexists; split; [reflexivity | discriminate]). }
  unfold extract_response, VideoFeatureExtractor_init. cbv zeta.
  cbn [default from_option id]. rewrite Hload.
  cbn [raising mbind result_bind mret result_ret].
  set (self := {| config := cfg; self_detector := det |}).
  destruct (extract_features fs self temp_path).1 as [r|e] eqn:Hr.
  { split; [reflexivity | ]. exists self. split; [reflexivity | exact Hr]. }
  assert (forall msg, e <> FileNotFoundError msg) as Hne.
  { intros msg ->.
    exact (extract_features_not_missing fs self temp_path msg Hthere Hr). }
  destruct e as [msg| | | | ];
    [exfalso; apply (Hne msg); reflexivity | | | | ];
    (right; split; [reflexivity | split; [reflexivity | ]];
     eexists; split; [reflexivity | exact Hne]).
Qed.

Lemma ensure_valid_upload_400 app_cfg (file : UploadFile) e :
  _ensure_valid_upload app_cfg file = inl e -> status_code e = 400.
Proof.
  unfold _ensure_valid_upload.
  destruct (negb (bool_decide _)); [intros He; injection He as <-; reflexivity | ].
  destruct (negb (startswith _ _)); [ | discriminate].
  intros He. injection He as <-. reflexivity.
Qed.

(** What the streaming leaves on the volume, for both of its outcomes. *)
Lemma stream_upload_stored app_cfg root (free_at : nat -> Z)
    (tmp_name : string) (upload : UploadFile) outcome root' :
  _stream_upload_to_tempfile app_cfg root free_at tmp_name upload
    = Some (outcome, root') ->
  exists tmp rest,
    body upload = tmp ++ rest /\
    root' = <[tmp_name := RegularFile tmp]> root /\
    match outcome with
    | inr name => name = tmp_name /\ tmp = body upload /\ body upload <> []
    | inl e =>
        (e = {| status_code := 400; detail := "Empty upload." |} /\ tmp = []) \/
        status_code e = 413 \/ status_code e = 429 \/ status_code e = 507
    end.
Proof.
  unfold _stream_upload_to_tempfile.
  destruct (stream_loop _ app_cfg free_at (Quota_init root) (body upload) [] 0 0)
    as [[o tmp]|] eqn:Hloop; [ | discriminate].
  destruct (stream_loop_prefix _ _ _ _ _ _ _ _ _ _ Hloop) as [rest Hrest].
  cbn [app] in Hrest.
  assert (upload_chunk_bytes app_cfg = 0 -> o = inr 0 /\ tmp = []) as Hzero.
  { intros Hsize. cbn [stream_loop] in Hloop.
    destruct (upload_read_spec (upload_chunk_bytes app_cfg) (body upload))
      as (_ & Hnil & _).
    specialize (Hnil Hsize).
    destruct (upload_read (upload_chunk_bytes app_cfg) (body upload))
      as [chunk rest'].
    cbn [fst] in Hnil. subst chunk. injection Hloop as <- <-.
    split; reflexivity. }
  destruct o as [e|total].
  - intros Hr. injection Hr as <- <-. exists tmp, rest.
    split; [exact Hrest | split; [reflexivity | right]].
    eapply stream_loop_status, Hloop.
  - destruct (Z.eq_dec (upload_chunk_bytes app_cfg) 0) as [Hsize|Hsize].
    + destruct (Hzero Hsize) as [Ht ->]. injection Ht as ->.
      cbn [Z.eqb]. intros Hr. injection Hr as <- <-. exists [], rest.
      split; [exact Hrest | split; [reflexivity | left]].
      split; reflexivity.
    + apply (stream_loop_done _ app_cfg free_at _ _ _ _ _ _ _ Hsize) in Hloop
        as (-> & -> & _).
      cbn [app] in *. rewrite Z.add_0_l.
      destruct (Z.eqb_spec (Z.of_nat (length (body upload))) 0) as [Hlen|Hlen];
        intros Hr; injection Hr as <- <-; exists (body upload), rest.
      * split; [exact Hrest | split; [reflexivity | left]].
        split; [reflexivity | ].
        destruct (body upload); [reflexivity | simpl in Hlen; lia].
      * split; [exact Hrest | split; [reflexivity | ]].
        split; [reflexivity | split; [reflexivity | ]].
        intros Hnil. rewrite Hnil in Hlen. contradiction.
Qed.

(** The temporary file of an upload is on the volume when the endpoint has
    answered exactly when the streaming rejected the upload, or when the
    removal failed: a refusal by [_ensure_valid_upload] leaves the volume
    as it was; a rejection by the streaming (empty upload, size, quota,
    free space) leaves the file with the bytes written so far; once the
    upload is stored, the volume is back to what it was whatever the
    answer, unless [os.unlink] raises, and then the whole upload stays. *)
Theorem extract_removes_upload app_cfg ext_env probe (resolve : string -> string)
    (free_at : nat -> Z) (tmp_name : string) (refused : bool) root
    (file : UploadFile) resp root' :
  root !! tmp_name = None ->
  extract app_cfg ext_env probe resolve free_at tmp_name refused root file
    = Some (resp, root') ->
  match _ensure_valid_upload app_cfg file with
  | inl e => resp = answer e /\ root' = root
  | inr _ =>
      match _stream_upload_to_tempfile app_cfg root free_at tmp_name file with
      | Some (inr _, _) =>
          if refused
          then root' = <[tmp_name := RegularFile (body file)]> root
          else root' = root
      | Some (inl e, _) =>
          resp = answer e /\
          exists written_bytes rest,
            body file = written_bytes ++ rest /\
            root' = <[tmp_name := RegularFile written_bytes]> root
      | None => False
      end
  end.
Proof.
  intros Hfresh. unfold extract.
  destruct (_ensure_valid_upload app_cfg file) as [e|ext].
  { intros Hr. injection Hr as <- <-. split; reflexivity. }
  destruct (_stream_upload_to_tempfile app_cfg root free_at tmp_name file)
    as [[[e|temp_path] root1]|] eqn:Hstream; [ | | discriminate].
  - intros Hr. injection Hr as <- <-. split; [reflexivity | ].
    destruct (stream_upload_stored _ _ _ _ _ _ _ Hstream)
      as (tmp & rest & Hbody & Hroot & _).
    exists tmp, rest. split; [exact Hbody | exact Hroot].
  - destruct (stream_upload_stored _ _ _ _ _ _ _ Hstream)
      as (tmp & rest & _ & -> & -> & -> & _).
    cbv zeta. intros Hr. injection Hr as _ <-.
    unfold os_unlink. destruct refused; [reflexivity | ].
    rewrite lookup_insert_eq. cbn [default from_option id].
    rewrite delete_insert_eq. apply delete_id, Hfresh.
Qed.

(** The answers of the endpoint: 200 with the report of the stored upload;
    400 for an upload that [_ensure_valid_upload] refuses, for an empty
    upload, and, with the detail "Failed to read uploaded video file.", for
    a model whose load raises [FileNotFoundError]; 413, 429 or 507 from the
    quota; 500 with the fixed detail for every other exception. *)
Theorem extract_status_codes app_cfg ext_env probe (resolve : string -> string)
    (free_at : nat -> Z) (tmp_name : string) (refused : bool) root
    (file : UploadFile) resp root' :
  extract app_cfg ext_env probe resolve free_at tmp_name refused root file
    = Some (resp, root') ->
  let cfg := _build_feature_config ext_env in
  match resp with
  | JSONResponse r code =>
      code = 200 /\ body file <> [] /\
      (exists ext, _ensure_valid_upload app_cfg file = inr ext) /\
      exists self,
        VideoFeatureExtractor_init (Some cfg) = Ok self /\
        (extract_features
           {| files := seen_by_decoder probe
                         <$> <[tmp_name := RegularFile (body file)]> root;
              resolve := resolve |} self tmp_name).1 = Ok r
  | HTTPException code message cause =>
      (code = 400 /\ cause = None /\
       ((exists e, _ensure_valid_upload app_cfg file = inl e /\
                   message = detail e) \/
        message = "Empty upload." \/
        (message = "Failed to read uploaded video file." /\
         exists msg, YOLO (yolo_model cfg) = inl (FileNotFoundError msg)))) \/
      ((code = 413 \/ code = 429 \/ code = 507) /\ cause = None /\
       exists ext, _ensure_valid_upload app_cfg file = inr ext) \/
      (code = 500 /\ message = "Video processing failed." /\
       exists e, cause = Some e /\ forall msg, e <> FileNotFoundError msg)
  end.
Proof.
  unfold extract. cbv zeta.
  destruct (_ensure_valid_upload app_cfg file) as [e|ext] eqn:Hvalid.
  { intros Hr. injection Hr as <- _. unfold answer. left.
    split; [exact (ensure_valid_upload_400 app_cfg file e Hvalid) | ].
    split; [reflexivity | left]. exists e. split; reflexivity. }
  destruct (_stream_upload_to_tempfile app_cfg root free_at tmp_name file)
    as [[[e|temp_path] root1]|] eqn:Hstream; [ | | discriminate].
  - intros Hr. injection Hr as <- _. unfold answer.
    destruct (stream_upload_stored _ _ _ _ _ _ _ Hstream)
      as (tmp & rest & _ & _ & [[-> _] | Hs]).
    + left. split; [reflexivity | split; [reflexivity | ]].
      right. left. reflexivity.
    + right. left. split; [exact Hs | split; [reflexivity | ]].
      exists ext. reflexivity.
  - destruct (stream_upload_stored _ _ _ _ _ _ _ Hstream)
      as (tmp & rest & _ & -> & -> & -> & Hne).
    intros Hr. injection Hr as <- _.
    set (fs := {| files := seen_by_decoder probe
                             <$> <[tmp_name := RegularFile (body file)]> root;
                  resolve := resolve |}).
    assert (is_Some (files fs !! tmp_name)) as Hthere.
    { cbn [fs files]. rewrite lookup_fmap, lookup_insert_eq. cbn. eauto. }
    pose proof (extract_response_cases fs (_build_feature_config ext_env)
                  tmp_name Hthere) as Hcases.
    destruct (extract_response fs (_build_feature_config ext_env) tmp_name)
      as [r code | code detail cause].
    + destruct Hcases as [-> Hself].
      split; [reflexivity | split; [exact Hne | split; [eauto | exact Hself]]].
    + destruct Hcases as [(-> & -> & -> & Hload) | (-> & -> & Hcause)].
      * left. split; [reflexivity | split; [reflexivity | ]].
        right. right. split; [reflexivity | exact Hload].
      * right. right. split; [reflexivity | split; [reflexivity | exact Hcause]].
Qed.

(** A stored upload that the decoder does not open is answered with 500,
    like a failure of the server.  A model whose weights are missing is
    answered with 400 and the detail of an unreadable upload, whatever was
    uploaded; any other failure of the load is a 500. *)
Theorem unreadable_upload_500_missing_model_400 app_cfg ext_env probe
    (resolve : string -> string) (free_at : nat -> Z) (tmp_name : string)
    (refused : bool) root (file : UploadFile) ext temp_path root1 :
  _ensure_valid_upload app_cfg file = inr ext ->
  _stream_upload_to_tempfile app_cfg root free_at tmp_name file
    = Some (inr temp_path, root1) ->
  let cfg := _build_feature_config ext_env in
  let response :=
    fst <$> extract app_cfg ext_env probe resolve free_at tmp_name refused
              root file in
  (forall det,
     YOLO (yolo_model cfg) = inr det ->
     probe (body file) = OtherFile ->
     response =
       Some (HTTPException 500 "Video processing failed."
               (Some (ValueError ("Unable to open video: " ++ tmp_name))))) /\
  (forall msg,
     YOLO (yolo_model cfg) = inl (FileNotFoundError msg) ->
     response =
       Some (HTTPException 400 "Failed to read uploaded video file." None)) /\
  (forall e,
     YOLO (yolo_model cfg) = inl e ->
     (forall msg, e <> FileNotFoundError msg) ->
     response = Some (HTTPException 500 "Video processing failed." (Some e))).
Proof.
  intros Hvalid Hstream. cbv zeta. unfold extract. rewrite Hvalid, Hstream.
  destruct (stream_upload_stored _ _ _ _ _ _ _ Hstream)
    as (tmp & rest & _ & -> & -> & -> & _).
  cbn [fmap option_fmap option_map fst].
  split; [ | split].
  - intros det Hload Hprobe. f_equal.
    unfold extract_response, VideoFeatureExtractor_init. cbv zeta.
    cbn [default from_option id]. rewrite Hload.
    cbn [raising mbind result_bind mret result_ret].
    rewrite extract_features_unreadable; [reflexivity | ].
    cbn [files]. rewrite lookup_fmap, lookup_insert_eq. cbn.
    rewrite Hprobe. reflexivity.
  - intros msg Hload. f_equal.
    rewrite (extract_response_load_failure _ _ _ _ Hload). reflexivity.
  - intros e Hload Hne. f_equal.
    rewrite (extract_response_load_failure _ _ _ _ Hload).
    destruct e as [msg| | | | ]; [ | reflexivity ..].
    exfalso. exact (Hne msg eq_refl).
Qed.

End EndpointExtras.

(** * Witnesses of the further properties *)

Lemma text_ratio_from_counts_witness :
  match (extract_features Synthetic.disk
           (Synthetic.extractor_of Synthetic.dense_config) "clip.mp4").1 with
  | Ok r => text_present_ratio r = int_truediv 3 7
  | Raise _ => False
  end.
Proof.
  assert (Hok : is_ok (extract_features Synthetic.disk
                  (Synthetic.extractor_of Synthetic.dense_config)
                  "clip.mp4").1 = true) by (vm_compute; reflexivity).
  assert (Hcounts :
    (fun st => (text_positives st, text_samples st)) <$>
      (while_true (Synthetic.extractor_of Synthetic.dense_config)
         (video_reads Synthetic.clip) initial_locals).1 = Ok (3, 7))
    by (vm_compute; reflexivity).
  destruct (extract_features Synthetic.disk
              (Synthetic.extractor_of Synthetic.dense_config) "clip.mp4").1
    as [r|e] eqn:E; [ | discriminate Hok].
  destruct (text_ratio_from_counts Synthetic.disk
              (Synthetic.extractor_of Synthetic.dense_config) "clip.mp4" r E)
    as (v & st & Hv & Hrun & _ & Hratio).
  assert (Hclip : files Synthetic.disk !! "clip.mp4"
                  = Some (VideoFile Synthetic.clip)) by reflexivity.
  rewrite Hclip in Hv. injection Hv as <-.
  rewrite Hrun in Hcounts. injection Hcounts as Hp Hs.
  rewrite Hratio, Hp, Hs. reflexivity.
Defined.

Lemma skipped_frames_ignored_witness :
  measurements <$>
    (extract_features SyntheticMore.two_clips
       (Synthetic.extractor_of Synthetic.sparse_config) "clip.mp4").1 =
  measurements <$>
    (extract_features SyntheticMore.two_clips
       (Synthetic.extractor_of Synthetic.sparse_config) "variant.mp4").1.
Proof.
  apply (skipped_frames_ignored SyntheticMore.two_clips
           (Synthetic.extractor_of Synthetic.sparse_config)
           "clip.mp4" "variant.mp4" Synthetic.clip SyntheticMore.variant
           Synthetic.clip_frames SyntheticMore.variant_frames);
    try reflexivity.
  vm_compute. discriminate.
Defined.

Lemma decode_fault_ends_run_witness :
  (extract_features Synthetic.disk
     (Synthetic.extractor_of Synthetic.dense_config) "truncated.mp4").1 =
    Raise (BackendError (Cv2Error "decode failed")).
Proof.
  rewrite (decode_fault_ends_run Synthetic.disk
             (Synthetic.extractor_of Synthetic.dense_config) "truncated.mp4"
             Synthetic.truncated_clip
             (map (@Grabbed _ Synthetic.synth)
                [Synthetic.plain 10; Synthetic.plain 20])
             (Cv2Error "decode failed") [] eq_refl eq_refl).
  reflexivity.
Defined.

Lemma resize_to_width_cases_witness :
  @_resize_to_width _ Synthetic.synth (Synthetic.captioned 90 []) 640 =
    Ok (Synthetic.captioned 90 []) /\
  @_resize_to_width _ Synthetic.synth (Synthetic.plain 10) 640 <> Raise ZeroDivisionError.
Proof.
  split.
  - apply (proj1 (@resize_to_width_cases _ Synthetic.synth (Synthetic.captioned 90 []) 640)).
    vm_compute. discriminate.
  - intros Hr.
    apply (proj1 (proj2 (@resize_to_width_cases _ Synthetic.synth (Synthetic.plain 10) 640)))
      in Hr as [Hw _].
    vm_compute in Hw. discriminate Hw.
Defined.

Lemma py_strip_spec_witness :
  py_strip ([0x20; 0xA0] ++ Synthetic.codepoints "BREAKING NEWS"
              ++ [0x3000; 0x0A; 0x2028])%N
    = Synthetic.codepoints "BREAKING NEWS".
Proof.
  apply (py_strip_spec [0x20; 0xA0]%N (Synthetic.codepoints "BREAKING NEWS")
           [0x3000; 0x0A; 0x2028]%N); reflexivity.
Defined.

Lemma contains_text_edges_witness :
  @_contains_text _ Synthetic.synth SyntheticMore.blank_page 1 = Ok false /\
  @_contains_text _ Synthetic.synth SyntheticMore.blank_page 0 = Ok true.
Proof.
  split.
  - destruct (proj2 (@contains_text_edges _ Synthetic.synth SyntheticMore.blank_page 1)
                (map Synthetic.codepoints ["  "; ""; String "160" " "]) eq_refl)
      as (found & -> & _ & Hblank).
    rewrite Hblank; [reflexivity | ].
    repeat constructor.
  - destruct (proj2 (@contains_text_edges _ Synthetic.synth SyntheticMore.blank_page 0)
                (map Synthetic.codepoints ["  "; ""; String "160" " "]) eq_refl)
      as (found & -> & Hmin & _).
    rewrite Hmin; [reflexivity | lia].
Defined.

Lemma get_int_fallback_witness :
  _get_int SyntheticUpload.small_env "FRAME_STRIDE" 5 = 5 /\
  _get_int SyntheticUpload.small_env "MAX_UPLOAD_BYTES" 500 = 10 /\
  _get_int SyntheticUpload.small_env "RESIZE_WIDTH" 640 = 640.
Proof.
  split; [ | split].
  - refine (proj1 (proj2 (get_int_fallback SyntheticUpload.small_env
                            "FRAME_STRIDE" 5 _)) "five" _ _ _).
    + vm_compute. reflexivity.
    + reflexivity.
    + discriminate.
    + vm_compute. reflexivity.
  - refine (proj2 (proj2 (get_int_fallback SyntheticUpload.small_env
                            "MAX_UPLOAD_BYTES" 500 _)) "10" 10 _ _ _).
    + vm_compute. reflexivity.
    + reflexivity.
    + discriminate.
    + vm_compute. reflexivity.
  - refine (proj1 (get_int_fallback SyntheticUpload.small_env
                     "RESIZE_WIDTH" 640 _) _).
    + vm_compute. reflexivity.
    + left. reflexivity.
Defined.

Lemma get_tuple_ints_all_or_nothing_witness :
  _get_tuple_ints SyntheticUpload.small_env "HISTOGRAM_BINS" [8; 8; 8]
    = [8; 16] /\
  _get_tuple_ints SyntheticUpload.small_env "FRAME_STRIDE" [1; 2] = [1; 2].
Proof.
  split.
  - apply (proj1 (get_tuple_ints_all_or_nothing SyntheticUpload.small_env
                    "HISTOGRAM_BINS" [8; 8; 8])).
    + vm_compute. repeat constructor.
    + discriminate.
  - apply (proj1 (proj2 (get_tuple_ints_all_or_nothing
                           SyntheticUpload.small_env "FRAME_STRIDE" [1; 2]))).
    exists "five". split; [vm_compute; left | vm_compute; reflexivity].
Defined.

Lemma histogram_bins_not_padded_witness :
  length (load_histogram_bins SyntheticUpload.small_env) = 2%nat.
Proof.
  refine (proj2 (histogram_bins_not_padded SyntheticUpload.small_env
                   [8; 16] _ _)).
  - vm_compute. repeat constructor.
  - discriminate.
Defined.

Lemma loaded_extensions_dotted_witness :
  py_join "," (allowed_extensions (AppSettings_load SyntheticUpload.small_env))
    = ".mp4,.mov,.mkv,.avi,.webm".
Proof.
  apply (proj2 (proj2 (proj2
           (loaded_extensions_dotted SyntheticUpload.small_env)))).
  vm_compute. repeat constructor.
Defined.

Lemma dir_size_accounting_witness :
  _dir_size_bytes
    (<["/tmp/video-tmp/vs_new.mp4" := RegularFile (SyntheticUpload.payload 9)]>
       SyntheticUpload.used_volume) = 15 /\
  _dir_size_bytes
    (delete "/tmp/video-tmp/vs_old.mp4" SyntheticUpload.used_volume) = 0.
Proof.
  destruct (dir_size_accounting SyntheticUpload.used_volume
              "/tmp/video-tmp/vs_new.mp4") as (_ & _ & Hadd & _).
  destruct (dir_size_accounting SyntheticUpload.used_volume
              "/tmp/video-tmp/vs_old.mp4") as (_ & _ & _ & Hdel).
  split.
  - rewrite (proj1 (Hadd eq_refl)). vm_compute. reflexivity.
  - rewrite (Hdel (RegularFile (SyntheticUpload.payload 6)) eq_refl).
    vm_compute. reflexivity.
Defined.

Lemma quota_check_order_witness :
  Quota_check SyntheticUpload.small_app 1000 {| start := 6; written := 8 |} 2
    = inr tt /\
  forall e,
    Quota_check SyntheticUpload.small_app 1000 {| start := 6; written := 8 |} 3
      = inl e ->
    status_code e = 413.
Proof.
  split.
  - apply (proj1 (quota_check_order SyntheticUpload.small_app 1000
                    {| start := 6; written := 8 |} 2)).
    vm_compute. repeat split; discriminate.
  - intros e He.
    destruct (proj2 (quota_check_order SyntheticUpload.small_app 1000
                       {| start := 6; written := 8 |} 3) e He)
      as [[Hs _] | [(_ & Hle & _) | (_ & Hle & _)]];
      [exact Hs | | ]; vm_compute in Hle; exfalso; apply Hle; reflexivity.
Defined.

Lemma stream_upload_success_witness :
  match _stream_upload_to_tempfile SyntheticUpload.small_app ∅
          SyntheticUpload.roomy "/tmp/video-tmp/vs_1.mp4"
          SyntheticUpload.holiday with
  | Some (inr name, root') =>
      root' = <[name := RegularFile (SyntheticUpload.payload 9)]> ∅
  | _ => False
  end.
Proof.
  assert (Hfst :
    fst <$> _stream_upload_to_tempfile SyntheticUpload.small_app ∅
              SyntheticUpload.roomy "/tmp/video-tmp/vs_1.mp4"
              SyntheticUpload.holiday
      = Some (inr "/tmp/video-tmp/vs_1.mp4"))
    by (vm_compute; reflexivity).
  destruct (_stream_upload_to_tempfile SyntheticUpload.small_app ∅
              SyntheticUpload.roomy "/tmp/video-tmp/vs_1.mp4"
              SyntheticUpload.holiday)
    as [[[e|name] root']|] eqn:E; try discriminate Hfst.
  destruct (stream_upload_success SyntheticUpload.small_app ∅
              SyntheticUpload.roomy "/tmp/video-tmp/vs_1.mp4"
              SyntheticUpload.holiday name root' E) as (-> & -> & _).
  reflexivity.
Defined.

Lemma empty_upload_rejected_witness :
  fst <$> _stream_upload_to_tempfile SyntheticUpload.small_app
            SyntheticUpload.used_volume SyntheticUpload.roomy
            "/tmp/video-tmp/vs_2.mp4"
            {| filename := Some "a.mp4"; content_type := Some "video/mp4";
               body := [] |}
    = Some (inl {| status_code := 400; detail := "Empty upload." |}).
Proof.
  rewrite (empty_upload_rejected SyntheticUpload.small_app
             SyntheticUpload.used_volume SyntheticUpload.roomy
             "/tmp/video-tmp/vs_2.mp4"
             {| filename := Some "a.mp4"; content_type := Some "video/mp4";
                body := [] |}
             (or_introl eq_refl)).
  reflexivity.
Defined.

Lemma stream_upload_leaves_file_witness :
  match _stream_upload_to_tempfile SyntheticUpload.small_app ∅
          SyntheticUpload.roomy "/tmp/video-tmp/vs_3.mov"
          SyntheticUpload.oversized with
  | Some (inl e, root') => is_Some (root' !! "/tmp/video-tmp/vs_3.mov")
  | _ => False
  end.
Proof.
  assert (Hfst :
    match _stream_upload_to_tempfile SyntheticUpload.small_app ∅
            SyntheticUpload.roomy "/tmp/video-tmp/vs_3.mov"
            SyntheticUpload.oversized with
    | Some (inl e, _) => status_code e
    | _ => 0
    end = 413)
    by (vm_compute; reflexivity).
  destruct (_stream_upload_to_tempfile SyntheticUpload.small_app ∅
              SyntheticUpload.roomy "/tmp/video-tmp/vs_3.mov"
              SyntheticUpload.oversized)
    as [[[e|name] root']|] eqn:E; try discriminate Hfst.
  destruct (stream_upload_leaves_file SyntheticUpload.small_app ∅
              SyntheticUpload.roomy "/tmp/video-tmp/vs_3.mov"
              SyntheticUpload.oversized (inl e) root' (lookup_empty _) E)
    as (written_bytes & rest & _ & Hfile & _).
  rewrite Hfile. eauto.
Defined.

Lemma stream_upload_statuses_witness :
  match _stream_upload_to_tempfile SyntheticUpload.small_app ∅
          SyntheticUpload.roomy "/tmp/video-tmp/vs_3.mov"
          SyntheticUpload.oversized with
  | Some (inl e, root') =>
      status_code e = 400 \/ status_code e = 413 \/ status_code e = 429 \/
      status_code e = 507
  | _ => False
  end.
Proof.
  assert (Hfst :
    match _stream_upload_to_tempfile SyntheticUpload.small_app ∅
            SyntheticUpload.roomy "/tmp/video-tmp/vs_3.mov"
            SyntheticUpload.oversized with
    | Some (inl e, _) => status_code e
    | _ => 0
    end = 413)
    by (vm_compute; reflexivity).
  destruct (_stream_upload_to_tempfile SyntheticUpload.small_app ∅
              SyntheticUpload.roomy "/tmp/video-tmp/vs_3.mov"
              SyntheticUpload.oversized)
    as [[[e|name] root']|] eqn:E; try discriminate Hfst.
  destruct (stream_upload_statuses SyntheticUpload.small_app ∅
              SyntheticUpload.roomy "/tmp/video-tmp/vs_3.mov"
              SyntheticUpload.oversized e root' E)
    as [(-> & _) | Hs]; [left; reflexivity | right; exact Hs].
Defined.

Lemma ensure_valid_upload_cases_witness :
  _ensure_valid_upload SyntheticUpload.small_app SyntheticUpload.holiday
    = inr ".mp4" /\
  exists e,
    _ensure_valid_upload SyntheticUpload.small_app SyntheticUpload.report_pdf
      = inl e /\ status_code e = 400.
Proof.
  split.
  - refine (proj2 (proj1 (ensure_valid_upload_cases SyntheticUpload.small_app
                            SyntheticUpload.holiday)) _).
    split; [vm_compute; repeat constructor | vm_compute; reflexivity].
  - destruct (proj2 (proj2 (proj2
                (ensure_valid_upload_cases SyntheticUpload.small_app
                   SyntheticUpload.report_pdf))))
      as (e & He & _).
    + vm_compute. intros Hin.
      repeat (apply elem_of_cons in Hin as [Hin | Hin]; [discriminate Hin | ]).
      apply elem_of_nil in Hin. exact Hin.
    + exists e. split; [exact He | ].
      apply (proj1 (proj2 (ensure_valid_upload_cases SyntheticUpload.small_app
                             SyntheticUpload.report_pdf)) e He).
Defined.

Lemma extract_removes_upload_witness :
  match extract SyntheticUpload.small_app SyntheticUpload.plain_settings
          SyntheticEndpoint.probe id SyntheticUpload.roomy
          "/tmp/video-tmp/vs_5.mp4" false SyntheticUpload.used_volume
          SyntheticUpload.holiday with
  | Some (_, root') => root' = SyntheticUpload.used_volume
  | None => False
  end.
Proof.
  assert (Hvalid :
    _ensure_valid_upload SyntheticUpload.small_app SyntheticUpload.holiday
      = inr ".mp4") by (vm_compute; reflexivity).
  assert (Hstream :
    fst <$> _stream_upload_to_tempfile SyntheticUpload.small_app
              SyntheticUpload.used_volume SyntheticUpload.roomy
              "/tmp/video-tmp/vs_5.mp4" SyntheticUpload.holiday
      = Some (inr "/tmp/video-tmp/vs_5.mp4"))
    by (vm_compute; reflexivity).
  assert (Hsome :
    match extract SyntheticUpload.small_app SyntheticUpload.plain_settings
            SyntheticEndpoint.probe id SyntheticUpload.roomy
            "/tmp/video-tmp/vs_5.mp4" false SyntheticUpload.used_volume
            SyntheticUpload.holiday with
    | Some _ => true
    | None => false
    end = true) by (vm_compute; reflexivity).
  destruct (extract SyntheticUpload.small_app SyntheticUpload.plain_settings
              SyntheticEndpoint.probe id SyntheticUpload.roomy
              "/tmp/video-tmp/vs_5.mp4" false SyntheticUpload.used_volume
              SyntheticUpload.holiday)
    as [[resp root']|] eqn:E; [ | discriminate Hsome].
  pose proof (extract_removes_upload SyntheticUpload.small_app
                SyntheticUpload.plain_settings SyntheticEndpoint.probe id
                SyntheticUpload.roomy "/tmp/video-tmp/vs_5.mp4" false
                SyntheticUpload.used_volume SyntheticUpload.holiday resp root'
                eq_refl E) as Hleft.
  rewrite Hvalid in Hleft.
  destruct (_stream_upload_to_tempfile SyntheticUpload.small_app
              SyntheticUpload.used_volume SyntheticUpload.roomy
              "/tmp/video-tmp/vs_5.mp4" SyntheticUpload.holiday)
    as [[[e|name] root1]|]; try discriminate Hstream.
  exact Hleft.
Defined.

Lemma extract_status_codes_witness :
  match extract SyntheticUpload.small_app SyntheticUpload.plain_settings
          SyntheticEndpoint.probe id SyntheticUpload.roomy
          "/tmp/video-tmp/vs_5.mp4" false SyntheticUpload.used_volume
          SyntheticUpload.holiday with
  | Some (JSONResponse _ code, _) => code = 200
  | _ => False
  end /\
  match extract SyntheticUpload.small_app SyntheticUpload.plain_settings
          SyntheticEndpoint.probe id SyntheticUpload.roomy
          "/tmp/video-tmp/vs_6.mov" false SyntheticUpload.used_volume
          SyntheticUpload.oversized with
  | Some (HTTPException code _ cause, _) => code <> 500 /\ cause = None
  | _ => False
  end.
Proof.
  split.
  - assert (Hshape :
      match extract SyntheticUpload.small_app SyntheticUpload.plain_settings
              SyntheticEndpoint.probe id SyntheticUpload.roomy
              "/tmp/video-tmp/vs_5.mp4" false SyntheticUpload.used_volume
              SyntheticUpload.holiday with
      | Some (JSONResponse _ _, _) => true
      | _ => false
      end = true) by (vm_compute; reflexivity).
    destruct (extract SyntheticUpload.small_app SyntheticUpload.plain_settings
                SyntheticEndpoint.probe id SyntheticUpload.roomy
                "/tmp/video-tmp/vs_5.mp4" false SyntheticUpload.used_volume
                SyntheticUpload.holiday)
      as [[[r code|code message cause] root']|] eqn:E;
      try discriminate Hshape.
    exact (proj1 (extract_status_codes _ _ _ _ _ _ _ _ _ _ _ E)).
  - assert (Hshape :
      match extract SyntheticUpload.small_app SyntheticUpload.plain_settings
              SyntheticEndpoint.probe id SyntheticUpload.roomy
              "/tmp/video-tmp/vs_6.mov" false SyntheticUpload.used_volume
              SyntheticUpload.oversized with
      | Some (HTTPException code _ _, _) => code
      | _ => 0
      end = 413) by (vm_compute; reflexivity).
    destruct (extract SyntheticUpload.small_app SyntheticUpload.plain_settings
                SyntheticEndpoint.probe id SyntheticUpload.roomy
                "/tmp/video-tmp/vs_6.mov" false SyntheticUpload.used_volume
                SyntheticUpload.oversized)
      as [[[r code|code message cause] root']|] eqn:E;
      try discriminate Hshape.
    subst code.
    destruct (extract_status_codes _ _ _ _ _ _ _ _ _ _ _ E)
      as [(Hc & _) | [(_ & Hcause & _) | (Hc & _)]];
      try discriminate Hc.
    split; [discriminate | exact Hcause].
Defined.

Lemma unreadable_upload_500_missing_model_400_witness :
  fst <$> extract SyntheticUpload.small_app SyntheticUpload.plain_settings
            SyntheticEndpoint.probe id SyntheticUpload.roomy
            "/tmp/video-tmp/vs_7.mp4" false SyntheticUpload.used_volume
            SyntheticEndpoint.short_note
    = Some (HTTPException 500 "Video processing failed."
              (Some (ValueError
                       "Unable to open video: /tmp/video-tmp/vs_7.mp4"))) /\
  fst <$> extract SyntheticUpload.small_app SyntheticEndpoint.missing_model
            SyntheticEndpoint.probe id SyntheticUpload.roomy
            "/tmp/video-tmp/vs_5.mp4" false SyntheticUpload.used_volume
            SyntheticUpload.holiday
    = Some (HTTPException 400 "Failed to read uploaded video file." None).
Proof.
  split.
  - assert (Hvalid :
      _ensure_valid_upload SyntheticUpload.small_app
        SyntheticEndpoint.short_note = inr ".mp4")
      by (vm_compute; reflexivity).
    assert (Hstream :
      fst <$> _stream_upload_to_tempfile SyntheticUpload.small_app
                SyntheticUpload.used_volume SyntheticUpload.roomy
                "/tmp/video-tmp/vs_7.mp4" SyntheticEndpoint.short_note
        = Some (inr "/tmp/video-tmp/vs_7.mp4"))
      by (vm_compute; reflexivity).
    destruct (_stream_upload_to_tempfile SyntheticUpload.small_app
                SyntheticUpload.used_volume SyntheticUpload.roomy
                "/tmp/video-tmp/vs_7.mp4" SyntheticEndpoint.short_note)
      as [[[e|name] root1]|] eqn:E; try discriminate Hstream.
    exact (proj1 (unreadable_upload_500_missing_model_400 SyntheticUpload.small_app
                    SyntheticUpload.plain_settings SyntheticEndpoint.probe id
                    SyntheticUpload.roomy "/tmp/video-tmp/vs_7.mp4" false
                    SyntheticUpload.used_volume SyntheticEndpoint.short_note
                    ".mp4" name root1 Hvalid E)
             "yolov8n.pt" eq_refl eq_refl).
  - assert (Hvalid :
      _ensure_valid_upload SyntheticUpload.small_app SyntheticUpload.holiday
        = inr ".mp4") by (vm_compute; reflexivity).
    assert (Hstream :
      fst <$> _stream_upload_to_tempfile SyntheticUpload.small_app
                SyntheticUpload.used_volume SyntheticUpload.roomy
                "/tmp/video-tmp/vs_5.mp4" SyntheticUpload.holiday
        = Some (inr "/tmp/video-tmp/vs_5.mp4"))
      by (vm_compute; reflexivity).
    destruct (_stream_upload_to_tempfile SyntheticUpload.small_app
                SyntheticUpload.used_volume SyntheticUpload.roomy
                "/tmp/video-tmp/vs_5.mp4" SyntheticUpload.holiday)
      as [[[e|name] root1]|] eqn:E; try discriminate Hstream.
    exact (proj1 (proj2 (unreadable_upload_500_missing_model_400 SyntheticUpload.small_app
                    SyntheticEndpoint.missing_model SyntheticEndpoint.probe id
                    SyntheticUpload.roomy "/tmp/video-tmp/vs_5.mp4" false
                    SyntheticUpload.used_volume SyntheticUpload.holiday
                    ".mp4" name root1 Hvalid E))
             "No such file or directory: 'missing.pt'" eq_refl).
Defined.
